(** * shodan-search-script: a shallow embedding of the reconnaissance pipeline

    The repository holds two variants of one pipeline:
    - [main.py]     (decode, extract, reverse DNS, report of [{domain}]);
    - [old-main.py] (the same, plus the readme probe, the pacing delay and the
                     version sort; report of [{domain, url, version}]).

    Python values are modelled by an inductive type, exceptions by their class
    with the subclass relation the [except] clauses test, and every function
    that can raise returns a [result].  Functions that print, sleep or touch
    the network thread a [world] that records what they did.

    The library collaborators ([json.loads], [open], [socket.getfqdn],
    [requests.get], [random.uniform]) are arguments of the functions that call
    them.  A file is known by what it does once open: the lines its iteration
    delivers and the exception that may end it, the exceptions that writing
    to it and closing it may raise.  Standard output takes whatever is
    printed. *)

From Stdlib Require Import ZArith Ascii String List Bool Lia.
From Stdlib Require Import DecimalString DecimalZ SpecFloat Permutation Sorted.
From stdpp Require Import gmap strings list fin_maps.

Local Open Scope Z_scope.

(* ===================================================================== *)
(** * Exceptions *)
(* ===================================================================== *)

(** The exception classes the two programs and their collaborators can meet,
    all below [Exception].  Signals that derive from [BaseException] only
    ([KeyboardInterrupt], [SystemExit]) are not raised by any modelled
    operation and are left out. *)
Inductive exn : Type :=
| Exception
| ValueError            (* int() on a bad literal, int(nan) *)
| JSONDecodeError       (* json.loads *)
| UnicodeError
| UnicodeDecodeError    (* reading bytes that are not text *)
| TypeError             (* int(None), "ip" in 5, 1 < '' *)
| ArithmeticError
| OverflowError         (* int(inf) *)
| LookupError
| KeyError              (* d["version"] on a missing key *)
| RuntimeError
| RecursionError        (* json.loads on deep nesting *)
| OSError
| FileNotFoundError     (* open *)
| PermissionError       (* open *)
| herror                (* socket.herror *)
| gaierror              (* socket.gaierror *)
| RequestException      (* requests.exceptions.RequestException(IOError) *)
| HTTPError             (* raise_for_status *)
| ConnectionError
| Timeout
| TooManyRedirects.

(** The direct base class, [None] for [Exception] itself. *)
Definition base (e : exn) : option exn :=
  match e with
  | Exception => None
  | ValueError | TypeError | ArithmeticError | LookupError
  | RuntimeError | OSError => Some Exception
  | JSONDecodeError | UnicodeError => Some ValueError
  | UnicodeDecodeError => Some UnicodeError
  | OverflowError => Some ArithmeticError
  | KeyError => Some LookupError
  | RecursionError => Some RuntimeError
  | FileNotFoundError | PermissionError | herror | gaierror
  | RequestException => Some OSError
  | HTTPError | ConnectionError | Timeout | TooManyRedirects =>
      Some RequestException
  end.

Definition exn_eqb (a b : exn) : bool :=
  match a, b with
  | Exception, Exception | ValueError, ValueError
  | JSONDecodeError, JSONDecodeError | TypeError, TypeError
  | UnicodeError, UnicodeError | UnicodeDecodeError, UnicodeDecodeError
  | ArithmeticError, ArithmeticError | OverflowError, OverflowError
  | LookupError, LookupError | KeyError, KeyError
  | RuntimeError, RuntimeError | RecursionError, RecursionError
  | OSError, OSError | FileNotFoundError, FileNotFoundError
  | PermissionError, PermissionError | herror, herror | gaierror, gaierror
  | RequestException, RequestException | HTTPError, HTTPError
  | ConnectionError, ConnectionError | Timeout, Timeout
  | TooManyRedirects, TooManyRedirects => true
  | _, _ => false
  end.

(** [isinstance e c]: walk up the base classes; the hierarchy is four deep. *)
Fixpoint isinstance_fuel (n : nat) (e c : exn) : bool :=
  exn_eqb e c ||
  match n with
  | O => false
  | S n' => match base e with
            | Some b => isinstance_fuel n' b c
            | None => false
            end
  end.

Definition isinstance (e c : exn) : bool := isinstance_fuel 4 e c.

Inductive result (A : Type) : Type :=
| Ok (a : A)
| Raise (e : exn).
Arguments Ok {A} a.
Arguments Raise {A} e.

Definition rbind {A B} (m : result A) (f : A -> result B) : result B :=
  match m with
  | Ok a => f a
  | Raise e => Raise e
  end.

Global Instance result_ret : MRet result := @Ok.
Global Instance result_bind : MBind result := fun A B f m => rbind m f.

(** [try: body / except c1: h1 / except c2: h2 ...]: the first clause whose
    class the raised exception is an instance of handles it. *)
Fixpoint find_handler {H : Type} (e : exn) (hs : list (exn * H)) : option H :=
  match hs with
  | [] => None
  | (c, h) :: hs' => if isinstance e c then Some h else find_handler e hs'
  end.

Definition try_except {A} (body : result A)
    (hs : list (exn * (exn -> result A))) : result A :=
  match body with
  | Ok a => Ok a
  | Raise e => match find_handler e hs with
               | Some h => h e
               | None => Raise e
               end
  end.

(* ===================================================================== *)
(** * Python values and the builtins the programs use *)
(* ===================================================================== *)

(** What [json.loads] can return.  A [float] is an IEEE double in the
    kernel's specification format; a [dict] keeps its items in insertion
    order, keys are strings (JSON object keys). *)
#[warnings="-register-all"]
Inductive pyval : Type :=
| PNone
| PBool (b : bool)
| PInt (z : Z)
| PFloat (f : spec_float)
| PStr (s : string)
| PList (l : list pyval)
| PDict (items : list (string * pyval)).

(** Strings are sequences of code points below 256 (Latin-1); the character
    classes below are Python's, restricted to that range. *)
Definition code (a : ascii) : Z := Z.of_N (N_of_ascii a).

(** [str.isspace], the class [str.strip()] removes. *)
Definition is_space (a : ascii) : bool :=
  let c := code a in
  ((9 <=? c) && (c <=? 13)) || ((28 <=? c) && (c <=? 32))
  || (c =? 133) || (c =? 160).

(** The white space [int()] skips around a literal: the file, group, record
    and unit separators (28..31) are not part of it. *)
Definition is_int_space (a : ascii) : bool :=
  let c := code a in
  ((9 <=? c) && (c <=? 13)) || (c =? 32) || (c =? 133) || (c =? 160).

(** [str.isdecimal] on one character, with the digit's value: the class of
    [\d] in a [str] pattern and of the digits [int()] reads. *)
Definition decimal_value (a : ascii) : option Z :=
  let c := code a in
  if (48 <=? c) && (c <=? 57) then Some (c - 48) else None.

Definition is_decimal (a : ascii) : bool :=
  match decimal_value a with Some _ => true | None => false end.

(** [str.isdigit] on one character: the decimal digits and the superscripts
    two, three and one. *)
Definition is_digit_char (a : ascii) : bool :=
  let c := code a in
  is_decimal a || (c =? 178) || (c =? 179) || (c =? 185).

Fixpoint lstrip (p : ascii -> bool) (s : string) : string :=
  match s with
  | EmptyString => EmptyString
  | String a s' => if p a then lstrip p s' else s
  end.

Fixpoint rstrip (p : ascii -> bool) (s : string) : string :=
  match s with
  | EmptyString => EmptyString
  | String a s' =>
      match rstrip p s' with
      | EmptyString => if p a then EmptyString else String a EmptyString
      | r => String a r
      end
  end.

(** [s.strip()] *)
Definition strip (s : string) : string := rstrip is_space (lstrip is_space s).

Fixpoint all_chars (p : ascii -> bool) (s : string) : bool :=
  match s with
  | EmptyString => true
  | String a s' => p a && all_chars p s'
  end.

(** [s.isdigit()]: at least one character, and all of them digits. *)
Definition isdigit (s : string) : bool :=
  match s with
  | EmptyString => false
  | _ => all_chars is_digit_char s
  end.

(** [s.split(".")] for a one-character separator: never empty, one part more
    than there are separators. *)
Fixpoint split (sep : ascii) (s : string) : list string :=
  match s with
  | EmptyString => [EmptyString]
  | String a s' =>
      if Ascii.eqb a sep then EmptyString :: split sep s'
      else match split sep s' with
           | p :: ps => String a p :: ps
           | [] => [String a EmptyString]
           end
  end.

Fixpoint is_prefix (p s : string) : bool :=
  match p, s with
  | EmptyString, _ => true
  | String a p', String b s' => Ascii.eqb a b && is_prefix p' s'
  | String _ _, EmptyString => false
  end.

(** [p in s] on strings: [p] occurs in [s]. *)
Fixpoint contains (p s : string) : bool :=
  is_prefix p s ||
  match s with
  | EmptyString => false
  | String _ s' => contains p s'
  end.

(** The digits of a decimal literal after the first one: single underscores
    may separate digits. *)
Fixpoint int_digits (acc : Z) (after_underscore : bool) (s : string)
  : option Z :=
  match s with
  | EmptyString => if after_underscore then None else Some acc
  | String a s' =>
      match decimal_value a with
      | Some d => int_digits (10 * acc + d) false s'
      | None =>
          if Ascii.eqb a "_"%char && negb after_underscore
          then int_digits acc true s'
          else None
      end
  end.

Definition int_unsigned (s : string) : option Z :=
  match s with
  | EmptyString => None
  | String a s' =>
      match decimal_value a with
      | Some d => int_digits d false s'
      | None => None
      end
  end.

(** An optional sign, then the digits. *)
Definition int_signed (t : string) : option Z :=
  match t with
  | String "+"%char t' => int_unsigned t'
  | String "-"%char t' => option_map Z.opp (int_unsigned t')
  | _ => int_unsigned t
  end.

(** [sys.get_int_max_str_digits()]: the interpreter's default, which neither
    program changes. *)
Definition int_max_str_digits : Z := 4300.

(** The number of digits of a literal; the sign and the underscores do not
    count, leading zeros do. *)
Fixpoint count_digits (s : string) : Z :=
  match s with
  | EmptyString => 0
  | String a s' => (if is_decimal a then 1 else 0) + count_digits s'
  end.

(** [int(s)] for a string, base 10: white space around, an optional sign,
    then the digits.  A literal of more than [int_max_str_digits] digits is
    refused, with [ValueError] like a malformed one. *)
Definition int_of_str (s : string) : result Z :=
  let literal := rstrip is_int_space (lstrip is_int_space s) in
  match int_signed literal with
  | Some z =>
      if count_digits literal <=? int_max_str_digits then Ok z
      else Raise ValueError
  | None => Raise ValueError
  end.

(** [int(f)] for a float: truncation towards zero; [nan] and the infinities
    have no integer. *)
Definition int_of_float (f : spec_float) : result Z :=
  match f with
  | S754_zero _ => Ok 0
  | S754_infinity _ => Raise OverflowError
  | S754_nan => Raise ValueError
  | S754_finite s m e =>
      let mag := match e with
                 | Z0 => Zpos m
                 | Zpos p => Zpos m * 2 ^ Zpos p
                 | Zneg p => Zpos m / 2 ^ Zpos p
                 end in
      Ok (if s then - mag else mag)
  end.

(** [int(v)] *)
Definition py_int (v : pyval) : result Z :=
  match v with
  | PInt z => Ok z
  | PBool b => Ok (if b then 1 else 0)
  | PFloat f => int_of_float f
  | PStr s => int_of_str s
  | PNone | PList _ | PDict _ => Raise TypeError
  end.

(** [str(z)] for an int, as an f-string renders it. *)
Definition str_of_int (z : Z) : string := NilZero.string_of_int (Z.to_int z).

(** Truth value of an optional string ([None] and [''] are false). *)
Definition truthy (o : option string) : bool :=
  match o with
  | Some (String _ _) => true
  | _ => false
  end.

(* ===================================================================== *)
(** * format_ip (main.py 4-26, old-main.py 16-38: the same text) *)
(* ===================================================================== *)

Definition format_ip (ip_int : pyval) : result (option string) :=
  try_except
    (ip_int ← py_int ip_int;
     if (0 <=? ip_int) && (ip_int <=? 4294967295) then
       let octet1 := Z.land (Z.shiftr ip_int 24) 255 in
       let octet2 := Z.land (Z.shiftr ip_int 16) 255 in
       let octet3 := Z.land (Z.shiftr ip_int 8) 255 in
       let octet4 := Z.land ip_int 255 in
       Ok (Some (str_of_int octet1 +:+ "." +:+ str_of_int octet2 +:+ "."
                 +:+ str_of_int octet3 +:+ "." +:+ str_of_int octet4))
     else Ok None)
    [(ValueError, fun _ => Ok None)].

(* ===================================================================== *)
(** * The world: what a run prints, asks and writes *)
(* ===================================================================== *)

(** One constructor per [print] of the two programs; the formatted values
    are kept as values. *)
Inductive message : Type :=
| InvalidIPValue (ip_value : pyval)        (* "Invalid IP value: {ip_value}" *)
| SkippingInvalidJSON (line : string)      (* "Skipping invalid JSON line: {line.strip()}" *)
| AnErrorOccurred (e : exn)                (* "An error occurred: {e}" *)
| FileNotFound (file_path : string)        (* "File not found: {file_path}" *)
| PerformingReverseDNS (ip : string)       (* "Performing reverse DNS for: {ip_address}" *)
| HostnameFound (hostname : string)        (* "Hostname found: {hostname}" *)
| NoHostnameFound                          (* "No hostname found" *)
| NoDomainNameFound (ip : string)          (* "No domain name found for {ip_address}" *)
| ErrorDuringLookup (ip : string) (e : exn)
    (* "Error during reverse DNS lookup for {ip_address}: {e}" *)
| VersionNotFound (domain : string)
    (* "Version not found in readme.txt for {domain}" *)
| RequestFailed (domain : string) (e : exn) (* "Request failed for {domain}: {e}" *)
| NoDomainFoundForIP (ip : string)         (* "No domain found for IP: {ip}" *)
| SitesFound (n : nat)                     (* "Sites found: {len(results)}" *)
| ResultsSaved.                            (* "Results saved to output.json" *)

(** A result record is a Python dict with string keys and string values. *)
Inductive event : Type :=
| Print (m : message)
| OpenRead (file_path : string)
| Getfqdn (ip_address : string)
| HttpGet (url : string) (headers : list (string * string)) (timeout : Z)
| Sleep (seconds : spec_float)
| OpenWrite (file_path : string)
| JsonDump (file_path : string) (results : list (gmap string string))
    (indent : Z).

(** The events so far, oldest first, and the number of calls made to
    [random.uniform]. *)
Record world : Type := World {
  trace : list event;
  drawn : nat
}.

Definition io (A : Type) : Type := world -> result A * world.

Definition ret {A} (a : A) : io A := fun w => (Ok a, w).

Definition bind {A B} (m : io A) (f : A -> io B) : io B :=
  fun w => match m w with
           | (Ok a, w') => f a w'
           | (Raise e, w') => (Raise e, w')
           end.

Definition lift {A} (r : result A) : io A := fun w => (r, w).

Definition emit (ev : event) : io unit :=
  fun w => (Ok tt, World (trace w ++ [ev]) (drawn w)).

Definition print (m : message) : io unit := emit (Print m).

(** A [try] statement whose handlers act on the world the body left. *)
Definition io_try {A} (body : io A) (hs : list (exn * (exn -> io A)))
  : io A :=
  fun w => match body w with
           | (Ok a, w') => (Ok a, w')
           | (Raise e, w') =>
               match find_handler e hs with
               | Some h => h e w'
               | None => (Raise e, w')
               end
           end.

Global Instance io_ret : MRet io := @ret.
Global Instance io_bind : MBind io := fun A B f m => bind m f.

(** [for x in xs: acc = body(acc, x)] *)
Fixpoint for_each {A S} (body : S -> A -> io S) (acc : S) (xs : list A)
  : io S :=
  match xs with
  | [] => ret acc
  | x :: xs' => acc' ← body acc x; for_each body acc' xs'
  end.

(** ["ip" in obj] for the key ["ip"]: membership in a dict's keys, equality
    with an element of a list, occurrence in a string; the other JSON values
    are not iterable. *)
Definition py_in (key : string) (obj : pyval) : result bool :=
  match obj with
  | PDict items => Ok (existsb (fun kv => String.eqb (fst kv) key) items)
  | PList l =>
      Ok (existsb (fun v => match v with
                            | PStr s => String.eqb s key
                            | _ => false
                            end) l)
  | PStr s => Ok (contains key s)
  | PNone | PBool _ | PInt _ | PFloat _ => Raise TypeError
  end.

(** [obj[key]] for a string key: only a dict can be indexed by a string (a
    JSON number is not subscriptable at all). *)
Definition py_getitem (obj : pyval) (key : string) : result pyval :=
  match obj with
  | PDict items =>
      match List.find (fun kv => String.eqb (fst kv) key) items with
      | Some kv => Ok (snd kv)
      | None => Raise KeyError
      end
  | _ => Raise TypeError
  end.

(** [time.sleep(d)]: refuses a negative or undefined length. *)
Definition sleep (d : spec_float) : io unit :=
  match d with
  | S754_nan => lift (Raise ValueError)
  | S754_infinity false => lift (Raise OverflowError)
  | _ => if SFltb d (S754_zero false) then lift (Raise ValueError)
         else emit (Sleep d)
  end.

(** A text file open for reading, by what [for line in file] does on it: it
    delivers these lines, and then ends, or raises (a [UnicodeDecodeError] at
    bytes that are not text, an [OSError] of the device).  Closing a file
    that was only read raises nothing. *)
Record in_file : Type := InFile {
  lines_of : list string;
  read_error : option exn
}.

(** A text file open for writing: the exception that writing to it raises,
    and the one that closing it raises, if any. *)
Record out_file : Type := OutFile {
  write_error : option exn;
  close_error : option exn
}.

Definition outcome (o : option exn) : result unit :=
  match o with
  | Some e => Raise e
  | None => Ok tt
  end.

(** An HTTP response, as far as [fetch_readme_content] reads it. *)
Record response : Type := Response {
  status_code : Z;
  text : string
}.

(** [response.raise_for_status()]: HTTPError for 4xx and 5xx. *)
Definition raise_for_status (r : response) : result unit :=
  if (400 <=? status_code r) && (status_code r <? 600)
  then Raise HTTPError else Ok tt.

(** The character class [[\d.]]. *)
Definition version_char (a : ascii) : bool :=
  is_decimal a || Ascii.eqb a "."%char.

Fixpoint take_while (p : ascii -> bool) (s : string) : string :=
  match s with
  | EmptyString => EmptyString
  | String a s' => if p a then String a (take_while p s') else EmptyString
  end.

Fixpoint drop_prefix (p s : string) : option string :=
  match p, s with
  | EmptyString, _ => Some s
  | String a p', String b s' =>
      if Ascii.eqb a b then drop_prefix p' s' else None
  | String _ _, EmptyString => None
  end.

(** [re.match(r"Stable tag: ([\d.]+)", s)]: the pattern anchored at the
    start of [s]; the result is group 1.  The group is greedy and nothing
    follows it, so it is the longest run of class characters. *)
Definition stable_tag_match (s : string) : option string :=
  match drop_prefix "Stable tag: " s with
  | Some rest =>
      match take_while version_char rest with
      | EmptyString => None
      | g => Some g
      end
  | None => None
  end.

(** [re.search(r"Stable tag: ([\d.]+)", content)]: the leftmost position
    where the pattern matches. *)
Fixpoint stable_tag_search (content : string) : option string :=
  match stable_tag_match content with
  | Some g => Some g
  | None => match content with
            | EmptyString => None
            | String _ rest => stable_tag_search rest
            end
  end.

(* ===================================================================== *)
(** * Sort keys and [list.sort] *)
(* ===================================================================== *)

(** An element of the list [version_key] returns: an [int] or a [str]. *)
Inductive key_part : Type :=
| KInt (n : Z)
| KStr (s : string).

(** [a == b]: an int and a str are never equal, and comparing them for
    equality raises nothing. *)
Definition part_eqb (a b : key_part) : bool :=
  match a, b with
  | KInt m, KInt n => m =? n
  | KStr s, KStr t => String.eqb s t
  | _, _ => false
  end.

(** [a < b]: numeric on ints, by code point on strings; between an int and a
    str the operator is not supported. *)
Definition part_lt (a b : key_part) : result bool :=
  match a, b with
  | KInt m, KInt n => Ok (m <? n)
  | KStr s, KStr t => Ok (String.ltb s t)
  | _, _ => Raise TypeError
  end.

(** [a < b] on lists: the first position where the elements are not equal
    decides; without one, the shorter list is the smaller. *)
Fixpoint key_lt (a b : list key_part) : result bool :=
  match a, b with
  | [], [] => Ok false
  | [], _ :: _ => Ok true
  | _ :: _, [] => Ok false
  | x :: a', y :: b' => if part_eqb x y then key_lt a' b' else part_lt x y
  end.

Section ListSort.
Context {A K : Type}.
Variable key : A -> result K.
Variable lt : K -> K -> result bool.

(** The keys are computed once, in list order, before any comparison. *)
Fixpoint decorate (l : list A) : result (list (K * A)) :=
  match l with
  | [] => Ok []
  | x :: l' => k ← key x; d ← decorate l'; Ok ((k, x) :: d)
  end.

(** Insertion of [p] into a sorted prefix: [p] goes to the right of every
    element it is not smaller than, so equal keys keep their order. *)
Fixpoint insert_sorted (p : K * A) (sorted : list (K * A))
  : result (list (K * A)) :=
  match sorted with
  | [] => Ok [p]
  | q :: rest =>
      b ← lt (fst p) (fst q);
      if b : bool then Ok (p :: q :: rest)
      else r ← insert_sorted p rest; Ok (q :: r)
  end.

Fixpoint insert_all (sorted todo : list (K * A)) : result (list (K * A)) :=
  match todo with
  | [] => Ok sorted
  | p :: todo' => s ← insert_sorted p sorted; insert_all s todo'
  end.

(** [l.sort(key=key)].  The interpreter extends a sorted prefix by (binary)
    insertion, using [<] on the keys only and placing an element to the
    right of the elements it is not smaller than; the model finds the place
    by a scan from the left.  On a list of two elements both make the one
    comparison [key(l[1]) < key(l[0])].  An exception raised by [key] or by
    a comparison leaves the sort. *)
Definition list_sort (l : list A) : result (list A) :=
  d ← decorate l;
  s ← insert_all [] d;
  Ok (map snd s).
End ListSort.

(* ===================================================================== *)
(** * The pipeline *)
(* ===================================================================== *)

(** old-main.py 8-13 *)
Definition HEADERS : list (string * string) :=
  [("User-Agent",
    "Mozilla/5.0 (Windows NT 10.0; Win64; x64) AppleWebKit/537.36 (KHTML, like Gecko) Chrome/120.0.0.0 Safari/537.36");
   ("Accept-Language", "en-US,en;q=0.9");
   ("Referer", "https://www.google.com/");
   ("Connection", "keep-alive")].

(** The value of a truthy optional string. *)
Definition truthy_value (o : option string) : option string :=
  if truthy o then o else None.

(** ** The functions the two files share, word for word *)

Section Shared.
(** [open(file_path, 'r')]: the file, or the exception [open] raises. *)
Variable open_read : string -> result in_file.
(** [json.loads] *)
Variable json_loads : string -> result pyval.

(** main.py 43-55, old-main.py 55-67: the body of [for line in file]. *)
Definition extract_line (ips : list string) (line : string)
  : io (list string) :=
  io_try
    (json_object ← lift (json_loads (strip line));
     has_ip ← lift (py_in "ip" json_object);
     if has_ip : bool then
       ip_value ← lift (py_getitem json_object "ip");
       formatted_ip ← lift (format_ip ip_value);
       match truthy_value formatted_ip with
       | Some formatted_ip => mret (ips ++ [formatted_ip])
       | None => print (InvalidIPValue ip_value);; mret ips
       end
     else mret ips)
    [(JSONDecodeError,
      fun _ : exn => print (SkippingInvalidJSON (strip line));; mret ips);
     (Exception, fun e : exn => print (AnErrorOccurred e);; mret ips)].

(** main.py 42-55, old-main.py 54-67: [for line in file: ...] with the list
    [ips] it extends.  The loop is left at the end of the file, or by the
    exception that reading the next line raises, or by one the body lets
    through; [ips] is then what the lines before have made it. *)
Fixpoint for_lines (body : list string -> string -> io (list string))
    (ips : list string) (lines : list string) (read_error : option exn)
  : io (list string * option exn) :=
  match lines with
  | [] => mret (ips, read_error)
  | line :: lines' =>
      fun w => match body ips line w with
               | (Ok ips', w') => for_lines body ips' lines' read_error w'
               | (Raise e, w') => (Ok (ips, Some e), w')
               end
  end.

(** main.py 41-55, old-main.py 53-67: the [with] block, with the list it
    leaves and the exception that left it. *)
Definition read_ips (file_path : string) : io (list string * option exn) :=
  emit (OpenRead file_path);;
  match open_read file_path with
  | Ok file => for_lines extract_line [] (lines_of file) (read_error file)
  | Raise e => mret ([], Some e)
  end.

(** main.py 28-58, old-main.py 40-70.  The [try] around the [with] block
    has one handler, for [FileNotFoundError]; the function returns the list
    as the block left it. *)
Definition extract_and_format_ips (file_path : string) : io (list string) :=
  '(ips, raised) ← read_ips file_path;
  match raised with
  | None => mret ips
  | Some e =>
      if isinstance e FileNotFoundError
      then print (FileNotFound file_path);; mret ips
      else lift (Raise e)
  end.

End Shared.

(** The calls to the network, the random generator and the output file leave
    an event each. *)
Definition call_getfqdn (getfqdn : string -> result string)
    (ip_address : string) : io string :=
  emit (Getfqdn ip_address);; lift (getfqdn ip_address).

Definition call_requests_get
    (requests_get : string -> list (string * string) -> Z -> result response)
    (url : string) (headers : list (string * string)) (timeout : Z)
  : io response :=
  emit (HttpGet url headers timeout);; lift (requests_get url headers timeout).

Definition call_random_uniform (random_uniform : nat -> Z -> Z -> spec_float)
    (a b : Z) : io spec_float :=
  fun w => (Ok (random_uniform (drawn w) a b), World (trace w) (S (drawn w))).

Definition call_open_write (open_write : string -> result out_file)
    (file_path : string) : io out_file :=
  emit (OpenWrite file_path);; lift (open_write file_path).

(** [json.dump(results, outfile, indent=indent)], [outfile] being the file
    opened at [file_path]. *)
Definition json_dump (results : list (gmap string string))
    (outfile : out_file) (file_path : string) (indent : Z) : io unit :=
  emit (JsonDump file_path results indent);;
  lift (outcome (write_error outfile)).

(** [with open(file_path, 'w') as outfile: body].  The file is closed when
    the body is left, by its end or by an exception; an exception of the
    closing takes the place of the body's. *)
Definition with_open_write {A} (open_write : string -> result out_file)
    (file_path : string) (body : out_file -> io A) : io A :=
  outfile ← call_open_write open_write file_path;
  (fun w => match body outfile w with
            | (r, w') =>
                (match close_error outfile with
                 | Some e => Raise e
                 | None => r
                 end, w')
            end) : io A.

(** ** main.py *)

Module Main.
Section Program.
Variable open_read : string -> result in_file.
Variable json_loads : string -> result pyval.
(** [socket.getfqdn] *)
Variable getfqdn : string -> result string.
(** [open(file_path, 'w')] *)
Variable open_write : string -> result out_file.

(** main.py 60-84 *)
Definition reverse_dns_lookup (ip_address : string) : io (option string) :=
  io_try
    (print (PerformingReverseDNS ip_address);;
     hostname ← call_getfqdn getfqdn ip_address;
     if negb (String.eqb hostname ip_address) then
       print (HostnameFound hostname);; mret (Some hostname)
     else
       print NoHostnameFound;; mret None)
    [(herror,
      fun _ : exn => print (NoDomainNameFound ip_address);; mret None);
     (Exception,
      fun e : exn => print (ErrorDuringLookup ip_address e);; mret None)].

(** main.py 95-100: the body of [for ip in ips]. *)
Definition main_step (results : list (gmap string string)) (ip : string)
  : io (list (gmap string string)) :=
  domain ← reverse_dns_lookup ip;
  match truthy_value domain with
  | Some domain => mret (results ++ [{["domain" := domain]}])
  | None => print (NoDomainFoundForIP ip);; mret results
  end.

(** main.py 86-106 *)
Definition main : io unit :=
  let file_path := "input.json" in
  ips ← extract_and_format_ips open_read json_loads file_path;
  results ← for_each main_step [] ips;
  with_open_write open_write "output.json" (fun outfile =>
    json_dump results outfile "output.json" 4;;
    print (SitesFound (length results)));;
  print ResultsSaved.
End Program.
End Main.

(** ** old-main.py *)

Module OldMain.
Section Program.
Variable open_read : string -> result in_file.
Variable json_loads : string -> result pyval.
(** [socket.getfqdn] *)
Variable getfqdn : string -> result string.
(** [requests.get(url, headers=..., timeout=...)] *)
Variable requests_get :
  string -> list (string * string) -> Z -> result response.
(** [random.uniform(a, b)], by the number of earlier calls. *)
Variable random_uniform : nat -> Z -> Z -> spec_float.
(** [open(file_path, 'w')] *)
Variable open_write : string -> result out_file.

(** old-main.py 72-93 *)
Definition reverse_dns_lookup (ip_address : string) : io (option string) :=
  io_try
    (hostname ← call_getfqdn getfqdn ip_address;
     if negb (String.eqb hostname ip_address) then mret (Some hostname)
     else mret None)
    [(herror,
      fun _ : exn => print (NoDomainNameFound ip_address);; mret None);
     (Exception,
      fun e : exn => print (ErrorDuringLookup ip_address e);; mret None)].

(** old-main.py 95-121 *)
Definition fetch_readme_content (domain : string)
  : io (option string * option string) :=
  let url :=
    "http://" +:+ domain +:+ "/wp-content/plugins/embedpress/readme.txt" in
  io_try
    (response ← call_requests_get requests_get url HEADERS 5;
     lift (raise_for_status response);;
     let content := text response in
     let version_match := stable_tag_search content in
     match version_match with
     | Some group1 =>
         let version := strip group1 in
         mret (Some url, Some version)
     | None =>
         print (VersionNotFound domain);; mret (None, None)
     end)
    [(RequestException,
      fun e : exn => print (RequestFailed domain e);; mret (None, None))].

(** old-main.py 123-129 *)
Definition version_key (item : gmap string string)
  : result (list key_part) :=
  version ← match item !! "version" with
            | Some v => Ok v
            | None => Raise KeyError
            end;
  let parts := split "." version in
  mapM (fun part : string =>
          if isdigit part then n ← int_of_str part; Ok (KInt n)
          else Ok (KStr part)) parts.

(** old-main.py 141-150: the body of [for ip in ips]. *)
Definition main_step (results : list (gmap string string)) (ip : string)
  : io (list (gmap string string)) :=
  seconds ← call_random_uniform random_uniform 2 6;
  sleep seconds;;
  domain ← reverse_dns_lookup ip;
  match truthy_value domain with
  | Some domain =>
      '(url, version) ← fetch_readme_content domain;
      match truthy_value url, truthy_value version with
      | Some url, Some version =>
          mret (results ++ [<["version" := version]>
                              (<["url" := url]> {["domain" := domain]})])
      | _, _ => mret results
      end
  | None => print (NoDomainFoundForIP ip);; mret results
  end.

(** old-main.py 131-159 *)
Definition main : io unit :=
  let file_path := "input.json" in
  ips ← extract_and_format_ips open_read json_loads file_path;
  results ← for_each main_step [] ips;
  results ← lift (list_sort version_key key_lt results);
  with_open_write open_write "output.json" (fun outfile =>
    json_dump results outfile "output.json" 4;;
    print (SitesFound (length results)));;
  print ResultsSaved.
End Program.
End OldMain.

(* ===================================================================== *)
(** * Notions the properties are stated with *)
(* ===================================================================== *)

(** The dotted string of four numbers, as the f-string of [format_ip]
    builds it. *)
Definition dotted (a b c d : Z) : string :=
  str_of_int a +:+ "." +:+ str_of_int b +:+ "."
  +:+ str_of_int c +:+ "." +:+ str_of_int d.

(** The way back the specification names: decompose the dotted string into
    its four numbers ([int(p) for p in s.split(".")]). *)
Definition octets_of_dotted (s : string) : option (Z * Z * Z * Z) :=
  match split "." s with
  | [a; b; c; d] =>
      match int_of_str a, int_of_str b, int_of_str c, int_of_str d with
      | Ok a, Ok b, Ok c, Ok d => Some (a, b, c, d)
      | _, _, _, _ => None
      end
  | _ => None
  end.

(** ... and recombine them with the bit weights. *)
Definition recombine (o : Z * Z * Z * Z) : Z :=
  let '(a, b, c, d) := o in a * 2 ^ 24 + b * 2 ^ 16 + c * 2 ^ 8 + d.

Definition is_octet (n : Z) : Prop := 0 <= n <= 255.

(** A character other than the separator of the dotted form. *)
Definition not_dot (a : ascii) : bool := negb (Ascii.eqb a ".").

(** The check made on each of the 256 octets: the rendering has no dot and
    [int()] reads it back. *)
Definition octet_ok (k : nat) : bool :=
  let n := Z.of_nat k in
  all_chars not_dot (str_of_int n) &&
  match int_of_str (str_of_int n) with
  | Ok m => m =? n
  | Raise _ => false
  end.

(** A value [format_ip] accepts: it coerces to an integer of the range. *)
Definition valid_ip_value (x : pyval) : Prop :=
  exists v, py_int x = Ok v /\ 0 <= v <= 4294967295.

(** [yields m r t]: whatever the world, [m] ends with [r] after appending the
    events [t], and draws no random number. *)
Definition yields {A} (m : io A) (r : result A) (t : list event) : Prop :=
  forall w, m w = (r, World (trace w ++ t) (drawn w)).

(** The records the loop of [extract_and_format_ips] binds to [json_object]:
    one for each line [json.loads] accepts, in order. *)
Definition decoded (json_loads : string -> result pyval)
    (lines : list string) : list pyval :=
  omap (fun line => match json_loads (strip line) with
                    | Ok v => Some v
                    | Raise _ => None
                    end) lines.

Definition is_ok {A} (r : result A) : Prop := exists a, r = Ok a.

(** The text after a captured run does not go on with a character of the
    class: the run is the longest one. *)
Definition run_ends (p : ascii -> bool) (post : string) : Prop :=
  match post with
  | EmptyString => True
  | String a _ => p a = false
  end.

(** The body holds the pattern of [fetch_readme_content]: the literal
    [Stable tag: ] followed by at least one digit or dot. *)
Definition has_stable_tag (content : string) : Prop :=
  exists pre c rest,
    content = pre +:+ "Stable tag: " +:+ String c rest /\
    version_char c = true.

(** The URL [fetch_readme_content] asks for. *)
Definition readme_url (domain : string) : string :=
  "http://" +:+ domain +:+ "/wp-content/plugins/embedpress/readme.txt".

Definition is_print (ev : event) : Prop := exists m, ev = Print m.

(** The dict [{"domain": domain, "url": url, "version": version}]. *)
Definition result_record (domain url version : string) : gmap string string :=
  <["version" := version]> (<["url" := url]> {["domain" := domain]}).

(** The shape of an element of the extended report: exactly the three keys,
    the URL is the readme URL of the domain, the version is a non-empty run
    of digits and dots. *)
Definition extended_record (r : gmap string string) : Prop :=
  dom r = ({["domain"; "url"; "version"]} : gset string) /\
  exists domain version,
    r !! "domain" = Some domain /\
    r !! "url" = Some (readme_url domain) /\
    r !! "version" = Some version /\
    version <> EmptyString /\
    all_chars version_char version = true.

(** ** The sort, without exceptions *)

(** The insertion of [list_sort] for a comparison that cannot raise. *)
Section PureSort.
Context {K A : Type}.
Variable ltb : K -> K -> bool.


End PureSort.





(** ** The sort key and the order, as the specification words them *)

(** A component made of decimal digits, at least one. *)
Definition plain_part (p : string) : bool :=
  match p with
  | EmptyString => false
  | _ => all_chars is_decimal p
  end.

(** The number a run of decimal digits writes, read after digits worth
    [acc]. *)
Fixpoint digits_value (acc : Z) (s : string) : Z :=
  match s with
  | EmptyString => acc
  | String a s' => digits_value (10 * acc + (code a - 48)) s'
  end.





(** A component within the reach of [int()]: decimal digits, at least one
    and no more than the interpreter converts. *)
Definition numeric_part (p : string) : bool :=
  plain_part p && (count_digits p <=? int_max_str_digits).









(** A version no component of which has more digits than [int()] reads. *)
Definition within_limit (v : string) : bool :=
  forallb (fun p => count_digits p <=? int_max_str_digits) (split "." v).

(** A record with such a version. *)
Definition limited (r : gmap string string) : bool :=
  match r !! "version" with
  | Some v => within_limit v
  | None => false
  end.

(** ** Pacing *)

(** The doubles 2.0 and 6.0. *)
Definition float_two : spec_float := S754_finite false 4503599627370496 (-51).
Definition float_six : spec_float := S754_finite false 6755399441055744 (-50).

(** The contract of [random.uniform(2, 6)]: every draw [d] has
    [2 <= d <= 6]. *)
Definition paced (random_uniform : nat -> Z -> Z -> spec_float) : Prop :=
  forall k, SFleb float_two (random_uniform k 2 6) = true /\
            SFleb (random_uniform k 2 6) float_six = true.

Definition is_sleep (ev : event) : bool :=
  match ev with
  | Sleep _ => true
  | _ => false
  end.

(** What a run did, apart from waiting. *)
Definition without_sleeps (t : list event) : list event :=
  List.filter (fun ev => negb (is_sleep ev)) t.

(** Two worlds that differ in their waits only. *)
Definition same_but_sleeps (w1 w2 : world) : Prop :=
  without_sleeps (trace w1) = without_sleeps (trace w2) /\
  drawn w1 = drawn w2.

(** The reports a run wrote: file, content and indentation. *)
Definition reports (t : list event)
  : list (string * list (gmap string string) * Z) :=
  omap (fun ev => match ev with
                  | JsonDump file_path results indent =>
                      Some (file_path, results, indent)
                  | _ => None
                  end) t.

(** old-main.py 144-150: the turn of the loop after its delay. *)
Definition main_step_after_sleep
    (getfqdn : string -> result string)
    (requests_get : string -> list (string * string) -> Z -> result response)
    (results : list (gmap string string)) (ip : string)
  : io (list (gmap string string)) :=
  domain ← OldMain.reverse_dns_lookup getfqdn ip;
  match truthy_value domain with
  | Some domain =>
      '(url, version) ← OldMain.fetch_readme_content requests_get domain;
      match truthy_value url, truthy_value version with
      | Some url, Some version =>
          mret (results ++ [<["version" := version]>
                              (<["url" := url]> {["domain" := domain]})])
      | _, _ => mret results
      end
  | None => print (NoDomainFoundForIP ip);; mret results
  end.

(** main.py 102-106, old-main.py 155-159: the report is written and the two
    closing messages are printed. *)
Definition save_results (open_write : string -> result out_file)
    (results : list (gmap string string)) : io unit :=
  with_open_write open_write "output.json" (fun outfile =>
    json_dump results outfile "output.json" 4;;
    print (SitesFound (length results)));;
  print ResultsSaved.

(** old-main.py 152-159: what [main] does with the list the loop built. *)
Definition main_finish (open_write : string -> result out_file)
    (results : list (gmap string string)) : io unit :=
  results ← lift (list_sort OldMain.version_key key_lt results);
  save_results open_write results.

(* ===================================================================== *)
(** * Stub collaborators for the examples *)
(* ===================================================================== *)

Definition dquote : ascii := "034"%char.

(** A JSON integer literal: an optional minus sign and decimal digits. *)
Definition stub_int (s : string) : option Z :=
  let digits s := if all_chars is_decimal s then int_unsigned s else None in
  match s with
  | String "-"%char s' => option_map Z.opp (digits s')
  | _ => digits s
  end.

(** A decoder for the fragment of JSON the examples use: the empty object,
    or an object with one member whose value is an integer literal or
    [null], written as [json.dumps] writes it.  Any other text is a decode
    error. *)
Definition stub_loads (s : string) : result pyval :=
  match s with
  | String "{"%char (String "}"%char EmptyString) => Ok (PDict [])
  | String "{"%char (String q rest) =>
      if Ascii.eqb q dquote then
        let key := take_while (fun a => negb (Ascii.eqb a dquote)) rest in
        match drop_prefix (key +:+ String dquote ": ") rest with
        | Some after_colon =>
            let body :=
              take_while (fun a => negb (Ascii.eqb a "}")) after_colon in
            if String.eqb after_colon (body +:+ "}") then
              if String.eqb body "null" then Ok (PDict [(key, PNone)])
              else match stub_int body with
                   | Some z => Ok (PDict [(key, PInt z)])
                   | None => Raise JSONDecodeError
                   end
            else Raise JSONDecodeError
        | None => Raise JSONDecodeError
        end
      else Raise JSONDecodeError
  | _ => Raise JSONDecodeError
  end.

(** The line [{"<key>": <value>}]. *)
Definition member_line (key value : string) : string :=
  String "{" (String dquote key) +:+ String dquote ": " +:+ value +:+ "}".

(** An input file that is read to its end, and an output file that takes
    the report. *)
Definition stub_open (lines : list string) (file_path : string)
  : result in_file :=
  if String.eqb file_path "input.json" then Ok (InFile lines None)
  else Raise FileNotFoundError.

Definition stub_open_write (file_path : string) : result out_file :=
  Ok (OutFile None None).

(** An input file whose reading breaks off at bytes that are not text. *)
Definition stub_open_broken (lines : list string) (file_path : string)
  : result in_file :=
  Ok (InFile lines (Some UnicodeDecodeError)).

(** The lines of the examples: two records and a malformed line. *)
Definition line_a : string := member_line "ip" "3232235777".
Definition line_b : string := member_line "ip" "16909060".
Definition line_bad : string := "{ip: 1".

(** A response of the examples. *)
Definition stub_get (status : Z) (body : string)
    (url : string) (headers : list (string * string)) (timeout : Z)
  : result response :=
  Ok (Response status body).

(** A resolver and a site for the examples. *)
Definition stub_getfqdn (ip_address : string) : result string :=
  if String.eqb ip_address "192.168.1.1" then Ok "host.example.com"
  else if String.eqb ip_address "1.2.3.4" then Ok "other.example.com"
  else Ok ip_address.

Definition stub_site (url : string) (headers : list (string * string))
    (timeout : Z) : result response :=
  if String.eqb url (readme_url "host.example.com")
  then Ok (Response 200 "=== EmbedPress ===
Stable tag: 4.2.1
License: GPLv3")
  else if String.eqb url (readme_url "other.example.com")
  then Ok (Response 200 "Stable tag: 4.2.")
  else Raise ConnectionError.

(** Every draw of the examples is 3.0 seconds. *)
Definition float_three : spec_float :=
  S754_finite false 6755399441055744 (-51).

Definition stub_uniform (k : nat) (a b : Z) : spec_float := float_three.

(** A record of the examples, by its version. *)
Definition versioned (version : string) : gmap string string :=
  result_record "host.example.com" (readme_url "host.example.com") version.

(** A version of one component, of 4301 digits. *)
Fixpoint ones (n : nat) : string :=
  match n with
  | O => EmptyString
  | S n' => String "1" (ones n')
  end.

Definition long_version : string := ones 4301.

(** Draws of 5.0 seconds. *)
Definition stub_uniform_slow (k : nat) (a b : Z) : spec_float :=
  S754_finite false 5629499534213120 (-50).

(** ** Notions for the further properties *)

(** The value of the decimal numeral [d], read after digits worth [acc]. *)
Fixpoint uint_value (acc : Z) (d : Decimal.uint) : Z :=
  match d with
  | Decimal.Nil => acc
  | Decimal.D0 d => uint_value (10 * acc + 0) d
  | Decimal.D1 d => uint_value (10 * acc + 1) d
  | Decimal.D2 d => uint_value (10 * acc + 2) d
  | Decimal.D3 d => uint_value (10 * acc + 3) d
  | Decimal.D4 d => uint_value (10 * acc + 4) d
  | Decimal.D5 d => uint_value (10 * acc + 5) d
  | Decimal.D6 d => uint_value (10 * acc + 6) d
  | Decimal.D7 d => uint_value (10 * acc + 7) d
  | Decimal.D8 d => uint_value (10 * acc + 8) d
  | Decimal.D9 d => uint_value (10 * acc + 9) d
  end.

(** The range of IPv4 integers. *)
Definition in_range (v : Z) : Prop := 0 <= v <= 4294967295.

(** The dotted form of the four 8-bit fields of [v]. *)
Definition dotted_fields (v : Z) : string :=
  dotted ((v / 2 ^ 24) mod 256) ((v / 2 ^ 16) mod 256)
         ((v / 2 ^ 8) mod 256) (v mod 256).

(** A character of the decimal rendering of an integer. *)
Definition numeral_char (a : ascii) : bool :=
  is_decimal a || Ascii.eqb a "-".

(** A dotted quadruple of octets. *)
Definition is_dotted_quad (s : string) : Prop :=
  exists a b c d,
    is_octet a /\ is_octet b /\ is_octet c /\ is_octet d /\
    s = dotted a b c d.

(** The domain main.py keeps for an address: the answer of the resolver
    when it is a non-empty name other than the address itself. *)
Definition resolved_domain (getfqdn : string -> result string)
    (ip : string) : option string :=
  match getfqdn ip with
  | Ok hostname =>
      if String.eqb hostname ip then None else truthy_value (Some hostname)
  | Raise _ => None
  end.

(** The dict [{"domain": domain}]. *)
Definition domain_record (domain : string) : gmap string string :=
  {["domain" := domain]}.

(** One record for each address that has a domain, in the order of the
    addresses. *)
Definition basic_report (getfqdn : string -> result string)
    (ips : list string) : list (gmap string string) :=
  omap (fun ip => domain_record <$> resolved_domain getfqdn ip) ips.





Definition is_pacing (ev : event) : bool :=
  match ev with
  | Sleep _ | Getfqdn _ => true
  | _ => false
  end.

(** The pauses and lookups of a run, in order. *)
Definition pacing_log (t : list event) : list event :=
  List.filter is_pacing t.

Definition is_request (ev : event) : bool :=
  match ev with
  | HttpGet _ _ _ => true
  | _ => false
  end.

(** The HTTP requests of a run. *)
Definition requests (t : list event) : list event :=
  List.filter is_request t.

(** One pause, then one lookup, for each address in turn; the pause of the
    [k]-th turn is the [k]-th draw of [random.uniform(2, 6)]. *)
Fixpoint pacing_plan (random_uniform : nat -> Z -> Z -> spec_float)
    (k : nat) (ips : list string) : list event :=
  match ips with
  | [] => []
  | ip :: ips' =>
      Sleep (random_uniform k 2 6) :: Getfqdn ip
      :: pacing_plan random_uniform (S k) ips'
  end.





(* ===================================================================== *)
(** * Properties *)
(* ===================================================================== *)

(** ** Exceptions *)

Lemma isinstance_Exception (e : exn) : isinstance e Exception = true.
Proof. destruct e; reflexivity. Qed.

Lemma isinstance_refl (e : exn) : isinstance e e = true.
Proof. destruct e; reflexivity. Qed.

(** ** Strings *)

Lemma split_nonempty (sep : ascii) (s : string) : split sep s <> [].
Proof.
  induction s as [|a s IH]; simpl; [discriminate|].
  destruct (Ascii.eqb a sep); [discriminate|].
  destruct (split sep s); [contradiction | discriminate].
Qed.

Lemma split_no_sep (s : string) :
  all_chars not_dot s = true -> split "." s = [s].
Proof.
  induction s as [|a s IH]; simpl; [reflexivity|].
  unfold not_dot at 1. intros H. apply andb_prop in H as [Ha Hs].
  apply negb_true_iff in Ha. rewrite Ha, (IH Hs). reflexivity.
Qed.

Lemma split_app_sep (s rest : string) :
  all_chars not_dot s = true ->
  split "." (s +:+ String "." rest) = s :: split "." rest.
Proof.
  induction s as [|a s IH]; simpl; [reflexivity|].
  unfold not_dot at 1. intros H. apply andb_prop in H as [Ha Hs].
  apply negb_true_iff in Ha. rewrite Ha, (IH Hs). reflexivity.
Qed.

(** The 256 octets, checked one by one. *)
Lemma octet_table : forallb octet_ok (seq 0 256) = true.
Proof. vm_compute. reflexivity. Qed.

Lemma octet_render (n : Z) :
  is_octet n ->
  all_chars not_dot (str_of_int n) = true /\ int_of_str (str_of_int n) = Ok n.
Proof.
  intros [Hlo Hhi].
  pose proof (proj1 (forallb_forall octet_ok (seq 0 256)) octet_table
                (Z.to_nat n)) as H.
  assert (Hin : In (Z.to_nat n) (seq 0 256)) by (apply in_seq; lia).
  specialize (H Hin). unfold octet_ok in H.
  rewrite Z2Nat.id in H by lia.
  apply andb_prop in H as [H1 H2]. split; [exact H1|].
  destruct (int_of_str (str_of_int n)) as [m|]; [|discriminate].
  apply Z.eqb_eq in H2. subst. reflexivity.
Qed.

Lemma octets_of_dotted_dotted (a b c d : Z) :
  is_octet a -> is_octet b -> is_octet c -> is_octet d ->
  octets_of_dotted (dotted a b c d) = Some (a, b, c, d).
Proof.
  intros Ha Hb Hc Hd.
  destruct (octet_render a Ha) as [Da Ia], (octet_render b Hb) as [Db Ib],
    (octet_render c Hc) as [Dc Ic], (octet_render d Hd) as [Dd Id].
  unfold octets_of_dotted.
  change (dotted a b c d) with
    (str_of_int a +:+ String "."
       (str_of_int b +:+ String "."
          (str_of_int c +:+ String "." (str_of_int d)))).
  rewrite (split_app_sep _ _ Da), (split_app_sep _ _ Db),
    (split_app_sep _ _ Dc), (split_no_sep _ Dd).
  rewrite Ia, Ib, Ic, Id. reflexivity.
Qed.

(** ** The four 8-bit fields *)

Lemma field_shift (v : Z) (k : Z) :
  0 <= k -> Z.land (Z.shiftr v k) 255 = (v / 2 ^ k) mod 256.
Proof.
  intros Hk. rewrite Z.shiftr_div_pow2 by exact Hk.
  change 255 with (Z.ones 8). rewrite Z.land_ones by lia. reflexivity.
Qed.

Lemma field_low (v : Z) : Z.land v 255 = v mod 256.
Proof. change 255 with (Z.ones 8). rewrite Z.land_ones by lia. reflexivity. Qed.

Lemma fields_recombine (v : Z) :
  0 <= v <= 4294967295 ->
  recombine ((v / 2 ^ 24) mod 256, (v / 2 ^ 16) mod 256,
             (v / 2 ^ 8) mod 256, v mod 256) = v.
Proof.
  intros Hv. unfold recombine.
  change (2 ^ 24) with 16777216. change (2 ^ 16) with 65536.
  change (2 ^ 8) with 256. Z.div_mod_to_equations. lia.
Qed.

Lemma fields_of_recombine (a b c d : Z) :
  is_octet a -> is_octet b -> is_octet c -> is_octet d ->
  let v := recombine (a, b, c, d) in
  0 <= v <= 4294967295 /\
  (v / 2 ^ 24) mod 256 = a /\ (v / 2 ^ 16) mod 256 = b /\
  (v / 2 ^ 8) mod 256 = c /\ v mod 256 = d.
Proof.
  unfold is_octet, recombine. intros Ha Hb Hc Hd. cbv zeta.
  change (2 ^ 24) with 16777216. change (2 ^ 16) with 65536.
  change (2 ^ 8) with 256. Z.div_mod_to_equations. lia.
Qed.

Lemma format_ip_fields (x : pyval) (v : Z) :
  py_int x = Ok v -> 0 <= v <= 4294967295 ->
  format_ip x =
  Ok (Some (dotted ((v / 2 ^ 24) mod 256) ((v / 2 ^ 16) mod 256)
                   ((v / 2 ^ 8) mod 256) (v mod 256))).
Proof.
  intros Hx [Hlo Hhi]. unfold format_ip. rewrite Hx. simpl.
  apply Z.leb_le in Hlo, Hhi. unfold mbind, result_bind, rbind.
  rewrite Hlo, Hhi. simpl.
  rewrite !field_shift, field_low by lia. reflexivity.
Qed.

(** ** format_ip *)

Lemma format_ip_out_of_range (x : pyval) (v : Z) :
  py_int x = Ok v -> ~ (0 <= v <= 4294967295) -> format_ip x = Ok None.
Proof.
  intros Hx Hv. unfold format_ip. rewrite Hx. simpl.
  unfold mbind, result_bind, rbind.
  destruct (0 <=? v) eqn:Hlo; [|reflexivity].
  destruct (v <=? 4294967295) eqn:Hhi; [|reflexivity].
  apply Z.leb_le in Hlo, Hhi. lia.
Qed.

Lemma format_ip_value_error (x : pyval) :
  py_int x = Raise ValueError -> format_ip x = Ok None.
Proof. intros Hx. unfold format_ip. rewrite Hx. reflexivity. Qed.

Lemma format_ip_uncaught (x : pyval) (e : exn) :
  py_int x = Raise e -> isinstance e ValueError = false ->
  format_ip x = Raise e.
Proof.
  intros Hx He. unfold format_ip. rewrite Hx. simpl. rewrite He. reflexivity.
Qed.

Lemma dotted_nonempty (a b c d : Z) : truthy (Some (dotted a b c d)) = true.
Proof.
  unfold dotted. destruct (str_of_int a); reflexivity.
Qed.

Lemma format_ip_valid (x : pyval) :
  valid_ip_value x ->
  exists s, format_ip x = Ok (Some s) /\ truthy (Some s) = true.
Proof.
  intros (v & Hx & Hv). eexists. split.
  - apply (format_ip_fields x v Hx Hv).
  - apply dotted_nonempty.
Qed.

(** C2 (formatter round trip).  For an integer [v] of [0, 4294967295],
    [format_ip] returns the dotted string of four octets of [0, 255]; reading
    the string back and recombining the octets with the weights 2^24, 2^16,
    2^8, 1 gives [v] again.  The mapping is one-to-one on the range and
    reaches every dotted quadruple of octets. *)
Theorem format_ip_roundtrip (v : Z) :
  0 <= v <= 4294967295 ->
  (exists a b c d,
      format_ip (PInt v) = Ok (Some (dotted a b c d)) /\
      is_octet a /\ is_octet b /\ is_octet c /\ is_octet d /\
      octets_of_dotted (dotted a b c d) = Some (a, b, c, d) /\
      recombine (a, b, c, d) = v) /\
  (forall w, 0 <= w <= 4294967295 ->
             format_ip (PInt w) = format_ip (PInt v) -> w = v) /\
  (forall a b c d, is_octet a -> is_octet b -> is_octet c -> is_octet d ->
     exists u, 0 <= u <= 4294967295 /\
               format_ip (PInt u) = Ok (Some (dotted a b c d))).
Proof.
  intros Hv.
  assert (Hoct : forall u k, is_octet ((u / 2 ^ k) mod 256)).
  { intros u k. unfold is_octet.
    pose proof (Z.mod_pos_bound (u / 2 ^ k) 256 ltac:(lia)). lia. }
  assert (Hlow : forall u, is_octet (u mod 256)).
  { intros u. unfold is_octet.
    pose proof (Z.mod_pos_bound u 256 ltac:(lia)). lia. }
  assert (Hback : forall u, 0 <= u <= 4294967295 ->
    exists o,
      format_ip (PInt u) = Ok (Some (dotted o.1.1.1 o.1.1.2 o.1.2 o.2)) /\
      octets_of_dotted (dotted o.1.1.1 o.1.1.2 o.1.2 o.2) = Some o /\
      recombine o = u).
  { intros u Hu.
    exists ((u / 2 ^ 24) mod 256, (u / 2 ^ 16) mod 256,
            (u / 2 ^ 8) mod 256, u mod 256). simpl. split; [|split].
    - apply format_ip_fields; [reflexivity | exact Hu].
    - apply octets_of_dotted_dotted; auto.
    - apply fields_recombine, Hu. }
  split; [|split].
  - exists ((v / 2 ^ 24) mod 256), ((v / 2 ^ 16) mod 256),
      ((v / 2 ^ 8) mod 256), (v mod 256).
    rewrite (format_ip_fields (PInt v) v eq_refl Hv).
    repeat split; try apply Hoct; try apply Hlow.
    + apply octets_of_dotted_dotted; auto.
    + apply fields_recombine, Hv.
  - intros w Hw Heq.
    destruct (Hback w Hw) as (ow & Fw & Ow & Rw).
    destruct (Hback v Hv) as (ov & Fv & Ov & Rv).
    rewrite Fw, Fv in Heq. injection Heq as Heq.
    rewrite Heq in Ow. rewrite Ow in Ov. injection Ov as Ov.
    rewrite <- Rw, <- Rv, Ov. reflexivity.
  - intros a b c d Ha Hb Hc Hd.
    destruct (fields_of_recombine a b c d Ha Hb Hc Hd) as (Hr & Ea & Eb & Ec & Ed).
    exists (recombine (a, b, c, d)). split; [exact Hr|].
    rewrite (format_ip_fields (PInt _) _ eq_refl Hr), Ea, Eb, Ec, Ed.
    reflexivity.
Qed.

Lemma format_ip_roundtrip_witness :
  exists a b c d,
    format_ip (PInt 3232235777) = Ok (Some (dotted a b c d)) /\
    is_octet a /\ is_octet b /\ is_octet c /\ is_octet d /\
    octets_of_dotted (dotted a b c d) = Some (a, b, c, d) /\
    recombine (a, b, c, d) = 3232235777.
Proof. apply (format_ip_roundtrip 3232235777). lia. Defined.

(** C3 (formatter rejection), where the code departs from it.  A JSON
    [null] is not coercible: [int(None)] raises [TypeError], the handler of
    [format_ip] names [ValueError] only, and the exception reaches the
    caller.  An infinite float leaves the same way with [OverflowError]. *)
Theorem format_ip_coercion_failure_escapes :
  py_int PNone = Raise TypeError /\
  format_ip PNone = Raise TypeError /\
  format_ip (PFloat (S754_infinity false)) = Raise OverflowError.
Proof. repeat split. Qed.

(** ** Running [io] computations *)

Ltac io_unfold :=
  unfold mbind, mret, io_bind, io_ret, result_bind, result_ret, bind, ret,
    rbind, lift, print, emit, io_try, try_except in *.

Ltac io_simpl := io_unfold; simpl.

Ltac io_done := simpl; rewrite <- ?app_assoc, ?app_nil_r; reflexivity.

(** ** reverse_dns_lookup *)

Lemma reverse_dns_lookup_main_result
    (getfqdn : string -> result string) (ip : string) (w : world) :
  fst (Main.reverse_dns_lookup getfqdn ip w) =
  Ok match getfqdn ip with
     | Ok h => if String.eqb h ip then None else Some h
     | Raise _ => None
     end.
Proof.
  unfold Main.reverse_dns_lookup, call_getfqdn. io_simpl.
  destruct (getfqdn ip) as [h|e]; simpl.
  - destruct (String.eqb h ip); reflexivity.
  - destruct (isinstance e herror); [reflexivity|].
    rewrite isinstance_Exception. reflexivity.
Qed.

Lemma reverse_dns_lookup_old_result
    (getfqdn : string -> result string) (ip : string) (w : world) :
  fst (OldMain.reverse_dns_lookup getfqdn ip w) =
  Ok match getfqdn ip with
     | Ok h => if String.eqb h ip then None else Some h
     | Raise _ => None
     end.
Proof.
  unfold OldMain.reverse_dns_lookup, call_getfqdn. io_simpl.
  destruct (getfqdn ip) as [h|e]; simpl.
  - destruct (String.eqb h ip); reflexivity.
  - destruct (isinstance e herror); [reflexivity|].
    rewrite isinstance_Exception. reflexivity.
Qed.

(** C4 (reverse resolution, normalisation and containment).  In both
    programs [reverse_dns_lookup] returns normally whatever the resolver
    does: [None] when the resolver gives the queried string back, [None] when
    the resolver raises ([socket.herror] or any other exception), and the
    name otherwise. *)
Theorem reverse_dns_lookup_contained
    (getfqdn : string -> result string) (ip : string) (w : world) :
  exists r : option string,
    fst (Main.reverse_dns_lookup getfqdn ip w) = Ok r /\
    fst (OldMain.reverse_dns_lookup getfqdn ip w) = Ok r /\
    match getfqdn ip with
    | Ok h => (h = ip -> r = None) /\ (h <> ip -> r = Some h)
    | Raise e => r = None
    end.
Proof.
  eexists. split; [apply reverse_dns_lookup_main_result|].
  split; [apply reverse_dns_lookup_old_result|].
  destruct (getfqdn ip) as [h|e]; [|reflexivity].
  destruct (String.eqb_spec h ip) as [Heq|Hne]; split; intros H;
    congruence.
Qed.

(** ** Computations that do not read the world *)

Lemma world_eta (w : world) : World (trace w ++ []) (drawn w) = w.
Proof. destruct w. simpl. rewrite app_nil_r. reflexivity. Qed.

Lemma yields_ret {A} (a : A) : yields (mret a) (Ok a) [].
Proof. intros w. io_simpl. rewrite world_eta. reflexivity. Qed.

Lemma yields_lift {A} (r : result A) : yields (lift r) r [].
Proof. intros w. io_simpl. rewrite world_eta. reflexivity. Qed.

Lemma yields_emit (ev : event) : yields (emit ev) (Ok tt) [ev].
Proof. intros w. reflexivity. Qed.

Lemma yields_bind_ok {A B} (m : io A) (f : A -> io B) a t r t' :
  yields m (Ok a) t -> yields (f a) r t' -> yields (m ≫= f) r (t ++ t').
Proof.
  intros Hm Hf w. io_unfold. rewrite (Hm w), (Hf _). simpl.
  rewrite app_assoc. reflexivity.
Qed.

Lemma yields_bind_raise {A B} (m : io A) (f : A -> io B) e t :
  yields m (Raise e) t -> yields (m ≫= f) (Raise e) t.
Proof. intros Hm w. io_unfold. rewrite (Hm w). reflexivity. Qed.

Lemma yields_try_ok {A} (m : io A) hs a t :
  yields m (Ok a) t -> yields (io_try m hs) (Ok a) t.
Proof. intros Hm w. unfold io_try. rewrite (Hm w). reflexivity. Qed.

Lemma yields_try_caught {A} (m : io A) hs e t (h : exn -> io A) r t' :
  yields m (Raise e) t -> find_handler e hs = Some h ->
  yields (h e) r t' -> yields (io_try m hs) r (t ++ t').
Proof.
  intros Hm Hh Hr w. unfold io_try. rewrite (Hm w), Hh, (Hr _). simpl.
  rewrite app_assoc. reflexivity.
Qed.

Lemma yields_try_uncaught {A} (m : io A) hs e t :
  yields m (Raise e) t -> find_handler e hs = None ->
  yields (io_try m hs) (Raise e) t.
Proof. intros Hm Hh w. unfold io_try. rewrite (Hm w), Hh. reflexivity. Qed.

Lemma yields_fun {A} (m : io A) r t r' t' :
  yields m r t -> yields m r' t' -> r = r' /\ t = t'.
Proof.
  intros H H'. specialize (H (World [] 0)). rewrite (H' (World [] 0)) in H.
  simpl in H. injection H as -> ->. split; reflexivity.
Qed.

Lemma yields_for_each_nil {A S} (body : S -> A -> io S) acc :
  yields (for_each body acc []) (Ok acc) [].
Proof. apply (yields_ret acc). Qed.

Lemma yields_for_each_cons {A S} (body : S -> A -> io S) acc x xs acc' t r t' :
  yields (body acc x) (Ok acc') t -> yields (for_each body acc' xs) r t' ->
  yields (for_each body acc (x :: xs)) r (t ++ t').
Proof. intros H1 H2. simpl. eapply yields_bind_ok; eassumption. Qed.

Lemma for_each_app {A S} (body : S -> A -> io S) xs ys :
  forall acc w,
  for_each body acc (xs ++ ys) w =
  (for_each body acc xs ≫= fun acc' => for_each body acc' ys) w.
Proof.
  induction xs as [|x xs IH]; intros acc w; simpl.
  - reflexivity.
  - io_unfold. destruct (body acc x w) as [[a|e] w1]; [|reflexivity].
    rewrite IH. reflexivity.
Qed.

Lemma yields_for_each_app {A S} (body : S -> A -> io S) xs ys
    acc acc' t r t' :
  yields (for_each body acc xs) (Ok acc') t ->
  yields (for_each body acc' ys) r t' ->
  yields (for_each body acc (xs ++ ys)) r (t ++ t').
Proof.
  intros H1 H2 w. rewrite for_each_app.
  apply (yields_bind_ok _ _ _ _ _ _ H1 H2).
Qed.

(** A loop whose body always returns, and does not read the world, does the
    same. *)
Lemma yields_for_each_total {A S} (body : S -> A -> io S) :
  (forall acc x, exists acc' t, yields (body acc x) (Ok acc') t) ->
  forall xs acc, exists acc' t, yields (for_each body acc xs) (Ok acc') t.
Proof.
  intros Hbody. induction xs as [|x xs IH]; intros acc.
  - exists acc, []. apply yields_for_each_nil.
  - destruct (Hbody acc x) as (a1 & t1 & H1).
    destruct (IH a1) as (a2 & t2 & H2).
    exists a2, (t1 ++ t2). eapply yields_for_each_cons; eassumption.
Qed.

(** ** extract_and_format_ips *)

Example stub_loads_ip :
  stub_loads (member_line "ip" "3232235777") =
  Ok (PDict [("ip", PInt 3232235777)]).
Proof. reflexivity. Qed.

Example stub_loads_null :
  stub_loads (member_line "ip" "null") = Ok (PDict [("ip", PNone)]).
Proof. reflexivity. Qed.

Example stub_loads_malformed : stub_loads "{ip: 1" = Raise JSONDecodeError.
Proof. reflexivity. Qed.

Lemma int_of_str_raises (s : string) (e : exn) :
  int_of_str s = Raise e -> e = ValueError.
Proof.
  unfold int_of_str.
  destruct (int_signed _); [destruct (_ <=? _)|]; congruence.
Qed.

Lemma py_int_raises (x : pyval) (e : exn) :
  py_int x = Raise e -> e = ValueError \/ e = TypeError \/ e = OverflowError.
Proof.
  destruct x as [| b | z | f | s | l | items]; simpl; try discriminate;
    try (intros [= <-]; auto).
  - destruct f as [ | [] | | ]; simpl; try discriminate;
      intros [= <-]; auto.
  - intros H. left. apply (int_of_str_raises s e H).
Qed.

Lemma format_ip_raises (x : pyval) (e : exn) :
  format_ip x = Raise e -> e = TypeError \/ e = OverflowError.
Proof.
  unfold format_ip. destruct (py_int x) as [v|e'] eqn:Hx; simpl.
  - unfold mbind, result_bind, rbind.
    destruct ((0 <=? v) && (v <=? 4294967295)); discriminate.
  - destruct (py_int_raises x e' Hx) as [-> | [-> | ->]]; simpl;
      [discriminate | intros [= <-]; auto | intros [= <-]; auto].
Qed.

Section ExtractLine.
Variable json_loads : string -> result pyval.
Variable ips : list string.
Variable line : string.

(** A line [json.loads] rejects: one report, the list unchanged. *)
Lemma extract_line_skip :
  json_loads (strip line) = Raise JSONDecodeError ->
  yields (extract_line json_loads ips line) (Ok ips)
         [Print (SkippingInvalidJSON (strip line))].
Proof. intros H w. unfold extract_line. io_simpl. rewrite H. reflexivity. Qed.

(** Any other exception of [json.loads]: one report as well. *)
Lemma extract_line_loads_raises (e : exn) :
  json_loads (strip line) = Raise e ->
  exists m, yields (extract_line json_loads ips line) (Ok ips) [Print m].
Proof.
  intros H. destruct (isinstance e JSONDecodeError) eqn:He.
  - eexists. intros w. unfold extract_line. io_simpl. rewrite H. simpl.
    rewrite He. reflexivity.
  - eexists. intros w. unfold extract_line. io_simpl. rewrite H. simpl.
    rewrite He, isinstance_Exception. reflexivity.
Qed.

(** The record has no ["ip"]: nothing is reported, nothing is added. *)
Lemma extract_line_no_ip (json_object : pyval) :
  json_loads (strip line) = Ok json_object ->
  py_in "ip" json_object = Ok false ->
  yields (extract_line json_loads ips line) (Ok ips) [].
Proof.
  intros H Hin w. unfold extract_line. io_simpl. rewrite H, Hin. simpl.
  rewrite world_eta. reflexivity.
Qed.

(** The record has a valid ["ip"]: its dotted form is appended. *)
Lemma extract_line_valid (json_object ip_value : pyval) (s : string) :
  json_loads (strip line) = Ok json_object ->
  py_in "ip" json_object = Ok true ->
  py_getitem json_object "ip" = Ok ip_value ->
  format_ip ip_value = Ok (Some s) -> truthy (Some s) = true ->
  yields (extract_line json_loads ips line) (Ok (ips ++ [s])) [].
Proof.
  intros H Hin Hget Hf Ht w. unfold extract_line. io_simpl.
  rewrite H, Hin, Hget, Hf. unfold truthy_value. rewrite Ht. simpl.
  rewrite world_eta. reflexivity.
Qed.

(** The record has an ["ip"] that [format_ip] does not turn into a
    non-empty string: one report, nothing added. *)
Lemma extract_line_invalid (json_object ip_value : pyval) :
  json_loads (strip line) = Ok json_object ->
  py_in "ip" json_object = Ok true ->
  py_getitem json_object "ip" = Ok ip_value ->
  ~ valid_ip_value ip_value ->
  exists m,
    yields (extract_line json_loads ips line) (Ok ips) [Print m] /\
    (m = InvalidIPValue ip_value \/ exists e, m = AnErrorOccurred e).
Proof.
  intros H Hin Hget Hv.
  destruct (format_ip ip_value) as [[s|]|e] eqn:Hf.
  - exfalso. apply Hv. unfold format_ip in Hf.
    destruct (py_int ip_value) as [v|e'] eqn:Hx; simpl in Hf.
    + unfold mbind, result_bind, rbind in Hf.
      destruct (0 <=? v) eqn:Hlo; [|discriminate].
      destruct (v <=? 4294967295) eqn:Hhi; [|discriminate].
      exists v. split; [exact Hx|].
      apply Z.leb_le in Hlo, Hhi. lia.
    + destruct (isinstance e' ValueError); [discriminate|].
      simpl in Hf. discriminate.
  - exists (InvalidIPValue ip_value). split; [|auto].
    intros w. unfold extract_line. io_simpl.
    rewrite H, Hin, Hget, Hf. reflexivity.
  - exists (AnErrorOccurred e). split; [|eauto].
    intros w. unfold extract_line. io_simpl.
    rewrite H, Hin, Hget, Hf. simpl.
    destruct (format_ip_raises _ _ Hf) as [-> | ->]; reflexivity.
Qed.

(** Whatever the line, the body of the loop returns, and what it does is
    the same in every world. *)
Lemma extract_line_total :
  exists ips' t, yields (extract_line json_loads ips line) (Ok ips') t.
Proof.
  destruct (json_loads (strip line)) as [obj|e] eqn:H.
  2:{ destruct (extract_line_loads_raises e H) as (m & Hm); eauto. }
  destruct (py_in "ip" obj) as [[|]|e] eqn:Hin.
  - destruct (py_getitem obj "ip") as [v|e] eqn:Hget.
    + destruct (format_ip v) as [[s|]|e] eqn:Hf.
      * destruct (truthy (Some s)) eqn:Ht.
        -- eexists _, _. eapply extract_line_valid; eassumption.
        -- eexists _, _. intros w. unfold extract_line. io_simpl.
           rewrite H, Hin, Hget, Hf. unfold truthy_value. rewrite Ht.
           reflexivity.
      * eexists _, _. intros w. unfold extract_line. io_simpl.
        rewrite H, Hin, Hget, Hf. reflexivity.
      * eexists _, _. intros w. unfold extract_line. io_simpl.
        rewrite H, Hin, Hget, Hf. simpl.
        destruct (format_ip_raises _ _ Hf) as [-> | ->]; reflexivity.
    + destruct (isinstance e JSONDecodeError) eqn:He.
      * eexists _, _. intros w. unfold extract_line. io_simpl.
        rewrite H, Hin, Hget. simpl. rewrite He. reflexivity.
      * eexists _, _. intros w. unfold extract_line. io_simpl.
        rewrite H, Hin, Hget. simpl. rewrite He, isinstance_Exception.
        reflexivity.
  - eexists _, _. eapply extract_line_no_ip; eassumption.
  - destruct (isinstance e JSONDecodeError) eqn:He.
    + eexists _, _. intros w. unfold extract_line. io_simpl.
      rewrite H, Hin. simpl. rewrite He. reflexivity.
    + eexists _, _. intros w. unfold extract_line. io_simpl.
      rewrite H, Hin. simpl. rewrite He, isinstance_Exception.
      reflexivity.
Qed.
End ExtractLine.

Lemma decoded_app (json_loads : string -> result pyval) (xs ys : list string) :
  decoded json_loads (xs ++ ys) = decoded json_loads xs ++ decoded json_loads ys.
Proof. unfold decoded. apply omap_app. Qed.

Lemma decoded_length (json_loads : string -> result pyval) (xs : list string) :
  Forall (fun l => is_ok (json_loads (strip l))) xs ->
  length (decoded json_loads xs) = length xs.
Proof.
  induction 1 as [|x xs [v Hv] _ IH]; [reflexivity|].
  unfold decoded in *. simpl. rewrite Hv. simpl. f_equal. exact IH.
Qed.

(** On its normal path the loop over a file is the loop over its lines. *)
Lemma for_lines_for_each (body : list string -> string -> io (list string))
    (lines : list string) (raised : option exn) :
  forall ips ips' w w',
  for_each body ips lines w = (Ok ips', w') ->
  for_lines body ips lines raised w = (Ok (ips', raised), w').
Proof.
  induction lines as [|line lines IH]; intros ips ips' w w'; simpl.
  - unfold ret, mret, io_ret, ret. intros [= <- <-]. reflexivity.
  - unfold mbind, io_bind, bind.
    destruct (body ips line w) as [[ips1|e] w1]; [apply IH | discriminate].
Qed.

Lemma yields_for_lines (body : list string -> string -> io (list string))
    (lines : list string) (raised : option exn) ips ips' t :
  yields (for_each body ips lines) (Ok ips') t ->
  yields (for_lines body ips lines raised) (Ok (ips', raised)) t.
Proof. intros H w. apply for_lines_for_each, H. Qed.

(** The function on a file that opens: the lines are handled, and the way
    the reading ended decides the outcome. *)
Lemma extract_and_format_ips_read
    (open_read : string -> result in_file)
    (json_loads : string -> result pyval)
    (file_path : string) (file : in_file) ips t (w : world) :
  open_read file_path = Ok file ->
  yields (for_each (extract_line json_loads) [] (lines_of file)) (Ok ips) t ->
  extract_and_format_ips open_read json_loads file_path w =
  match read_error file with
  | None => (Ok ips, World (trace w ++ OpenRead file_path :: t) (drawn w))
  | Some e =>
      if isinstance e FileNotFoundError
      then (Ok ips,
            World (trace w ++ OpenRead file_path :: t
                     ++ [Print (FileNotFound file_path)]) (drawn w))
      else (Raise e, World (trace w ++ OpenRead file_path :: t) (drawn w))
  end.
Proof.
  intros Hopen Hloop.
  pose proof (yields_for_lines _ _ (read_error file) _ _ _ Hloop) as Hlines.
  unfold extract_and_format_ips, read_ips. io_simpl. rewrite Hopen.
  rewrite (Hlines _). simpl.
  destruct (read_error file) as [e|]; [destruct (isinstance e FileNotFoundError)|];
    simpl; rewrite <- ?app_assoc; reflexivity.
Qed.

Lemma yields_extract_and_format_ips
    (open_read : string -> result in_file)
    (json_loads : string -> result pyval)
    (file_path : string) (lines : list string) ips t :
  open_read file_path = Ok (InFile lines None) ->
  yields (for_each (extract_line json_loads) [] lines) (Ok ips) t ->
  yields (extract_and_format_ips open_read json_loads file_path) (Ok ips)
         (OpenRead file_path :: t).
Proof.
  intros Hopen Hloop w.
  apply (extract_and_format_ips_read _ _ _ _ _ _ w Hopen Hloop).
Qed.

(** The function when [open] raises. *)
Lemma extract_and_format_ips_unopened
    (open_read : string -> result in_file)
    (json_loads : string -> result pyval)
    (file_path : string) (e : exn) (w : world) :
  open_read file_path = Raise e ->
  extract_and_format_ips open_read json_loads file_path w =
  if isinstance e FileNotFoundError
  then (Ok [], World (trace w ++ [OpenRead file_path;
                                  Print (FileNotFound file_path)]) (drawn w))
  else (Raise e, World (trace w ++ [OpenRead file_path]) (drawn w)).
Proof.
  intros Hopen. unfold extract_and_format_ips, read_ips. io_simpl.
  rewrite Hopen. simpl.
  destruct (isinstance e FileNotFoundError); simpl;
    rewrite <- ?app_assoc; reflexivity.
Qed.

(** C1 (decode failure isolation), as the code has it.  A line [json.loads]
    rejects is skipped with one report and the loop goes on: on a file that
    delivers the lines [before ++ bad :: after], the function has the
    addresses of the run over [before ++ after] and the same events plus the
    report for [bad] at its place.  When the other lines all decode, the
    lines decoded are as many as they are.  Whether the function returns
    depends on the reading alone: it does when the file is read to its end;
    an exception that breaks the reading off leaves the function, unless it
    is a [FileNotFoundError]. *)
Theorem decode_failure_isolation
    (open_read : string -> result in_file)
    (json_loads : string -> result pyval)
    (file_path : string) (before after : list string) (bad : string)
    (raised : option exn) (w : world) :
  open_read file_path = Ok (InFile (before ++ bad :: after) raised) ->
  json_loads (strip bad) = Raise JSONDecodeError ->
  Forall (fun l => is_ok (json_loads (strip l))) (before ++ after) ->
  length (decoded json_loads (before ++ bad :: after))
    = length (before ++ after) /\
  (forall ips w0,
      extract_line json_loads ips bad w0 =
      (Ok ips,
       World (trace w0 ++ [Print (SkippingInvalidJSON (strip bad))])
             (drawn w0))) /\
  exists ips t1 t2,
    for_each (extract_line json_loads) [] (before ++ after) w =
      (Ok ips, World (trace w ++ t1 ++ t2) (drawn w)) /\
    extract_and_format_ips open_read json_loads file_path w =
      match raised with
      | None =>
          (Ok ips,
           World (trace w ++ OpenRead file_path :: t1
                    ++ Print (SkippingInvalidJSON (strip bad)) :: t2)
                 (drawn w))
      | Some e =>
          if isinstance e FileNotFoundError
          then (Ok ips,
                World (trace w ++ OpenRead file_path :: t1
                         ++ Print (SkippingInvalidJSON (strip bad)) :: t2
                         ++ [Print (FileNotFound file_path)])
                      (drawn w))
          else (Raise e,
                World (trace w ++ OpenRead file_path :: t1
                         ++ Print (SkippingInvalidJSON (strip bad)) :: t2)
                      (drawn w))
      end.
Proof.
  intros Hopen Hbad Hgood. split; [|split].
  - rewrite decoded_app. simpl. unfold decoded at 2. simpl. rewrite Hbad.
    fold (decoded json_loads after). rewrite <- decoded_app.
    apply decoded_length, Hgood.
  - intros ips w0. apply (extract_line_skip json_loads ips bad Hbad).
  - pose proof (yields_for_each_total (extract_line json_loads)
                  (extract_line_total json_loads)) as Htot.
    destruct (Htot before []) as (ips1 & t1 & H1).
    destruct (Htot after ips1) as (ips2 & t2 & H2).
    exists ips2, t1, t2. split.
    + apply (yields_for_each_app _ _ _ _ _ _ _ _ H1 H2).
    + assert (Hloop :
        yields (for_each (extract_line json_loads) []
                  (lines_of (InFile (before ++ bad :: after) raised)))
               (Ok ips2)
               (t1 ++ [Print (SkippingInvalidJSON (strip bad))] ++ t2)).
      { apply (yields_for_each_app _ _ _ _ _ _ _ _ H1).
        apply (yields_for_each_cons _ _ _ _ ips1
                 [Print (SkippingInvalidJSON (strip bad))] _ _
                 (extract_line_skip json_loads ips1 bad Hbad) H2). }
      rewrite (extract_and_format_ips_read _ _ _ _ _ _ w Hopen Hloop).
      simpl. rewrite <- !app_assoc. reflexivity.
Qed.

Lemma decode_failure_isolation_witness :
  length (decoded stub_loads ([line_a] ++ line_bad :: [line_b]))
    = length ([line_a] ++ [line_b]) /\
  (forall ips w0,
      extract_line stub_loads ips line_bad w0 =
      (Ok ips,
       World (trace w0 ++ [Print (SkippingInvalidJSON (strip line_bad))])
             (drawn w0))) /\
  exists ips t1 t2,
    for_each (extract_line stub_loads) [] ([line_a] ++ [line_b]) (World [] 0) =
      (Ok ips,
       World (trace (World [] 0) ++ t1 ++ t2) (drawn (World [] 0))) /\
    extract_and_format_ips (stub_open [line_a; line_bad; line_b]) stub_loads
      "input.json" (World [] 0) =
      (Ok ips,
       World (trace (World [] 0) ++ OpenRead "input.json" :: t1
                ++ Print (SkippingInvalidJSON (strip line_bad)) :: t2)
             (drawn (World [] 0))).
Proof.
  apply (decode_failure_isolation (stub_open [line_a; line_bad; line_b])
           stub_loads "input.json" [line_a] [line_b] line_bad None
           (World [] 0)).
  - reflexivity.
  - reflexivity.
  - repeat constructor; eexists; reflexivity.
Defined.

(** C1 as stated fails: not every source is decoded without an exception
    leaving the stage.  A file that opens, delivers a well-formed line and
    then meets bytes that are not text ends the function with
    [UnicodeDecodeError]. *)
Lemma decode_read_error_counterexample :
  ~ (forall (open_read : string -> result in_file)
            (json_loads : string -> result pyval)
            (file_path : string) (file : in_file) (w : world),
       open_read file_path = Ok file ->
       is_ok (fst (extract_and_format_ips open_read json_loads file_path w))).
Proof.
  intros H.
  destruct (H (stub_open_broken [line_a]) stub_loads "input.json"
              (InFile [line_a] (Some UnicodeDecodeError)) (World [] 0)
              eq_refl) as [ips Hips].
  vm_compute in Hips. discriminate Hips.
Qed.

Example extract_stub_run :
  extract_and_format_ips (stub_open [line_a; line_bad; line_b]) stub_loads
    "input.json" (World [] 0) =
  (Ok ["192.168.1.1"; "1.2.3.4"],
   World [OpenRead "input.json";
          Print (SkippingInvalidJSON line_bad)] 0).
Proof. vm_compute. reflexivity. Qed.

(** Bytes that are not text after the first line: the exception leaves the
    function, the address of the first line is lost with it. *)
Example extract_broken_file :
  extract_and_format_ips (stub_open_broken [line_a]) stub_loads "input.json"
    (World [] 0) =
  (Raise UnicodeDecodeError, World [OpenRead "input.json"] 0).
Proof. vm_compute. reflexivity. Qed.

Example extract_missing_file :
  extract_and_format_ips (stub_open []) stub_loads "absent.json" (World [] 0) =
  (Ok [], World [OpenRead "absent.json"; Print (FileNotFound "absent.json")] 0).
Proof. vm_compute. reflexivity. Qed.

Lemma py_getitem_in (items : list (string * pyval)) (key : string) (v : pyval) :
  py_getitem (PDict items) key = Ok v -> py_in key (PDict items) = Ok true.
Proof.
  simpl. induction items as [|[k x] items IH]; simpl; [discriminate|].
  destruct (String.eqb k key); [reflexivity|]. exact IH.
Qed.

(** C6 (extraction asymmetry).  For a decoded record (a dict): without the
    key ["ip"] the loop body adds nothing and reports nothing; with an
    ["ip"] that is not a valid address value (it does not coerce to an
    integer, or the integer is out of range) it adds nothing and reports
    exactly once.  In both cases the loop goes on with the rest of the
    lines. *)
Theorem extraction_asymmetry
    (json_loads : string -> result pyval) (ips : list string)
    (line : string) (rest : list string) (items : list (string * pyval))
    (w : world) :
  json_loads (strip line) = Ok (PDict items) ->
  (py_in "ip" (PDict items) = Ok false ->
     extract_line json_loads ips line w = (Ok ips, w) /\
     for_each (extract_line json_loads) ips (line :: rest) w =
     for_each (extract_line json_loads) ips rest w) /\
  (forall ip_value,
     py_getitem (PDict items) "ip" = Ok ip_value ->
     ~ valid_ip_value ip_value ->
     exists m,
       (m = InvalidIPValue ip_value \/ exists e, m = AnErrorOccurred e) /\
       extract_line json_loads ips line w =
         (Ok ips, World (trace w ++ [Print m]) (drawn w)) /\
       for_each (extract_line json_loads) ips (line :: rest) w =
       for_each (extract_line json_loads) ips rest
         (World (trace w ++ [Print m]) (drawn w))).
Proof.
  intros Hloads. split.
  - intros Hin.
    pose proof (extract_line_no_ip json_loads ips line _ Hloads Hin w) as H.
    rewrite world_eta in H. split; [exact H|].
    simpl. unfold mbind, io_bind, bind. rewrite H. reflexivity.
  - intros ip_value Hget Hinvalid.
    destruct (extract_line_invalid json_loads ips line _ _ Hloads
                (py_getitem_in _ _ _ Hget) Hget Hinvalid) as (m & Hm & Hcase).
    exists m. split; [exact Hcase|]. split; [apply Hm|].
    simpl. unfold mbind, io_bind, bind. rewrite (Hm w). reflexivity.
Qed.

Lemma extraction_asymmetry_witness :
  exists m,
    (m = InvalidIPValue (PInt 4294967296) \/ exists e, m = AnErrorOccurred e) /\
    extract_line stub_loads [] (member_line "ip" "4294967296") (World [] 0) =
      (Ok [], World (trace (World [] 0) ++ [Print m]) (drawn (World [] 0))) /\
    for_each (extract_line stub_loads) []
      (member_line "ip" "4294967296" :: [line_a]) (World [] 0) =
    for_each (extract_line stub_loads) [] [line_a]
      (World (trace (World [] 0) ++ [Print m]) (drawn (World [] 0))).
Proof.
  apply (proj2 (extraction_asymmetry stub_loads []
                  (member_line "ip" "4294967296") [line_a]
                  [("ip", PInt 4294967296)] (World [] 0) eq_refl)
           (PInt 4294967296) eq_refl).
  intros (v & Hv & Hrange). injection Hv as <-. lia.
Defined.

Example extract_missing_key :
  extract_line stub_loads ["1.2.3.4"] (member_line "port" "80") (World [] 0) =
  (Ok ["1.2.3.4"], World [] 0).
Proof. vm_compute. reflexivity. Qed.

Example extract_null_ip :
  extract_line stub_loads ["1.2.3.4"] (member_line "ip" "null") (World [] 0) =
  (Ok ["1.2.3.4"], World [Print (AnErrorOccurred TypeError)] 0).
Proof. vm_compute. reflexivity. Qed.

(** ** The readme pattern *)

Lemma append_cons (a : ascii) (s t : string) :
  String a s +:+ t = String a (s +:+ t).
Proof. reflexivity. Qed.

Lemma append_empty (t : string) : EmptyString +:+ t = t.
Proof. reflexivity. Qed.

Lemma take_while_all (p : ascii -> bool) (s : string) :
  all_chars p (take_while p s) = true.
Proof.
  induction s as [|a s IH]; simpl; [reflexivity|].
  destruct (p a) eqn:Ha; simpl; [rewrite Ha; exact IH | reflexivity].
Qed.

Lemma take_while_split (p : ascii -> bool) (s : string) :
  exists post, s = take_while p s +:+ post /\ run_ends p post.
Proof.
  induction s as [|a s (post & Hs & Hend)]; simpl.
  - exists EmptyString. split; [reflexivity | exact I].
  - destruct (p a) eqn:Ha.
    + exists post. split; [|exact Hend].
      rewrite append_cons. f_equal. exact Hs.
    + exists (String a s). split; [reflexivity | exact Ha].
Qed.

Lemma drop_prefix_sound (p s r : string) :
  drop_prefix p s = Some r -> s = p +:+ r.
Proof.
  revert s. induction p as [|a p IH]; intros s; simpl.
  - intros [= ->]. reflexivity.
  - destruct s as [|b s]; [discriminate|].
    destruct (Ascii.eqb_spec a b) as [->|]; [|discriminate].
    intros H. rewrite append_cons. f_equal. apply IH, H.
Qed.

Lemma drop_prefix_app (p r : string) : drop_prefix p (p +:+ r) = Some r.
Proof.
  induction p as [|a p IH]; [reflexivity|].
  rewrite append_cons. simpl. rewrite Ascii.eqb_refl. exact IH.
Qed.

Lemma append_assoc (a b c : string) : (a +:+ b) +:+ c = a +:+ b +:+ c.
Proof.
  induction a as [|x a IH]; [reflexivity|].
  rewrite !append_cons. f_equal. exact IH.
Qed.

Lemma stable_tag_match_sound (s g : string) :
  stable_tag_match s = Some g ->
  g <> EmptyString /\ all_chars version_char g = true /\
  exists post, s = "Stable tag: " +:+ g +:+ post /\ run_ends version_char post.
Proof.
  unfold stable_tag_match.
  destruct (drop_prefix "Stable tag: " s) as [rest|] eqn:Hd; [|discriminate].
  apply drop_prefix_sound in Hd.
  destruct (take_while_split version_char rest) as (post & Hrest & Hend).
  pose proof (take_while_all version_char rest) as Hall.
  destruct (take_while version_char rest) as [|c g'] eqn:Htw; [discriminate|].
  intros [= <-]. split; [discriminate|]. split; [exact Hall|].
  exists post. split; [|exact Hend]. rewrite Hd, Hrest. reflexivity.
Qed.

Lemma stable_tag_match_complete (c : ascii) (rest : string) :
  version_char c = true ->
  exists g, stable_tag_match ("Stable tag: " +:+ String c rest) = Some g.
Proof.
  intros Hc. unfold stable_tag_match. rewrite drop_prefix_app. simpl.
  rewrite Hc. eauto.
Qed.

Lemma stable_tag_search_sound (content g : string) :
  stable_tag_search content = Some g ->
  g <> EmptyString /\ all_chars version_char g = true /\
  exists pre post,
    content = pre +:+ "Stable tag: " +:+ g +:+ post /\
    run_ends version_char post.
Proof.
  induction content as [|a content IH].
  - simpl. discriminate.
  - cbn [stable_tag_search].
    destruct (stable_tag_match (String a content)) as [g'|] eqn:Hm.
    + intros [= ->].
      destruct (stable_tag_match_sound _ _ Hm) as (H1 & H2 & post & H3 & H4).
      split; [exact H1|]. split; [exact H2|]. exists EmptyString, post. auto.
    + intros H. destruct (IH H) as (H1 & H2 & pre & post & H3 & H4).
      split; [exact H1|]. split; [exact H2|].
      exists (String a pre), post. split; [|exact H4].
      rewrite append_cons. f_equal. exact H3.
Qed.

Lemma stable_tag_search_complete (content : string) :
  has_stable_tag content -> exists g, stable_tag_search content = Some g.
Proof.
  intros (pre & c & rest & -> & Hc).
  induction pre as [|a pre IH].
  - destruct (stable_tag_match_complete c rest Hc) as (g & Hg).
    exists g. rewrite append_empty.
    change ("Stable tag: " +:+ String c rest) with
      (String "S" ("table tag: " +:+ String c rest)) in *.
    cbn [stable_tag_search]. rewrite Hg. reflexivity.
  - rewrite append_cons. cbn [stable_tag_search].
    destruct (stable_tag_match _) as [g|]; [eauto | exact IH].
Qed.

Lemma stable_tag_search_iff (content : string) :
  has_stable_tag content <-> exists g, stable_tag_search content = Some g.
Proof.
  split; [apply stable_tag_search_complete|].
  intros (g & Hg).
  destruct (stable_tag_search_sound _ _ Hg) as (Hne & Hall & pre & post & -> & _).
  destruct g as [|c g]; [contradiction|].
  exists pre, c, (g +:+ post). split; [reflexivity|].
  simpl in Hall. apply andb_prop in Hall. tauto.
Qed.

(** A version has no white space to strip. *)
Lemma version_char_not_space (a : ascii) :
  version_char a = true -> is_space a = false.
Proof.
  destruct a as [[] [] [] [] [] [] [] []]; vm_compute; congruence.
Qed.

Lemma rstrip_id (sp p : ascii -> bool) (s : string) :
  (forall a, p a = true -> sp a = false) ->
  all_chars p s = true -> rstrip sp s = s.
Proof.
  intros Hp. induction s as [|a s IH]; simpl; [reflexivity|].
  intros H. apply andb_prop in H as [Ha Hs]. rewrite (IH Hs).
  destruct s; [rewrite (Hp a Ha)|]; reflexivity.
Qed.

Lemma strip_version (g : string) :
  all_chars version_char g = true -> strip g = g.
Proof.
  intros H. unfold strip.
  assert (Hl : lstrip is_space g = g).
  { destruct g as [|a g]; [reflexivity|]. simpl in *.
    apply andb_prop in H as [Ha _].
    rewrite (version_char_not_space a Ha). reflexivity. }
  rewrite Hl.
  apply (rstrip_id is_space version_char);
    [apply version_char_not_space | exact H].
Qed.

(** ** fetch_readme_content *)

Lemma fetch_readme_content_yields
    (requests_get : string -> list (string * string) -> Z -> result response)
    (domain : string) :
  exists r t,
    yields (OldMain.fetch_readme_content requests_get domain) r
           (HttpGet (readme_url domain) HEADERS 5 :: t) /\
    Forall is_print t /\
    r = match requests_get (readme_url domain) HEADERS 5 with
        | Ok resp =>
            if (400 <=? status_code resp) && (status_code resp <? 600)
            then Ok (None, None)
            else match stable_tag_search (text resp) with
                 | Some g => Ok (Some (readme_url domain), Some g)
                 | None => Ok (None, None)
                 end
        | Raise e =>
            if isinstance e RequestException then Ok (None, None)
            else Raise e
        end.
Proof.
  destruct (requests_get (readme_url domain) HEADERS 5) as [resp|e] eqn:Hget.
  - destruct ((400 <=? status_code resp) && (status_code resp <? 600))
      eqn:Hst.
    + exists (Ok (None, None)), [Print (RequestFailed domain HTTPError)].
      split; [|split; [repeat constructor; eexists; reflexivity | reflexivity]].
      intros w. unfold OldMain.fetch_readme_content, call_requests_get.
      fold (readme_url domain). io_simpl. rewrite Hget. simpl.
      unfold raise_for_status. rewrite Hst. simpl.
      io_done.
    + destruct (stable_tag_search (text resp)) as [g|] eqn:Hs.
      * exists (Ok (Some (readme_url domain), Some g)), [].
        split; [|split; [constructor | reflexivity]].
        intros w. unfold OldMain.fetch_readme_content, call_requests_get.
        fold (readme_url domain). io_simpl. rewrite Hget. simpl.
        unfold raise_for_status. rewrite Hst. simpl. rewrite Hs.
        rewrite (strip_version g)
          by apply (stable_tag_search_sound _ _ Hs).
        io_done.
      * exists (Ok (None, None)), [Print (VersionNotFound domain)].
        split; [|split; [repeat constructor; eexists; reflexivity | reflexivity]].
        intros w. unfold OldMain.fetch_readme_content, call_requests_get.
        fold (readme_url domain). io_simpl. rewrite Hget. simpl.
        unfold raise_for_status. rewrite Hst. simpl. rewrite Hs.
        io_done.
  - destruct (isinstance e RequestException) eqn:He.
    + exists (Ok (None, None)), [Print (RequestFailed domain e)].
      split; [|split; [repeat constructor; eexists; reflexivity | reflexivity]].
      intros w. unfold OldMain.fetch_readme_content, call_requests_get.
      fold (readme_url domain). io_simpl. rewrite Hget. simpl.
      rewrite He. io_done.
    + exists (Raise e), [].
      split; [|split; [constructor | reflexivity]].
      intros w. unfold OldMain.fetch_readme_content, call_requests_get.
      fold (readme_url domain). io_simpl. rewrite Hget. simpl.
      rewrite He. io_done.
Qed.

(** C7 (probe contract), as the code has it.  The probe issues one GET, to
    the readme URL of the host, with [HEADERS] and the timeout 5, and
    otherwise only prints.  It returns the pair (url, version) exactly when
    the request returns a response whose status is not 4xx or 5xx and whose
    body holds the pattern; the version is then the captured run.  A
    [RequestException] (transport failure, or the [HTTPError] of a 4xx or 5xx
    status) and a body without the pattern give (None, None); an exception
    of another class is not caught. *)
Theorem probe_contract
    (requests_get : string -> list (string * string) -> Z -> result response)
    (domain : string) (w : world) :
  exists r t,
    OldMain.fetch_readme_content requests_get domain w =
      (r, World (trace w ++ HttpGet (readme_url domain) HEADERS 5 :: t)
                (drawn w)) /\
    Forall is_print t /\
    match requests_get (readme_url domain) HEADERS 5 with
    | Ok resp =>
        if (400 <=? status_code resp) && (status_code resp <? 600)
        then r = Ok (None, None)
        else
          (has_stable_tag (text resp) ->
           exists version pre post,
             r = Ok (Some (readme_url domain), Some version) /\
             version <> EmptyString /\
             all_chars version_char version = true /\
             text resp = pre +:+ "Stable tag: " +:+ version +:+ post /\
             run_ends version_char post) /\
          (~ has_stable_tag (text resp) -> r = Ok (None, None))
    | Raise e =>
        if isinstance e RequestException then r = Ok (None, None)
        else r = Raise e
    end.
Proof.
  destruct (fetch_readme_content_yields requests_get domain)
    as (r & t & Hy & Ht & Hr).
  exists r, t. split; [apply Hy|]. split; [exact Ht|].
  destruct (requests_get (readme_url domain) HEADERS 5) as [resp|e];
    [|destruct (isinstance e RequestException); exact Hr].
  destruct ((400 <=? status_code resp) && (status_code resp <? 600));
    [exact Hr|].
  destruct (stable_tag_search (text resp)) as [g|] eqn:Hs.
  - split.
    + intros _.
      destruct (stable_tag_search_sound _ _ Hs)
        as (Hne & Hall & pre & post & Htext & Hend).
      exists g, pre, post. auto.
    + intros Hno. exfalso. apply Hno. apply stable_tag_search_iff. eauto.
  - split.
    + intros Hhas. apply stable_tag_search_iff in Hhas as (g & Hg).
      congruence.
    + intros _. exact Hr.
Qed.

(** C7 as stated fails: a status outside 2xx that is not 4xx or 5xx does not
    make the probe give up. *)
Lemma probe_non_2xx_counterexample :
  ~ (forall requests_get domain w resp,
       requests_get (readme_url domain) HEADERS 5 = Ok resp ->
       ~ (200 <= status_code resp < 300) ->
       fst (OldMain.fetch_readme_content requests_get domain w)
         = Ok (None, None)).
Proof.
  intros H.
  specialize (H (stub_get 300 "Stable tag: 1.0") "host.example.com"
                (World [] 0) (Response 300 "Stable tag: 1.0") eq_refl).
  assert (Hst : ~ (200 <= status_code (Response 300 "Stable tag: 1.0") < 300))
    by (simpl; lia).
  specialize (H Hst). vm_compute in H. discriminate H.
Qed.

Example probe_stub_site :
  OldMain.fetch_readme_content stub_site "host.example.com" (World [] 0) =
  (Ok (Some (readme_url "host.example.com"), Some "4.2.1"),
   World [HttpGet (readme_url "host.example.com") HEADERS 5] 0).
Proof. vm_compute. reflexivity. Qed.

(** ** The loop of old-main.py *)

Lemma reverse_dns_lookup_old_yields
    (getfqdn : string -> result string) (ip : string) :
  exists r t,
    yields (OldMain.reverse_dns_lookup getfqdn ip) (Ok r) (Getfqdn ip :: t) /\
    Forall is_print t.
Proof.
  destruct (getfqdn ip) as [h|e] eqn:Hq.
  - exists (if negb (String.eqb h ip) then Some h else None), [].
    split; [|constructor].
    intros w. unfold OldMain.reverse_dns_lookup, call_getfqdn. io_simpl.
    rewrite Hq. simpl. destruct (String.eqb h ip); io_done.
  - destruct (isinstance e herror) eqn:He.
    + exists None, [Print (NoDomainNameFound ip)].
      split; [|repeat constructor; eexists; reflexivity].
      intros w. unfold OldMain.reverse_dns_lookup, call_getfqdn. io_simpl.
      rewrite Hq. simpl. rewrite He. io_done.
    + exists None, [Print (ErrorDuringLookup ip e)].
      split; [|repeat constructor; eexists; reflexivity].
      intros w. unfold OldMain.reverse_dns_lookup, call_getfqdn. io_simpl.
      rewrite Hq. simpl. rewrite He, isinstance_Exception. io_done.
Qed.

Lemma sleep_cases (d : spec_float) (w : world) :
  sleep d w = (Ok tt, World (trace w ++ [Sleep d]) (drawn w)) \/
  exists e, sleep d w = (Raise e, w).
Proof.
  unfold sleep.
  destruct d as [s | [|] | | s m e]; try (right; eexists; reflexivity);
    destruct (SFltb _ _); try (right; eexists; reflexivity);
    left; reflexivity.
Qed.

Lemma truthy_readme_url (domain : string) :
  truthy_value (Some (readme_url domain)) = Some (readme_url domain).
Proof. reflexivity. Qed.

Lemma truthy_value_some (o : option string) (s : string) :
  truthy_value o = Some s -> o = Some s /\ s <> EmptyString.
Proof.
  unfold truthy_value, truthy. destruct o as [[|a t]|]; try discriminate.
  intros [= <-]. split; [reflexivity | discriminate].
Qed.

Lemma extended_result_record (domain version : string) :
  version <> EmptyString -> all_chars version_char version = true ->
  extended_record (result_record domain (readme_url domain) version).
Proof.
  intros Hne Hall. split.
  - unfold result_record. rewrite !dom_insert_L, dom_singleton_L. set_solver.
  - exists domain, version. unfold result_record.
    repeat split; try assumption.
Qed.

(** What one turn of the loop can do to the list: leave it, or append one
    well-formed record. *)
Lemma main_step_old_appends
    (getfqdn : string -> result string)
    (requests_get : string -> list (string * string) -> Z -> result response)
    (random_uniform : nat -> Z -> Z -> spec_float)
    (results results' : list (gmap string string)) (ip : string)
    (w w' : world) :
  OldMain.main_step getfqdn requests_get random_uniform results ip w
    = (Ok results', w') ->
  results' = results \/
  exists domain version,
    results' = results ++ [result_record domain (readme_url domain) version]
    /\ version <> EmptyString /\ all_chars version_char version = true.
Proof.
  unfold OldMain.main_step, call_random_uniform. io_unfold.
  destruct (sleep_cases (random_uniform (drawn w) 2 6)
              (World (trace w) (S (drawn w)))) as [Hs | (e & Hs)];
    rewrite Hs; [|discriminate].
  destruct (reverse_dns_lookup_old_yields getfqdn ip) as (r & t & Hr & _).
  rewrite (Hr _).
  destruct (truthy_value r) as [domain|] eqn:Hdom.
  2:{ intros [= <- _]. left. reflexivity. }
  destruct (fetch_readme_content_yields requests_get domain)
    as (f & t' & Hf & _ & Hfr).
  rewrite (Hf _).
  destruct (requests_get (readme_url domain) HEADERS 5) as [resp|e].
  - destruct ((400 <=? status_code resp) && (status_code resp <? 600)).
    + subst f. intros [= <- _]. left. reflexivity.
    + destruct (stable_tag_search (text resp)) as [g|] eqn:Hg; subst f.
      * destruct (stable_tag_search_sound _ _ Hg) as (Hne & Hall & _).
        rewrite truthy_readme_url.
        destruct g as [|c g]; [contradiction|].
        intros [= <- _]. right. exists domain, (String c g). auto.
      * intros [= <- _]. left. reflexivity.
  - destruct (isinstance e RequestException); subst f.
    + intros [= <- _]. left. reflexivity.
    + discriminate.
Qed.

(** C10 (record invariant of the extended report).  Every element the loop
    of old-main.py appends to [results] has exactly the keys [domain], [url]
    and [version]; its URL is the readme URL of its domain and its version
    is a non-empty string of digits and dots. *)
Theorem extended_record_invariant
    (getfqdn : string -> result string)
    (requests_get : string -> list (string * string) -> Z -> result response)
    (random_uniform : nat -> Z -> Z -> spec_float)
    (ips : list string) (acc results : list (gmap string string))
    (w w' : world) :
  Forall extended_record acc ->
  for_each (OldMain.main_step getfqdn requests_get random_uniform) acc ips w
    = (Ok results, w') ->
  Forall extended_record results.
Proof.
  revert acc w. induction ips as [|ip ips IH]; intros acc w Hacc.
  - simpl. intros [= <- _]. exact Hacc.
  - simpl. io_unfold.
    destruct (OldMain.main_step getfqdn requests_get random_uniform acc ip w)
      as [[acc'|e] w1] eqn:Hstep; [|discriminate].
    apply IH.
    destruct (main_step_old_appends _ _ _ _ _ _ _ _ Hstep)
      as [-> | (domain & version & -> & Hne & Hall)]; [exact Hacc|].
    apply Forall_app. split; [exact Hacc|].
    constructor; [|constructor].
    apply extended_result_record; assumption.
Qed.

Lemma extended_record_invariant_witness :
  Forall extended_record
    [result_record "host.example.com" (readme_url "host.example.com") "4.2.1"].
Proof.
  apply (extended_record_invariant stub_getfqdn stub_site stub_uniform
           ["192.168.1.1"; "10.0.0.1"] [] _ (World [] 0)
           (World [Sleep float_three;
                   Getfqdn "192.168.1.1";
                   HttpGet (readme_url "host.example.com") HEADERS 5;
                   Sleep float_three;
                   Getfqdn "10.0.0.1";
                   Print (NoDomainFoundForIP "10.0.0.1")] 2)).
  - constructor.
  - vm_compute. reflexivity.
Defined.

(** ** Insertion into a sorted prefix *)


Section PureSortFacts.
Context {K A : Type}.
Variable ltb : K -> K -> bool.
Hypothesis ltb_asym : forall a b, ltb a b = true -> ltb b a = false.
Hypothesis geb_trans :
  forall a b c, ltb a b = false -> ltb b c = false -> ltb a c = false.







End PureSortFacts.

(** ** The order of the keys *)

Lemma part_eqb_eq (x y : key_part) : part_eqb x y = true <-> x = y.
Proof.
  destruct x as [m|s], y as [n|t]; simpl; split; try discriminate.
  - intros H. apply Z.eqb_eq in H. congruence.
  - intros [= ->]. apply Z.eqb_refl.
  - intros H. apply String.eqb_eq in H. congruence.
  - intros [= ->]. apply String.eqb_refl.
Qed.

Lemma part_eqb_refl (x : key_part) : part_eqb x x = true.
Proof. apply part_eqb_eq. reflexivity. Qed.











(** ** The sort on comparable keys *)



(** ** Keys of readable versions *)

Lemma decimal_not_int_space (a : ascii) :
  is_decimal a = true -> is_int_space a = false.
Proof.
  destruct a as [[] [] [] [] [] [] [] []]; vm_compute; congruence.
Qed.

Lemma decimal_is_digit (a : ascii) :
  is_decimal a = true -> is_digit_char a = true.
Proof. intros H. unfold is_digit_char. rewrite H. reflexivity. Qed.

Lemma decimal_no_sign (a : ascii) (t : string) :
  is_decimal a = true -> int_signed (String a t) = int_unsigned (String a t).
Proof.
  destruct a as [[] [] [] [] [] [] [] []];
    try reflexivity; vm_compute; discriminate.
Qed.

Lemma all_chars_impl (p q : ascii -> bool) (s : string) :
  (forall a, p a = true -> q a = true) ->
  all_chars p s = true -> all_chars q s = true.
Proof.
  intros Hpq. induction s as [|a s IH]; simpl; [reflexivity|].
  intros H. apply andb_prop in H as [Ha Hs].
  rewrite (Hpq a Ha), (IH Hs). reflexivity.
Qed.

Lemma decimal_value_code (a : ascii) :
  is_decimal a = true -> decimal_value a = Some (code a - 48).
Proof.
  unfold is_decimal, decimal_value.
  destruct ((48 <=? code a) && (code a <=? 57)); [reflexivity | discriminate].
Qed.

Lemma int_digits_decimal (s : string) :
  all_chars is_decimal s = true ->
  forall acc, int_digits acc false s = Some (digits_value acc s).
Proof.
  induction s as [|a s IH]; simpl; intros H acc; [reflexivity|].
  apply andb_prop in H as [Ha Hs].
  rewrite (decimal_value_code a Ha). apply (IH Hs).
Qed.

Lemma plain_is_digit (p : string) : plain_part p = true -> isdigit p = true.
Proof.
  destruct p as [|a p]; [discriminate|]. intros H.
  change (all_chars is_decimal (String a p) = true) in H.
  apply (all_chars_impl is_decimal); [apply decimal_is_digit | exact H].
Qed.

(** [int()] on a run of decimal digits: its number, unless the run is
    longer than the interpreter converts. *)
Lemma int_of_str_plain (p : string) :
  plain_part p = true ->
  int_of_str p =
  if count_digits p <=? int_max_str_digits then Ok (digits_value 0 p)
  else Raise ValueError.
Proof.
  destruct p as [|a p]; [discriminate|]. intros H.
  change (all_chars is_decimal (String a p) = true) in H.
  pose proof H as H'. simpl in H'. apply andb_prop in H' as [Ha Hp].
  unfold int_of_str.
  assert (Hstrip : rstrip is_int_space (lstrip is_int_space (String a p))
                   = String a p).
  { simpl lstrip. rewrite (decimal_not_int_space a Ha).
    apply (rstrip_id is_int_space is_decimal);
      [apply decimal_not_int_space | exact H]. }
  rewrite Hstrip, (decimal_no_sign a p Ha).
  cbn [int_unsigned digits_value]. rewrite (decimal_value_code a Ha).
  rewrite (int_digits_decimal p Hp). reflexivity.
Qed.

Lemma int_of_str_numeric (p : string) :
  numeric_part p = true ->
  isdigit p = true /\ int_of_str p = Ok (digits_value 0 p).
Proof.
  unfold numeric_part. intros H. apply andb_prop in H as [Hp Hl].
  split; [apply plain_is_digit, Hp|].
  rewrite (int_of_str_plain p Hp), Hl. reflexivity.
Qed.

Lemma mapM_cons_result {X Y} (f : X -> result Y) (x : X) (l : list X) :
  mapM f (x :: l) =
  match f x with
  | Ok y => match mapM f l with
            | Ok k => Ok (y :: k)
            | Raise e => Raise e
            end
  | Raise e => Raise e
  end.
Proof. reflexivity. Qed.









(** ** The sort of old-main.py *)









(** Empty components in the same place compare as well: the keys of 2. and
    1. are [2, ''] and [1, '']. *)
Example version_sort_trailing_dots :
  list_sort OldMain.version_key key_lt [versioned "2."; versioned "1."]
  = Ok [versioned "1."; versioned "2."].
Proof. vm_compute. reflexivity. Qed.

(** Equal keys: 1.0 and 1.00 have the key [1, 0] and keep their order. *)
Example version_sort_stable :
  list_sort OldMain.version_key key_lt
    [versioned "2.0"; versioned "1.00"; versioned "1.0"]
  = Ok [versioned "1.00"; versioned "1.0"; versioned "2.0"].
Proof. vm_compute. reflexivity. Qed.

Lemma key_lt_mixed (m : Z) (s : string) (a b : list key_part) :
  key_lt (KInt m :: a) (KStr s :: b) = Raise TypeError /\
  key_lt (KStr s :: a) (KInt m :: b) = Raise TypeError.
Proof. split; reflexivity. Qed.

(** C8 (totality of the version comparison), where the code departs from
    it.  The readme line [Stable tag: 4.2.] gives the version [4.2.], whose
    key is [4, 2, ''].  Against the key [4, 2, 1] of [4.2.1] the third
    components are a str and an int, [<] raises [TypeError], the sort raises,
    and [main] ends before the report is written. *)
Theorem version_sort_mixed_raises :
  OldMain.version_key (versioned "4.2.")
    = Ok [KInt 4; KInt 2; KStr EmptyString] /\
  OldMain.version_key (versioned "4.2.1") = Ok [KInt 4; KInt 2; KInt 1] /\
  key_lt [KInt 4; KInt 2; KStr EmptyString] [KInt 4; KInt 2; KInt 1]
    = Raise TypeError /\
  list_sort OldMain.version_key key_lt [versioned "4.2.1"; versioned "4.2."]
    = Raise TypeError /\
  OldMain.main (stub_open [line_a; line_b]) stub_loads stub_getfqdn stub_site
    stub_uniform stub_open_write (World [] 0)
  = (Raise TypeError,
     World [OpenRead "input.json";
            Sleep float_three;
            Getfqdn "192.168.1.1";
            HttpGet (readme_url "host.example.com") HEADERS 5;
            Sleep float_three;
            Getfqdn "1.2.3.4";
            HttpGet (readme_url "other.example.com") HEADERS 5] 2).
Proof. repeat split; vm_compute; reflexivity. Qed.

(** ** Pacing *)

Example float_three_value : int_of_float float_three = Ok 3.
Proof. reflexivity. Qed.

Lemma sleep_paced (d : spec_float) (w : world) :
  SFleb float_two d = true -> SFleb d float_six = true ->
  sleep d w = (Ok tt, World (trace w ++ [Sleep d]) (drawn w)).
Proof.
  destruct d as [s | s | | s m e]; try discriminate.
  - destruct s; discriminate.
  - destruct s; [discriminate|]. intros _ _. reflexivity.
Qed.

Lemma main_step_unfold getfqdn requests_get random_uniform results ip :
  OldMain.main_step getfqdn requests_get random_uniform results ip =
  (seconds ← call_random_uniform random_uniform 2 6;
   sleep seconds;;
   main_step_after_sleep getfqdn requests_get results ip).
Proof. reflexivity. Qed.

Lemma main_unfold open_read json_loads getfqdn requests_get random_uniform
    open_write :
  OldMain.main open_read json_loads getfqdn requests_get random_uniform
    open_write =
  (ips ← extract_and_format_ips open_read json_loads "input.json";
   results ← for_each
     (OldMain.main_step getfqdn requests_get random_uniform) [] ips;
   main_finish open_write results).
Proof. reflexivity. Qed.

Lemma main_basic_unfold open_read json_loads getfqdn open_write :
  Main.main open_read json_loads getfqdn open_write =
  (ips ← extract_and_format_ips open_read json_loads "input.json";
   results ← for_each (Main.main_step getfqdn) [] ips;
   save_results open_write results).
Proof. reflexivity. Qed.

(** Saving the report, by what the output file does: the events stop where
    an exception is raised, and an exception of the closing is the one that
    leaves the block. *)
Lemma save_results_yields (open_write : string -> result out_file)
    (results : list (gmap string string)) :
  yields (save_results open_write results)
    match open_write "output.json" with
    | Ok outfile =>
        match close_error outfile with
        | Some e => Raise e
        | None => outcome (write_error outfile)
        end
    | Raise e => Raise e
    end
    (OpenWrite "output.json" ::
     match open_write "output.json" with
     | Ok outfile =>
         JsonDump "output.json" results 4 ::
         match write_error outfile with
         | Some _ => []
         | None =>
             Print (SitesFound (length results)) ::
             match close_error outfile with
             | Some _ => []
             | None => [Print ResultsSaved]
             end
         end
     | Raise _ => []
     end).
Proof.
  intros w. unfold save_results, with_open_write, call_open_write, json_dump.
  io_simpl.
  destruct (open_write "output.json") as [[[e1|] [e2|]]|e]; simpl;
    rewrite <- ?app_assoc; reflexivity.
Qed.

Lemma main_step_after_sleep_yields getfqdn requests_get results ip :
  exists r t, yields (main_step_after_sleep getfqdn requests_get results ip) r t.
Proof.
  unfold main_step_after_sleep.
  destruct (reverse_dns_lookup_old_yields getfqdn ip) as (d & t0 & Hd & _).
  destruct (truthy_value d) as [domain|] eqn:Htv.
  - destruct (fetch_readme_content_yields requests_get domain)
      as ([[url version]|e] & t1 & Hf & _).
    + destruct (truthy_value url) as [u|] eqn:Hu;
        [destruct (truthy_value version) as [v|] eqn:Hv|];
        eexists _, _; (eapply yields_bind_ok; [exact Hd|]); rewrite Htv;
        (eapply yields_bind_ok; [exact Hf|]); simpl; rewrite Hu, ?Hv;
        apply yields_ret.
    + eexists _, _. eapply yields_bind_ok; [exact Hd|]. rewrite Htv.
      eapply yields_bind_raise. exact Hf.
  - eexists _, _. eapply yields_bind_ok; [exact Hd|]. rewrite Htv.
    eapply yields_bind_ok; [apply yields_emit | apply yields_ret].
Qed.

Lemma main_finish_yields open_write results :
  exists r t, yields (main_finish open_write results) r t.
Proof.
  unfold main_finish.
  destruct (list_sort OldMain.version_key key_lt results) as [sorted|e].
  - pose proof (save_results_yields open_write sorted) as Hs.
    eexists _, _.
    apply (yields_bind_ok _ _ sorted [] _ _ (yields_lift (Ok sorted)) Hs).
  - eexists _, _. eapply yields_bind_raise. apply yields_lift.
Qed.

Lemma extract_and_format_ips_yields open_read json_loads file_path :
  exists r t,
    yields (extract_and_format_ips open_read json_loads file_path) r t.
Proof.
  destruct (open_read file_path) as [file|e] eqn:Hopen.
  - destruct (yields_for_each_total (extract_line json_loads)
                (extract_line_total json_loads) (lines_of file) [])
      as (ips & t & H).
    eexists _, _. intros w.
    rewrite (extract_and_format_ips_read _ _ _ _ _ _ w Hopen H).
    instantiate (1 := OpenRead file_path :: t ++
      match read_error file with
      | Some e => if isinstance e FileNotFoundError
                  then [Print (FileNotFound file_path)] else []
      | None => []
      end).
    instantiate (1 :=
      match read_error file with
      | Some e => if isinstance e FileNotFoundError then Ok ips else Raise e
      | None => Ok ips
      end).
    destruct (read_error file) as [e|];
      [destruct (isinstance e FileNotFoundError)|];
      rewrite ?app_nil_r; reflexivity.
  - eexists _, _. intros w.
    rewrite (extract_and_format_ips_unopened _ json_loads _ _ w Hopen).
    instantiate (1 := OpenRead file_path ::
      if isinstance e FileNotFoundError
      then [Print (FileNotFound file_path)] else []).
    instantiate (1 :=
      if isinstance e FileNotFoundError then Ok [] else Raise e).
    destruct (isinstance e FileNotFoundError); reflexivity.
Qed.

Lemma without_sleeps_app (t t' : list event) :
  without_sleeps (t ++ t') = without_sleeps t ++ without_sleeps t'.
Proof. apply List.filter_app. Qed.

Lemma yields_same_but_sleeps {A} (m : io A) r t w1 w2 :
  yields m r t -> same_but_sleeps w1 w2 ->
  fst (m w1) = fst (m w2) /\ same_but_sleeps (snd (m w1)) (snd (m w2)).
Proof.
  intros Hm [Ht Hd]. rewrite (Hm w1), (Hm w2).
  split; [reflexivity|]. split; [|exact Hd].
  cbn [snd trace]. rewrite !without_sleeps_app, Ht. reflexivity.
Qed.

Lemma main_step_same_but_sleeps getfqdn requests_get u1 u2 results ip w1 w2 :
  paced u1 -> paced u2 -> same_but_sleeps w1 w2 ->
  fst (OldMain.main_step getfqdn requests_get u1 results ip w1) =
  fst (OldMain.main_step getfqdn requests_get u2 results ip w2) /\
  same_but_sleeps
    (snd (OldMain.main_step getfqdn requests_get u1 results ip w1))
    (snd (OldMain.main_step getfqdn requests_get u2 results ip w2)).
Proof.
  intros H1 H2 [Ht Hd].
  destruct (main_step_after_sleep_yields getfqdn requests_get results ip)
    as (r & t & Hy).
  rewrite !main_step_unfold. unfold call_random_uniform. io_unfold.
  destruct (H1 (drawn w1)) as [Hlo1 Hhi1], (H2 (drawn w2)) as [Hlo2 Hhi2].
  rewrite (sleep_paced _ _ Hlo1 Hhi1), (sleep_paced _ _ Hlo2 Hhi2).
  rewrite !(Hy _). split; [reflexivity|]. split.
  - cbn [snd trace]. rewrite !without_sleeps_app. cbn [trace].
    rewrite Ht. reflexivity.
  - cbn [snd drawn]. rewrite Hd. reflexivity.
Qed.

Lemma for_each_same_but_sleeps getfqdn requests_get u1 u2 ips :
  paced u1 -> paced u2 ->
  forall results w1 w2, same_but_sleeps w1 w2 ->
  fst (for_each (OldMain.main_step getfqdn requests_get u1) results ips w1) =
  fst (for_each (OldMain.main_step getfqdn requests_get u2) results ips w2) /\
  same_but_sleeps
    (snd (for_each (OldMain.main_step getfqdn requests_get u1) results ips w1))
    (snd (for_each (OldMain.main_step getfqdn requests_get u2) results ips w2)).
Proof.
  intros H1 H2. induction ips as [|ip ips IH]; intros results w1 w2 Hw.
  - simpl. split; [reflexivity | exact Hw].
  - simpl. io_unfold.
    destruct (main_step_same_but_sleeps getfqdn requests_get u1 u2
                results ip w1 w2 H1 H2 Hw) as [Hr Hs].
    destruct (OldMain.main_step getfqdn requests_get u1 results ip w1)
      as [r1 w1'].
    destruct (OldMain.main_step getfqdn requests_get u2 results ip w2)
      as [r2 w2'].
    simpl in Hr, Hs. subst r2.
    destruct r1 as [acc|e]; [apply IH, Hs|].
    simpl. split; [reflexivity | exact Hs].
Qed.

Lemma reports_without_sleeps (t : list event) :
  reports (without_sleeps t) = reports t.
Proof.
  induction t as [|ev t IH]; [reflexivity|].
  destruct ev; simpl; try (f_equal; exact IH); exact IH.
Qed.

(** C9 (pacing noninterference).  Two runs of old-main.py from the same
    world, with the same file, decoder, resolver and HTTP responses, whose
    delays are any draws of the interval from 2 to 6, end alike: same
    outcome, same events apart from the waits, and in particular the same
    report written. *)
Theorem pacing_noninterference
    (open_read : string -> result in_file)
    (json_loads : string -> result pyval)
    (getfqdn : string -> result string)
    (requests_get : string -> list (string * string) -> Z -> result response)
    (open_write : string -> result out_file)
    (u1 u2 : nat -> Z -> Z -> spec_float) (w : world) :
  paced u1 -> paced u2 ->
  let run1 := OldMain.main open_read json_loads getfqdn requests_get u1
                open_write w in
  let run2 := OldMain.main open_read json_loads getfqdn requests_get u2
                open_write w in
  fst run1 = fst run2 /\
  without_sleeps (trace (snd run1)) = without_sleeps (trace (snd run2)) /\
  reports (trace (snd run1)) = reports (trace (snd run2)).
Proof.
  intros H1 H2 run1 run2.
  assert (Hsim : fst run1 = fst run2 /\ same_but_sleeps (snd run1) (snd run2)).
  { subst run1 run2. rewrite !main_unfold. io_unfold.
    destruct (extract_and_format_ips_yields open_read json_loads "input.json")
      as (r0 & t0 & H0).
    rewrite (H0 w). destruct r0 as [ips|e];
      [|split; [reflexivity | split; reflexivity]].
    set (w0 := World (trace w ++ t0) (drawn w)).
    pose proof (for_each_same_but_sleeps getfqdn requests_get u1 u2 ips
                  H1 H2 [] w0 w0 (conj eq_refl eq_refl)) as [Hr Hs].
    revert Hr Hs.
    destruct (for_each (OldMain.main_step getfqdn requests_get u1) [] ips _)
      as [r1 w1].
    destruct (for_each (OldMain.main_step getfqdn requests_get u2) [] ips _)
      as [r2 w2].
    simpl. intros <- Hs.
    destruct r1 as [results|e]; [|split; [reflexivity | exact Hs]].
    destruct (main_finish_yields open_write results) as (r & t & Hy).
    apply (yields_same_but_sleeps _ _ _ _ _ Hy Hs). }
  destruct Hsim as [Hr [Ht _]]. split; [exact Hr|]. split; [exact Ht|].
  rewrite <- (reports_without_sleeps (trace (snd run1))), Ht.
  apply reports_without_sleeps.
Qed.

Lemma pacing_noninterference_witness :
  let run1 := OldMain.main (stub_open [line_a]) stub_loads stub_getfqdn
                stub_site stub_uniform stub_open_write (World [] 0) in
  let run2 := OldMain.main (stub_open [line_a]) stub_loads stub_getfqdn
                stub_site stub_uniform_slow stub_open_write (World [] 0) in
  fst run1 = fst run2 /\
  without_sleeps (trace (snd run1)) = without_sleeps (trace (snd run2)) /\
  reports (trace (snd run1)) = reports (trace (snd run2)).
Proof.
  apply (pacing_noninterference (stub_open [line_a]) stub_loads stub_getfqdn
           stub_site stub_open_write stub_uniform stub_uniform_slow
           (World [] 0)).
  - intros k. split; reflexivity.
  - intros k. split; reflexivity.
Defined.

(** The end-to-end scenario of the specification: the line
    [{"ip": 3232235777}], a resolver that answers [host.example.com] and a
    readme with the stable tag 4.2.1. *)
Example old_main_scenario :
  OldMain.main (stub_open [line_a]) stub_loads stub_getfqdn stub_site
    stub_uniform stub_open_write (World [] 0) =
  (Ok tt,
   World [OpenRead "input.json";
          Sleep float_three;
          Getfqdn "192.168.1.1";
          HttpGet (readme_url "host.example.com") HEADERS 5;
          OpenWrite "output.json";
          JsonDump "output.json"
            [result_record "host.example.com"
               (readme_url "host.example.com") "4.2.1"] 4;
          Print (SitesFound 1);
          Print ResultsSaved] 1).
Proof. vm_compute. reflexivity. Qed.

(** The basic program on two records and a malformed line. *)
Example main_scenario :
  Main.main (stub_open [line_a; line_bad; line_b]) stub_loads stub_getfqdn
    stub_open_write (World [] 0) =
  (Ok tt,
   World [OpenRead "input.json";
          Print (SkippingInvalidJSON line_bad);
          Print (PerformingReverseDNS "192.168.1.1");
          Getfqdn "192.168.1.1";
          Print (HostnameFound "host.example.com");
          Print (PerformingReverseDNS "1.2.3.4");
          Getfqdn "1.2.3.4";
          Print (HostnameFound "other.example.com");
          OpenWrite "output.json";
          JsonDump "output.json"
            [{["domain" := "host.example.com"]};
             {["domain" := "other.example.com"]}] 4;
          Print (SitesFound 2);
          Print ResultsSaved] 0).
Proof. vm_compute. reflexivity. Qed.

(** An absent input file: an empty report, and the run completes. *)
Example old_main_missing_file :
  OldMain.main (fun _ => Raise FileNotFoundError) stub_loads stub_getfqdn
    stub_site stub_uniform stub_open_write (World [] 0) =
  (Ok tt,
   World [OpenRead "input.json";
          Print (FileNotFound "input.json");
          OpenWrite "output.json";
          JsonDump "output.json" [] 4;
          Print (SitesFound 0);
          Print ResultsSaved] 0).
Proof. vm_compute. reflexivity. Qed.

(* ===================================================================== *)
(** * Further properties of the two programs *)
(* ===================================================================== *)

(** ** format_ip: the three outcomes *)

Lemma format_ip_some_inv (x : pyval) (s : string) :
  format_ip x = Ok (Some s) ->
  exists v, py_int x = Ok v /\ in_range v /\ s = dotted_fields v.
Proof.
  intros H. destruct (py_int x) as [v|e] eqn:Hx.
  - destruct (Z_le_dec 0 v) as [Hlo|Hlo];
      [destruct (Z_le_dec v 4294967295) as [Hhi|Hhi]|].
    + exists v. split; [reflexivity|]. split; [split; assumption|].
      rewrite (format_ip_fields x v Hx (conj Hlo Hhi)) in H.
      injection H as <-. reflexivity.
    + rewrite (format_ip_out_of_range x v Hx) in H by lia. discriminate.
    + rewrite (format_ip_out_of_range x v Hx) in H by lia. discriminate.
  - destruct (py_int_raises x e Hx) as [-> | [-> | ->]].
    + rewrite (format_ip_value_error x Hx) in H. discriminate.
    + rewrite (format_ip_uncaught x _ Hx eq_refl) in H. discriminate.
    + rewrite (format_ip_uncaught x _ Hx eq_refl) in H. discriminate.
Qed.

(** X1.  What [format_ip] does is decided by [int()] alone: a dotted string
    exactly for an integer of the range (the string of its four fields),
    [None] exactly on [ValueError] or on an integer outside the range, and
    an exception exactly when [int()] raises another one, which is then
    [TypeError] or [OverflowError]. *)
Theorem format_ip_outcomes (x : pyval) :
  (forall s, format_ip x = Ok (Some s) <->
             exists v, py_int x = Ok v /\ in_range v /\ s = dotted_fields v) /\
  (format_ip x = Ok None <->
     py_int x = Raise ValueError \/
     exists v, py_int x = Ok v /\ ~ in_range v) /\
  (forall e, format_ip x = Raise e <->
             py_int x = Raise e /\ (e = TypeError \/ e = OverflowError)).
Proof.
  split; [|split].
  - intros s. split; [apply format_ip_some_inv|].
    intros (v & Hx & Hv & ->). apply (format_ip_fields x v Hx Hv).
  - split.
    + intros H. destruct (py_int x) as [v|e] eqn:Hx.
      * right. exists v. split; [reflexivity|]. intros Hv.
        rewrite (format_ip_fields x v Hx Hv) in H. discriminate.
      * left. destruct (py_int_raises x e Hx) as [-> | [-> | ->]];
          [reflexivity | |];
          rewrite (format_ip_uncaught x _ Hx eq_refl) in H; discriminate.
    + intros [Hx | (v & Hx & Hv)];
        [apply format_ip_value_error, Hx
        | apply (format_ip_out_of_range x v Hx Hv)].
  - intros e. split.
    + intros H. pose proof (format_ip_raises x e H) as He. split; [|exact He].
      destruct (py_int x) as [v|e'] eqn:Hx.
      * destruct (Z_le_dec 0 v) as [Hlo|Hlo];
          [destruct (Z_le_dec v 4294967295) as [Hhi|Hhi]|].
        -- rewrite (format_ip_fields x v Hx (conj Hlo Hhi)) in H. discriminate.
        -- rewrite (format_ip_out_of_range x v Hx) in H by lia. discriminate.
        -- rewrite (format_ip_out_of_range x v Hx) in H by lia. discriminate.
      * destruct (py_int_raises x e' Hx) as [-> | [-> | ->]].
        -- rewrite (format_ip_value_error x Hx) in H. discriminate.
        -- rewrite (format_ip_uncaught x _ Hx eq_refl) in H. congruence.
        -- rewrite (format_ip_uncaught x _ Hx eq_refl) in H. congruence.
    + intros [Hx [-> | ->]]; apply (format_ip_uncaught x _ Hx eq_refl).
Qed.

(** ** format_ip on numeric strings *)

Lemma int_digits_uint (d : Decimal.uint) (acc : Z) :
  int_digits acc false (NilEmpty.string_of_uint d) = Some (uint_value acc d).
Proof.
  revert acc. induction d; intros acc; simpl; try reflexivity; apply IHd.
Qed.

Lemma uint_value_of_lu (d d' : Decimal.uint) :
  uint_value (Z.of_N (DecimalPos.Unsigned.of_lu d')) d
  = Z.of_N (DecimalPos.Unsigned.of_lu (Decimal.revapp d d')).
Proof.
  revert d'. induction d; intros d'; simpl; try reflexivity;
    rewrite <- IHd; f_equal; simpl DecimalPos.Unsigned.of_lu; lia.
Qed.

Lemma uint_value_to_uint (p : positive) :
  uint_value 0 (Pos.to_uint p) = Zpos p.
Proof.
  change 0 with (Z.of_N (DecimalPos.Unsigned.of_lu Decimal.Nil)).
  rewrite uint_value_of_lu.
  change (Decimal.revapp (Pos.to_uint p) Decimal.Nil)
    with (Decimal.rev (Pos.to_uint p)).
  rewrite <- DecimalPos.Unsigned.of_uint_alt, DecimalPos.Unsigned.of_to.
  reflexivity.
Qed.

Lemma uint_chars_decimal (d : Decimal.uint) :
  all_chars is_decimal (NilEmpty.string_of_uint d) = true.
Proof. induction d; simpl; try reflexivity; exact IHd. Qed.

Lemma int_unsigned_uint (d : Decimal.uint) :
  d <> Decimal.Nil ->
  int_signed (NilEmpty.string_of_uint d) = Some (uint_value 0 d).
Proof.
  destruct d; [contradiction | ..]; intros _;
    apply (int_digits_uint d).
Qed.

Lemma int_unsigned_uint' (d : Decimal.uint) :
  d <> Decimal.Nil ->
  int_unsigned (NilEmpty.string_of_uint d) = Some (uint_value 0 d).
Proof.
  destruct d; [contradiction | ..]; intros _;
    apply (int_digits_uint d).
Qed.

Lemma nilzero_to_uint (p : positive) :
  NilZero.string_of_uint (Pos.to_uint p)
  = NilEmpty.string_of_uint (Pos.to_uint p).
Proof.
  pose proof (DecimalPos.Unsigned.to_uint_nonnil p) as H.
  destruct (Pos.to_uint p); [contradiction | ..]; reflexivity.
Qed.

(** [int(str(n))] is [n]. *)
Lemma int_signed_str_of_int (n : Z) : int_signed (str_of_int n) = Some n.
Proof.
  destruct n as [|p|p]; [reflexivity | |].
  - unfold str_of_int. simpl. rewrite nilzero_to_uint.
    rewrite int_unsigned_uint by apply DecimalPos.Unsigned.to_uint_nonnil.
    rewrite uint_value_to_uint. reflexivity.
  - unfold str_of_int. simpl. rewrite nilzero_to_uint.
    change (int_signed (String "-" ?s)) with (option_map Z.opp (int_unsigned s)).
    rewrite int_unsigned_uint' by apply DecimalPos.Unsigned.to_uint_nonnil.
    rewrite uint_value_to_uint. reflexivity.
Qed.

Lemma str_of_int_chars (n : Z) : all_chars numeral_char (str_of_int n) = true.
Proof.
  assert (H : forall d, all_chars numeral_char (NilEmpty.string_of_uint d) = true).
  { intros d. apply (all_chars_impl is_decimal); [|apply uint_chars_decimal].
    intros a Ha. unfold numeral_char. rewrite Ha. reflexivity. }
  destruct n as [|p|p]; [reflexivity | |];
    unfold str_of_int; simpl; rewrite nilzero_to_uint; [apply H|].
  simpl. apply H.
Qed.

Lemma str_of_int_nonempty (n : Z) : exists a s, str_of_int n = String a s.
Proof.
  pose proof (int_signed_str_of_int n) as H.
  destruct (str_of_int n) as [|a s]; [discriminate | eauto].
Qed.

Lemma numeral_char_not_int_space (a : ascii) :
  numeral_char a = true -> is_int_space a = false.
Proof.
  destruct a as [[] [] [] [] [] [] [] []]; vm_compute; congruence.
Qed.

Lemma lstrip_pad (sp : ascii -> bool) (pad t : string) :
  all_chars sp pad = true -> lstrip sp (pad +:+ t) = lstrip sp t.
Proof.
  induction pad as [|a pad IH]; [reflexivity|].
  intros H. simpl in H. apply andb_prop in H as [Ha Hp].
  rewrite append_cons. simpl. rewrite Ha. apply IH, Hp.
Qed.

Lemma rstrip_all (sp : ascii -> bool) (pad : string) :
  all_chars sp pad = true -> rstrip sp pad = EmptyString.
Proof.
  induction pad as [|a pad IH]; [reflexivity|].
  intros H. simpl in H. apply andb_prop in H as [Ha Hp].
  simpl. rewrite (IH Hp), Ha. reflexivity.
Qed.

Lemma rstrip_pad (sp : ascii -> bool) (s pad : string) :
  all_chars sp pad = true -> rstrip sp (s +:+ pad) = rstrip sp s.
Proof.
  intros Hp. induction s as [|a s IH].
  - rewrite append_empty. apply rstrip_all, Hp.
  - rewrite append_cons. simpl. rewrite IH. reflexivity.
Qed.

Lemma count_digits_nonneg (s : string) : 0 <= count_digits s.
Proof.
  induction s as [|a s IH]; simpl; [lia|]. destruct (is_decimal a); lia.
Qed.

Lemma count_digits_uint (d : Decimal.uint) :
  count_digits (NilEmpty.string_of_uint d) =
  match d with
  | Decimal.Nil => 0
  | Decimal.D0 d' | Decimal.D1 d' | Decimal.D2 d' | Decimal.D3 d'
  | Decimal.D4 d' | Decimal.D5 d' | Decimal.D6 d' | Decimal.D7 d'
  | Decimal.D8 d' | Decimal.D9 d' =>
      1 + count_digits (NilEmpty.string_of_uint d')
  end.
Proof. destruct d; reflexivity. Qed.

(** A numeral of [k] digits read after [acc] is worth [acc * 10^k] at
    least. *)
Lemma uint_value_lower (d : Decimal.uint) :
  forall acc, 0 <= acc ->
  acc * 10 ^ count_digits (NilEmpty.string_of_uint d) <= uint_value acc d.
Proof.
  induction d; intros acc Hacc;
    try (rewrite count_digits_uint; cbn [uint_value];
         pose proof (count_digits_nonneg (NilEmpty.string_of_uint d)) as Hc;
         rewrite Z.pow_add_r, Z.pow_1_r by lia;
         match goal with
         | |- _ <= uint_value ?a _ =>
             specialize (IHd a ltac:(lia));
             pose proof (Z.pow_pos_nonneg 10
                           (count_digits (NilEmpty.string_of_uint d))
                           ltac:(lia) Hc);
             nia
         end).
  simpl. lia.
Qed.

Lemma nzhead_not_D0 (d d' : Decimal.uint) :
  Decimal.nzhead d <> Decimal.D0 d'.
Proof. induction d; simpl; try discriminate; exact IHd. Qed.

Lemma to_uint_unorm (p : positive) :
  Decimal.unorm (Pos.to_uint p) = Pos.to_uint p.
Proof.
  rewrite <- (DecimalPos.Unsigned.to_of (Pos.to_uint p)).
  rewrite DecimalPos.Unsigned.of_to. reflexivity.
Qed.

(** The decimal numeral of a positive number does not start with a zero. *)
Lemma to_uint_leading (p : positive) (d' : Decimal.uint) :
  Pos.to_uint p <> Decimal.D0 d'.
Proof.
  intros H. pose proof (to_uint_unorm p) as Hu. rewrite H in Hu.
  rewrite DecimalFacts.unorm_D0 in Hu. unfold Decimal.unorm in Hu.
  destruct (Decimal.nzhead d') eqn:Hn;
    try (apply (nzhead_not_D0 d' d'); rewrite Hn; exact Hu).
  - injection Hu as <-.
    apply (DecimalPos.Unsigned.to_uint_nonzero p). exact H.
Qed.

(** A number whose decimal rendering has more digits than [int()] reads is
    no IPv4 integer. *)
Lemma str_of_int_long (n : Z) :
  (count_digits (str_of_int n) <=? int_max_str_digits) = false ->
  ~ (0 <= n <= 4294967295).
Proof.
  intros H. apply Z.leb_gt in H. unfold int_max_str_digits in H.
  destruct n as [|p|p]; [vm_compute in H; discriminate | | lia].
  unfold str_of_int in H. simpl in H. rewrite nilzero_to_uint in H.
  pose proof (uint_value_to_uint p) as Hval.
  pose proof (to_uint_leading p) as Hlead.
  pose proof (DecimalPos.Unsigned.to_uint_nonnil p) as Hnil.
  assert (Hbig : 10 ^ 10 <= Zpos p).
  { rewrite <- Hval.
    destruct (Pos.to_uint p) as [|d'|d'|d'|d'|d'|d'|d'|d'|d'|d'];
      [contradiction | destruct (Hlead d' eq_refl) | ..];
      rewrite count_digits_uint in H; cbn [uint_value];
      match goal with
      | |- _ <= uint_value ?a _ =>
          pose proof (uint_value_lower d' a ltac:(lia)) as Hlow;
          pose proof (Z.pow_le_mono_r 10 10
                        (count_digits (NilEmpty.string_of_uint d'))
                        ltac:(lia) ltac:(lia)) as Hpow;
          nia
      end. }
  change (10 ^ 10) with 10000000000 in Hbig. lia.
Qed.

Lemma int_of_str_padded (n : Z) (pad1 pad2 : string) :
  all_chars is_int_space pad1 = true -> all_chars is_int_space pad2 = true ->
  int_of_str (pad1 +:+ str_of_int n +:+ pad2) =
  if count_digits (str_of_int n) <=? int_max_str_digits then Ok n
  else Raise ValueError.
Proof.
  intros H1 H2. unfold int_of_str.
  rewrite (lstrip_pad _ _ _ H1).
  assert (Hl : lstrip is_int_space (str_of_int n +:+ pad2)
               = str_of_int n +:+ pad2).
  { destruct (str_of_int_nonempty n) as (a & s & Hs).
    pose proof (str_of_int_chars n) as Hc. rewrite Hs in *.
    simpl in Hc. apply andb_prop in Hc as [Ha _].
    rewrite append_cons. simpl.
    rewrite (numeral_char_not_int_space a Ha). reflexivity. }
  rewrite Hl, (rstrip_pad _ _ _ H2).
  rewrite (rstrip_id is_int_space numeral_char)
    by (apply numeral_char_not_int_space || apply str_of_int_chars).
  cbv zeta. rewrite int_signed_str_of_int. reflexivity.
Qed.

Lemma format_ip_by_int (x y : pyval) :
  py_int x = py_int y -> format_ip x = format_ip y.
Proof. intros H. unfold format_ip. rewrite H. reflexivity. Qed.

(** X2.  A numeric string is formatted like the integer it writes: the
    decimal rendering of any integer, with any white space [int()] skips
    before and after it, gives the result of the integer itself. *)
Theorem format_ip_numeric_string (n : Z) (pad1 pad2 : string) :
  all_chars is_int_space pad1 = true -> all_chars is_int_space pad2 = true ->
  format_ip (PStr (pad1 +:+ str_of_int n +:+ pad2)) = format_ip (PInt n).
Proof.
  intros H1 H2.
  pose proof (int_of_str_padded n pad1 pad2 H1 H2) as Hint.
  destruct (count_digits (str_of_int n) <=? int_max_str_digits) eqn:Hlen.
  - apply format_ip_by_int. exact Hint.
  - rewrite (format_ip_value_error (PStr _) Hint).
    symmetry. apply (format_ip_out_of_range (PInt n) n eq_refl).
    apply str_of_int_long, Hlen.
Qed.

Lemma format_ip_numeric_string_witness :
  format_ip (PStr (" " +:+ str_of_int 3232235777 +:+ String "010" EmptyString))
  = format_ip (PInt 3232235777).
Proof.
  apply (format_ip_numeric_string 3232235777 " " (String "010" EmptyString));
    reflexivity.
Defined.

(** ** extract_and_format_ips: what it returns *)

Lemma dotted_fields_quad (v : Z) : is_dotted_quad (dotted_fields v).
Proof.
  assert (H : forall u, is_octet (u mod 256)).
  { intros u. unfold is_octet.
    pose proof (Z.mod_pos_bound u 256 ltac:(lia)). lia. }
  exists ((v / 2 ^ 24) mod 256), ((v / 2 ^ 16) mod 256),
    ((v / 2 ^ 8) mod 256), (v mod 256).
  repeat split; apply H.
Qed.

Ltac line_reports :=
  split; [left; reflexivity|];
  split; [repeat constructor; eexists; reflexivity|].

(** A line adds nothing or one dotted quadruple, whatever the list so far,
    and does nothing else than print. *)
Lemma extract_line_appends (json_loads : string -> result pyval)
    (line : string) :
  exists new t,
    (new = [] \/ exists s, new = [s] /\ is_dotted_quad s) /\
    Forall is_print t /\
    forall ips,
      yields (extract_line json_loads ips line) (Ok (ips ++ new)) t.
Proof.
  destruct (json_loads (strip line)) as [obj|e] eqn:H.
  2:{ destruct (isinstance e JSONDecodeError) eqn:He.
      - exists [], [Print (SkippingInvalidJSON (strip line))]. line_reports.
        intros ips w. unfold extract_line. io_simpl. rewrite H. simpl.
        rewrite He, app_nil_r. reflexivity.
      - exists [], [Print (AnErrorOccurred e)]. line_reports.
        intros ips w. unfold extract_line. io_simpl. rewrite H. simpl.
        rewrite He, isinstance_Exception, app_nil_r. reflexivity. }
  destruct (py_in "ip" obj) as [[|]|e] eqn:Hin.
  - destruct (py_getitem obj "ip") as [v|e] eqn:Hget.
    + destruct (format_ip v) as [[s|]|e] eqn:Hf.
      * destruct (format_ip_some_inv v s Hf) as (z & _ & _ & ->).
        exists [dotted_fields z], [].
        split; [right; eexists; split;
                  [reflexivity | apply dotted_fields_quad]|].
        split; [constructor|].
        intros ips. apply (extract_line_valid json_loads ips line obj v _
                             H Hin Hget Hf). apply dotted_nonempty.
      * exists [], [Print (InvalidIPValue v)]. line_reports.
        intros ips w. unfold extract_line. io_simpl.
        rewrite H, Hin, Hget, Hf, app_nil_r. reflexivity.
      * exists [], [Print (AnErrorOccurred e)]. line_reports.
        intros ips w. unfold extract_line. io_simpl.
        rewrite H, Hin, Hget, Hf. simpl. rewrite app_nil_r.
        destruct (format_ip_raises _ _ Hf) as [-> | ->]; reflexivity.
    + destruct (isinstance e JSONDecodeError) eqn:He.
      * exists [], [Print (SkippingInvalidJSON (strip line))]. line_reports.
        intros ips w. unfold extract_line. io_simpl.
        rewrite H, Hin, Hget. simpl. rewrite He, app_nil_r. reflexivity.
      * exists [], [Print (AnErrorOccurred e)]. line_reports.
        intros ips w. unfold extract_line. io_simpl.
        rewrite H, Hin, Hget. simpl.
        rewrite He, isinstance_Exception, app_nil_r. reflexivity.
  - exists [], []. split; [left; reflexivity|]. split; [constructor|].
    intros ips. rewrite app_nil_r.
    apply (extract_line_no_ip json_loads ips line obj H Hin).
  - destruct (isinstance e JSONDecodeError) eqn:He.
    + exists [], [Print (SkippingInvalidJSON (strip line))]. line_reports.
      intros ips w. unfold extract_line. io_simpl.
      rewrite H, Hin. simpl. rewrite He, app_nil_r. reflexivity.
    + exists [], [Print (AnErrorOccurred e)]. line_reports.
      intros ips w. unfold extract_line. io_simpl.
      rewrite H, Hin. simpl.
      rewrite He, isinstance_Exception, app_nil_r. reflexivity.
Qed.

Lemma extract_lines_append (json_loads : string -> result pyval)
    (lines : list string) :
  exists new t,
    Forall is_dotted_quad new /\ (length new <= length lines)%nat /\
    Forall is_print t /\
    forall acc,
      yields (for_each (extract_line json_loads) acc lines)
             (Ok (acc ++ new)) t.
Proof.
  induction lines as [|line lines (n2 & t2 & Q2 & L2 & P2 & Y2)].
  - exists [], []. repeat split; try constructor.
    intros acc. rewrite app_nil_r. apply yields_for_each_nil.
  - destruct (extract_line_appends json_loads line)
      as (n1 & t1 & Hn1 & P1 & Y1).
    exists (n1 ++ n2), (t1 ++ t2). split; [|split; [|split]].
    + apply Forall_app. split; [|exact Q2].
      destruct Hn1 as [-> | (s & -> & Hs)]; repeat constructor. exact Hs.
    + rewrite length_app. simpl.
      destruct Hn1 as [-> | (s & -> & Hs)]; simpl; lia.
    + apply Forall_app. split; assumption.
    + intros acc. rewrite app_assoc.
      apply (yields_for_each_cons _ _ _ _ _ _ _ _ (Y1 acc) (Y2 (acc ++ n1))).
Qed.

(** X3.  On a file that opens, [extract_and_format_ips] returns normally
    unless the reading is broken off by an exception other than
    [FileNotFoundError], which then leaves the function.  Every string
    gathered is a dotted quadruple of octets, there are at most as many as
    lines read, and apart from opening the file the function only prints. *)
Theorem extract_addresses_well_formed
    (open_read : string -> result in_file)
    (json_loads : string -> result pyval)
    (file_path : string) (file : in_file) (w : world) :
  open_read file_path = Ok file ->
  exists ips t,
    Forall is_dotted_quad ips /\
    (length ips <= length (lines_of file))%nat /\
    Forall is_print t /\
    extract_and_format_ips open_read json_loads file_path w =
      (match read_error file with
       | Some e => if isinstance e FileNotFoundError then Ok ips else Raise e
       | None => Ok ips
       end,
       World (trace w ++ OpenRead file_path :: t) (drawn w)).
Proof.
  intros Hopen.
  destruct (extract_lines_append json_loads (lines_of file))
    as (ips & t & Q & L & P & Y).
  pose proof (extract_and_format_ips_read _ _ _ _ _ _ w Hopen (Y [])) as Hrun.
  simpl in Hrun.
  destruct (read_error file) as [e|];
    [destruct (isinstance e FileNotFoundError)|].
  - exists ips, (t ++ [Print (FileNotFound file_path)]).
    repeat split; try assumption.
    apply Forall_app. split; [exact P|].
    repeat constructor. eexists; reflexivity.
  - exists ips, t. auto.
  - exists ips, t. auto.
Qed.

Lemma extract_addresses_well_formed_witness :
  exists ips t,
    Forall is_dotted_quad ips /\
    (length ips <= length [line_a; line_bad; line_b])%nat /\
    Forall is_print t /\
    extract_and_format_ips (stub_open [line_a; line_bad; line_b]) stub_loads
      "input.json" (World [] 0) =
      (Ok ips,
       World (trace (World [] 0) ++ OpenRead "input.json" :: t)
             (drawn (World [] 0))).
Proof.
  apply (extract_addresses_well_formed (stub_open [line_a; line_bad; line_b])
           stub_loads "input.json" (InFile [line_a; line_bad; line_b] None)
           (World [] 0)).
  reflexivity.
Defined.

(** X4.  The addresses of a file are those of its first part followed by
    those of the rest: the lines are handled one by one, in order, and none
    changes what another gives.  The reports follow the same order. *)
Theorem extract_concat (json_loads : string -> result pyval)
    (lines1 lines2 : list string) (w : world) :
  exists ips1 ips2 t1 t2,
    for_each (extract_line json_loads) [] lines1 w =
      (Ok ips1, World (trace w ++ t1) (drawn w)) /\
    for_each (extract_line json_loads) [] lines2 w =
      (Ok ips2, World (trace w ++ t2) (drawn w)) /\
    for_each (extract_line json_loads) [] (lines1 ++ lines2) w =
      (Ok (ips1 ++ ips2), World (trace w ++ t1 ++ t2) (drawn w)).
Proof.
  destruct (extract_lines_append json_loads lines1) as (n1 & t1 & _ & _ & _ & Y1).
  destruct (extract_lines_append json_loads lines2) as (n2 & t2 & _ & _ & _ & Y2).
  exists n1, n2, t1, t2. split; [apply (Y1 [])|]. split; [apply (Y2 [])|].
  apply (yields_for_each_app _ _ _ _ _ _ _ _ (Y1 []) (Y2 n1)).
Qed.

(** ** main.py: the report *)

Lemma reports_app (t t' : list event) :
  reports (t ++ t') = reports t ++ reports t'.
Proof. unfold reports. apply omap_app. Qed.

Lemma reports_prints (t : list event) : Forall is_print t -> reports t = [].
Proof.
  induction 1 as [|ev t [m ->] _ IH]; [reflexivity|]. simpl. exact IH.
Qed.

Lemma pacing_log_app (t t' : list event) :
  pacing_log (t ++ t') = pacing_log t ++ pacing_log t'.
Proof. apply List.filter_app. Qed.

Lemma requests_app (t t' : list event) :
  requests (t ++ t') = requests t ++ requests t'.
Proof. apply List.filter_app. Qed.

Lemma prints_quiet (t : list event) :
  Forall is_print t -> pacing_log t = [] /\ requests t = [].
Proof.
  induction 1 as [|ev t [m ->] _ [IH1 IH2]]; [split; reflexivity|].
  split; simpl; assumption.
Qed.

Lemma reverse_dns_lookup_main_yields
    (getfqdn : string -> result string) (ip : string) :
  exists m,
    yields (Main.reverse_dns_lookup getfqdn ip)
      (Ok match getfqdn ip with
          | Ok h => if String.eqb h ip then None else Some h
          | Raise _ => None
          end)
      [Print (PerformingReverseDNS ip); Getfqdn ip; Print m].
Proof.
  destruct (getfqdn ip) as [h|e] eqn:Hq.
  - destruct (String.eqb h ip) eqn:Heq.
    + exists NoHostnameFound. intros w.
      unfold Main.reverse_dns_lookup, call_getfqdn. io_simpl.
      rewrite Hq. simpl. rewrite Heq. io_done.
    + exists (HostnameFound h). intros w.
      unfold Main.reverse_dns_lookup, call_getfqdn. io_simpl.
      rewrite Hq. simpl. rewrite Heq. io_done.
  - destruct (isinstance e herror) eqn:He.
    + exists (NoDomainNameFound ip). intros w.
      unfold Main.reverse_dns_lookup, call_getfqdn. io_simpl.
      rewrite Hq. simpl. rewrite He. io_done.
    + exists (ErrorDuringLookup ip e). intros w.
      unfold Main.reverse_dns_lookup, call_getfqdn. io_simpl.
      rewrite Hq. simpl. rewrite He, isinstance_Exception. io_done.
Qed.

Lemma main_step_basic (getfqdn : string -> result string) (ip : string) :
  exists t,
    reports t = [] /\ pacing_log t = [Getfqdn ip] /\ requests t = [] /\
    forall results,
      yields (Main.main_step getfqdn results ip)
        (Ok (results ++ match resolved_domain getfqdn ip with
                        | Some d => [domain_record d]
                        | None => []
                        end)) t.
Proof.
  destruct (reverse_dns_lookup_main_yields getfqdn ip) as (m & Hy).
  unfold resolved_domain.
  assert (Hnone : forall r,
    truthy_value r = None ->
    yields (Main.reverse_dns_lookup getfqdn ip) (Ok r)
      [Print (PerformingReverseDNS ip); Getfqdn ip; Print m] ->
    forall results,
      yields (Main.main_step getfqdn results ip) (Ok (results ++ []))
        ([Print (PerformingReverseDNS ip); Getfqdn ip; Print m]
           ++ [Print (NoDomainFoundForIP ip)])).
  { intros r Hr Hy' results. unfold Main.main_step.
    eapply yields_bind_ok; [exact Hy'|]. rewrite Hr.
    rewrite app_nil_r.
    apply (yields_bind_ok _ _ tt [Print (NoDomainFoundForIP ip)] _ []
             (yields_emit _) (yields_ret results)). }
  destruct (getfqdn ip) as [h|e].
  - destruct (String.eqb h ip).
    + eexists. repeat split; [| | |apply (Hnone None eq_refl Hy)];
        reflexivity.
    + destruct (truthy_value (Some h)) as [d|] eqn:Ht.
      * exists ([Print (PerformingReverseDNS ip); Getfqdn ip; Print m] ++ []).
        repeat split. intros results. unfold Main.main_step.
        eapply yields_bind_ok; [exact Hy|]. rewrite Ht. apply yields_ret.
      * eexists. repeat split; [| | |apply (Hnone (Some h) Ht Hy)];
          reflexivity.
  - eexists. repeat split; [| | |apply (Hnone None eq_refl Hy)]; reflexivity.
Qed.

Lemma main_loop_basic (getfqdn : string -> result string)
    (ips : list string) :
  exists t,
    reports t = [] /\ pacing_log t = map Getfqdn ips /\ requests t = [] /\
    forall results,
      yields (for_each (Main.main_step getfqdn) results ips)
        (Ok (results ++ basic_report getfqdn ips)) t.
Proof.
  induction ips as [|ip ips (t2 & R2 & L2 & Q2 & Y2)].
  - exists []. repeat split. intros results.
    rewrite app_nil_r. apply yields_for_each_nil.
  - destruct (main_step_basic getfqdn ip) as (t1 & R1 & L1 & Q1 & Y1).
    exists (t1 ++ t2).
    split; [rewrite reports_app, R1, R2; reflexivity|].
    split; [rewrite pacing_log_app, L1, L2; reflexivity|].
    split; [rewrite requests_app, Q1, Q2; reflexivity|].
    intros results.
    eapply yields_for_each_cons; [apply Y1|].
    replace (results ++ basic_report getfqdn (ip :: ips))
      with ((results ++ match resolved_domain getfqdn ip with
                        | Some d => [domain_record d]
                        | None => []
                        end) ++ basic_report getfqdn ips); [apply Y2|].
    rewrite <- app_assoc. f_equal. unfold basic_report. simpl.
    destruct (resolved_domain getfqdn ip); reflexivity.
Qed.

Lemma basic_report_records (getfqdn : string -> result string)
    (ips : list string) :
  Forall (fun r => exists ip d,
            In ip ips /\ getfqdn ip = Ok d /\ d <> ip /\ d <> EmptyString /\
            r = domain_record d /\ dom r = ({["domain"]} : gset string))
         (basic_report getfqdn ips).
Proof.
  induction ips as [|ip ips IH]; [constructor|].
  assert (IH' : Forall (fun r => exists ip' d,
            In ip' (ip :: ips) /\ getfqdn ip' = Ok d /\ d <> ip' /\
            d <> EmptyString /\
            r = domain_record d /\ dom r = ({["domain"]} : gset string))
         (basic_report getfqdn ips)).
  { eapply List.Forall_impl; [|exact IH].
    intros r (ip' & d & Hin & H). exists ip', d. split; [right; exact Hin|].
    exact H. }
  unfold basic_report in *. simpl.
  destruct (resolved_domain getfqdn ip) as [d|] eqn:Hr; simpl; [|exact IH'].
  constructor; [|exact IH'].
  unfold resolved_domain in Hr.
  destruct (getfqdn ip) as [h|e] eqn:Hq; [|discriminate].
  destruct (String.eqb_spec h ip) as [|Hne]; [discriminate|].
  apply truthy_value_some in Hr as [[= ->] Hd].
  exists ip, d. split; [left; reflexivity|]. split; [exact Hq|].
  split; [exact Hne|]. split; [exact Hd|]. split; [reflexivity|].
  unfold domain_record. apply dom_singleton_L.
Qed.

(** X5.  When the input file is read to its end and the output file can be
    opened, written and closed, main.py completes.  It looks up each
    extracted address once, in order, and makes no HTTP request and no
    pause.  It writes one report, at the end: for the addresses, in their
    order, one record [{"domain": d}] for each address whose lookup gave a
    non-empty name [d] other than the address; the count printed is the
    number of records. *)
Theorem main_basic_report
    (open_read : string -> result in_file)
    (json_loads : string -> result pyval)
    (getfqdn : string -> result string)
    (open_write : string -> result out_file)
    (lines : list string) (w : world) :
  open_read "input.json" = Ok (InFile lines None) ->
  open_write "output.json" = Ok (OutFile None None) ->
  exists ips t,
    fst (extract_and_format_ips open_read json_loads "input.json" w)
      = Ok ips /\
    reports t = [] /\ pacing_log t = map Getfqdn ips /\ requests t = [] /\
    Main.main open_read json_loads getfqdn open_write w =
      (Ok tt,
       World (trace w ++ t ++
                [JsonDump "output.json" (basic_report getfqdn ips) 4;
                 Print (SitesFound (length (basic_report getfqdn ips)));
                 Print ResultsSaved])
             (drawn w)) /\
    Forall (fun r => exists ip d,
              In ip ips /\ getfqdn ip = Ok d /\ d <> ip /\
              d <> EmptyString /\
              r = domain_record d /\ dom r = ({["domain"]} : gset string))
           (basic_report getfqdn ips).
Proof.
  intros Hopen Hwrite.
  destruct (extract_lines_append json_loads lines) as (ips & t0 & _ & _ & P0 & Y0).
  pose proof (yields_extract_and_format_ips _ _ _ _ _ _ Hopen (Y0 [])) as Hx.
  destruct (main_loop_basic getfqdn ips) as (t1 & R1 & L1 & Q1 & Y1).
  destruct (prints_quiet t0 P0) as [L0 Q0].
  pose proof (save_results_yields open_write (basic_report getfqdn ips))
    as Hsave.
  rewrite Hwrite in Hsave. simpl in Hsave.
  exists ips, (OpenRead "input.json" :: t0 ++ t1 ++ [OpenWrite "output.json"]).
  split; [rewrite (Hx w); reflexivity|].
  split; [simpl; rewrite !reports_app, R1, (reports_prints t0 P0);
          reflexivity|].
  split; [change (pacing_log (OpenRead "input.json" :: ?l))
            with (pacing_log l);
          rewrite !pacing_log_app, L0, L1; simpl; apply app_nil_r|].
  split; [change (requests (OpenRead "input.json" :: ?l))
            with (requests l);
          rewrite !requests_app, Q0, Q1; reflexivity|].
  split; [|apply basic_report_records].
  assert (Hmain : yields (Main.main open_read json_loads getfqdn open_write)
            (Ok tt)
            ((OpenRead "input.json" :: t0) ++ t1 ++
             [OpenWrite "output.json";
              JsonDump "output.json" (basic_report getfqdn ips) 4;
              Print (SitesFound (length (basic_report getfqdn ips)));
              Print ResultsSaved])).
  { rewrite main_basic_unfold.
    eapply yields_bind_ok; [exact Hx|].
    eapply yields_bind_ok; [apply (Y1 [])|]. exact Hsave. }
  rewrite (Hmain w). simpl. rewrite <- !app_assoc. reflexivity.
Qed.

Lemma main_basic_report_witness :
  exists ips t,
    fst (extract_and_format_ips (stub_open [line_a; line_bad; line_b])
           stub_loads "input.json" (World [] 0)) = Ok ips /\
    reports t = [] /\ pacing_log t = map Getfqdn ips /\ requests t = [] /\
    Main.main (stub_open [line_a; line_bad; line_b]) stub_loads stub_getfqdn
      stub_open_write (World [] 0) =
      (Ok tt,
       World (trace (World [] 0) ++ t ++
                [JsonDump "output.json" (basic_report stub_getfqdn ips) 4;
                 Print (SitesFound (length (basic_report stub_getfqdn ips)));
                 Print ResultsSaved])
             (drawn (World [] 0))) /\
    Forall (fun r => exists ip d,
              In ip ips /\ stub_getfqdn ip = Ok d /\ d <> ip /\
              d <> EmptyString /\
              r = domain_record d /\ dom r = ({["domain"]} : gset string))
           (basic_report stub_getfqdn ips).
Proof.
  apply (main_basic_report (stub_open [line_a; line_bad; line_b]) stub_loads
           stub_getfqdn stub_open_write [line_a; line_bad; line_b]
           (World [] 0)); reflexivity.
Defined.

(** ** Both programs: no input, and an input that cannot be opened *)



(** X7.  [extract_and_format_ips] handles [FileNotFoundError] only.  When
    opening the input fails with another exception (a permission error, say),
    the exception leaves both programs right after the attempt: nothing is
    looked up and no report is written. *)
Theorem open_error_escapes
    (open_read : string -> result in_file)
    (json_loads : string -> result pyval)
    (getfqdn : string -> result string)
    (requests_get : string -> list (string * string) -> Z -> result response)
    (random_uniform : nat -> Z -> Z -> spec_float)
    (open_write : string -> result out_file) (e : exn) (w : world) :
  open_read "input.json" = Raise e ->
  isinstance e FileNotFoundError = false ->
  extract_and_format_ips open_read json_loads "input.json" w =
    (Raise e, World (trace w ++ [OpenRead "input.json"]) (drawn w)) /\
  Main.main open_read json_loads getfqdn open_write w =
    (Raise e, World (trace w ++ [OpenRead "input.json"]) (drawn w)) /\
  OldMain.main open_read json_loads getfqdn requests_get random_uniform
    open_write w =
    (Raise e, World (trace w ++ [OpenRead "input.json"]) (drawn w)).
Proof.
  intros Hopen He.
  pose proof (extract_and_format_ips_unopened _ json_loads _ _ w Hopen) as Hx.
  rewrite He in Hx. split; [exact Hx|]. split.
  - rewrite main_basic_unfold. unfold mbind, io_bind, bind. rewrite Hx.
    reflexivity.
  - rewrite main_unfold. unfold mbind, io_bind, bind. rewrite Hx.
    reflexivity.
Qed.

Lemma open_error_escapes_witness :
  extract_and_format_ips (fun _ => Raise PermissionError) stub_loads
    "input.json" (World [] 0) =
    (Raise PermissionError,
     World (trace (World [] 0) ++ [OpenRead "input.json"])
           (drawn (World [] 0))) /\
  Main.main (fun _ => Raise PermissionError) stub_loads stub_getfqdn
    stub_open_write (World [] 0) =
    (Raise PermissionError,
     World (trace (World [] 0) ++ [OpenRead "input.json"])
           (drawn (World [] 0))) /\
  OldMain.main (fun _ => Raise PermissionError) stub_loads stub_getfqdn
    stub_site stub_uniform stub_open_write (World [] 0) =
    (Raise PermissionError,
     World (trace (World [] 0) ++ [OpenRead "input.json"])
           (drawn (World [] 0))).
Proof.
  apply (open_error_escapes (fun _ => Raise PermissionError) stub_loads
           stub_getfqdn stub_site stub_uniform stub_open_write
           PermissionError (World [] 0));
    reflexivity.
Defined.

(** ** version_key on the versions the probe returns *)

Lemma split_parts_decimal (v : string) :
  all_chars version_char v = true ->
  Forall (fun p => all_chars is_decimal p = true) (split "." v).
Proof.
  induction v as [|a v IH]; intros H.
  - repeat constructor.
  - simpl in H. apply andb_prop in H as [Ha Hv]. specialize (IH Hv).
    simpl. destruct (Ascii.eqb a ".") eqn:Hdot.
    + constructor; [reflexivity | exact IH].
    + destruct (split "." v) as [|p ps]; [repeat constructor|].
      * simpl. unfold version_char in Ha. rewrite Hdot, orb_false_r in Ha.
        rewrite Ha. reflexivity.
      * inversion IH as [|? ? Hp Hps]; subst. constructor; [|exact Hps].
        simpl. unfold version_char in Ha. rewrite Hdot, orb_false_r in Ha.
        rewrite Ha. exact Hp.
Qed.

Lemma decimal_value_bounds (a : ascii) (d : Z) :
  decimal_value a = Some d -> 0 <= d <= 9.
Proof.
  unfold decimal_value.
  destruct ((48 <=? code a) && (code a <=? 57)) eqn:H; [|discriminate].
  intros [= <-]. apply andb_prop in H as [H1 H2].
  apply Z.leb_le in H1, H2. lia.
Qed.

Lemma digits_value_nonneg (s : string) :
  all_chars is_decimal s = true ->
  forall acc, 0 <= acc -> 0 <= digits_value acc s.
Proof.
  induction s as [|a s IH]; simpl; intros H acc Hacc; [exact Hacc|].
  apply andb_prop in H as [Ha Hs]. apply (IH Hs).
  pose proof (decimal_value_bounds a _ (decimal_value_code a Ha)). lia.
Qed.

(** What [version_key] makes of a part of a probe version: the empty string
    stays, a run of digits becomes its number unless it is longer than
    [int()] reads. *)
Lemma probe_key_part (p : string) :
  all_chars is_decimal p = true ->
  (if isdigit p then n ← int_of_str p; Ok (KInt n) else Ok (KStr p)) =
  match p with
  | EmptyString => Ok (KStr EmptyString)
  | _ => if count_digits p <=? int_max_str_digits
         then Ok (KInt (digits_value 0 p)) else Raise ValueError
  end.
Proof.
  destruct p as [|a p]; [reflexivity|]. intros H.
  assert (Hp : plain_part (String a p) = true) by exact H.
  rewrite (plain_is_digit _ Hp), (int_of_str_plain _ Hp).
  destruct (count_digits (String a p) <=? int_max_str_digits); reflexivity.
Qed.

Lemma version_key_probe_parts (parts : list string) :
  Forall (fun p => all_chars is_decimal p = true) parts ->
  if forallb (fun p => count_digits p <=? int_max_str_digits) parts
  then
    exists key,
      mapM (fun part : string =>
              if isdigit part then n ← int_of_str part; Ok (KInt n)
              else Ok (KStr part)) parts
      = Ok key /\
      length key = length parts /\
      Forall (fun k => k = KStr EmptyString \/ exists n, 0 <= n /\ k = KInt n)
             key
  else
    mapM (fun part : string =>
            if isdigit part then n ← int_of_str part; Ok (KInt n)
            else Ok (KStr part)) parts
    = Raise ValueError.
Proof.
  induction 1 as [|p parts Hp _ IH].
  - exists []. repeat split. constructor.
  - rewrite mapM_cons_result, (probe_key_part p Hp). cbn [forallb].
    destruct p as [|a p].
    + change (count_digits EmptyString <=? int_max_str_digits) with true.
      cbn [andb].
      destruct (forallb _ parts).
      * destruct IH as (key & -> & Hlen & Hall).
        exists (KStr EmptyString :: key).
        split; [reflexivity|]. split; [simpl; f_equal; exact Hlen|].
        constructor; [left; reflexivity | exact Hall].
      * rewrite IH. reflexivity.
    + destruct (count_digits (String a p) <=? int_max_str_digits);
        [|reflexivity].
      cbn [andb]. destruct (forallb _ parts).
      * destruct IH as (key & -> & Hlen & Hall).
        exists (KInt (digits_value 0 (String a p)) :: key).
        split; [reflexivity|]. split; [simpl; f_equal; exact Hlen|].
        constructor; [|exact Hall]. right. eexists. split; [|reflexivity].
        apply (digits_value_nonneg _ Hp). lia.
      * rewrite IH. reflexivity.
Qed.

Lemma version_key_probe (item : gmap string string) (version : string) :
  item !! "version" = Some version ->
  all_chars version_char version = true ->
  if within_limit version
  then
    exists key,
      OldMain.version_key item = Ok key /\
      length key = length (split "." version) /\
      Forall (fun k => k = KStr EmptyString \/ exists n, 0 <= n /\ k = KInt n)
             key
  else OldMain.version_key item = Raise ValueError.
Proof.
  intros Hv Hchars. unfold OldMain.version_key, within_limit. rewrite Hv.
  simpl. apply version_key_probe_parts, split_parts_decimal, Hchars.
Qed.

(** X8.  On a version the probe returns (a string of digits and dots)
    [version_key] fails in one case only: a component of more than 4300
    digits, which [int()] refuses with [ValueError].  Otherwise the key has
    one component for each part between the dots, a non-negative int for a
    run of digits and the empty string for an empty part. *)
Theorem version_key_on_probe_versions
    (item : gmap string string) (version : string) :
  item !! "version" = Some version ->
  all_chars version_char version = true ->
  if within_limit version
  then
    exists key,
      OldMain.version_key item = Ok key /\
      length key = length (split "." version) /\
      Forall (fun k => k = KStr EmptyString \/ exists n, 0 <= n /\ k = KInt n)
             key
  else OldMain.version_key item = Raise ValueError.
Proof. exact (version_key_probe item version). Qed.

Lemma version_key_on_probe_versions_witness :
  exists key,
    OldMain.version_key (versioned "4.2.") = Ok key /\
    length key = length (split "." "4.2.") /\
    Forall (fun k => k = KStr EmptyString \/ exists n, 0 <= n /\ k = KInt n)
           key.
Proof.
  apply (version_key_on_probe_versions (versioned "4.2.") "4.2.");
    reflexivity.
Defined.

(** A component of 4301 digits. *)
Example version_key_long_component :
  all_chars version_char long_version = true /\
  OldMain.version_key (versioned long_version) = Raise ValueError /\
  list_sort OldMain.version_key key_lt
    [versioned "4.2.1"; versioned long_version] = Raise ValueError.
Proof. repeat split; vm_compute; reflexivity. Qed.

(** ** The sort: how it can end *)

Lemma key_lt_raises (a b : list key_part) (e : exn) :
  key_lt a b = Raise e -> e = TypeError.
Proof.
  revert b. induction a as [|x a IH]; intros [|y b]; simpl;
    try discriminate.
  destruct (part_eqb x y); [apply IH|].
  destruct x, y; simpl; try discriminate; intros [= <-]; reflexivity.
Qed.

Section SortOutcome.
Context {A K : Type}.
Variable lt : K -> K -> result bool.
Variable only : exn.
Hypothesis lt_raises : forall a b e, lt a b = Raise e -> e = only.

Lemma insert_sorted_outcome (p : K * A) (l : list (K * A)) :
  match insert_sorted lt p l with
  | Ok r => Permutation (p :: l) r
  | Raise e => e = only
  end.
Proof.
  induction l as [|q l IH]; simpl; [reflexivity|].
  destruct (lt (fst p) (fst q)) as [[|]|e] eqn:Hlt; simpl.
  - reflexivity.
  - destruct (insert_sorted lt p l) as [r|e]; simpl; [|exact IH].
    rewrite perm_swap. apply perm_skip, IH.
  - apply (lt_raises _ _ _ Hlt).
Qed.

Lemma insert_all_outcome (todo sorted : list (K * A)) :
  match insert_all lt sorted todo with
  | Ok r => Permutation (sorted ++ todo) r
  | Raise e => e = only
  end.
Proof.
  revert sorted. induction todo as [|p todo IH]; intros sorted; simpl.
  - rewrite app_nil_r. reflexivity.
  - pose proof (insert_sorted_outcome p sorted) as Hp.
    destruct (insert_sorted lt p sorted) as [s|e]; simpl; [|exact Hp].
    specialize (IH s). destruct (insert_all lt s todo) as [r|e]; [|exact IH].
    rewrite <- IH. change (p :: todo) with ([p] ++ todo).
    rewrite app_assoc. apply Permutation_app_tail.
    rewrite <- Hp. symmetry. apply Permutation_cons_append.
Qed.
End SortOutcome.

(** The keys of the records the loop builds: all are computed when every
    version is within the limit; otherwise [ValueError] leaves the sort
    before any comparison. *)
Lemma decorate_extended (results : list (gmap string string)) :
  Forall extended_record results ->
  if forallb limited results
  then exists d, decorate OldMain.version_key results = Ok d /\
                 map snd d = results
  else decorate OldMain.version_key results = Raise ValueError.
Proof.
  induction 1 as [|r results Hr _ IH]; [exists []; split; reflexivity|].
  destruct Hr as (_ & domain & version & _ & _ & Hv & _ & Hchars).
  pose proof (version_key_probe r version Hv Hchars) as Hkey.
  cbn [forallb decorate]. unfold limited at 1. rewrite Hv.
  destruct (within_limit version).
  - destruct Hkey as (k & -> & _). cbn [andb].
    destruct (forallb limited results).
    + destruct IH as (d & -> & Hsnd). exists ((k, r) :: d).
      split; [reflexivity | simpl; f_equal; exact Hsnd].
    + rewrite IH. reflexivity.
  - rewrite Hkey. reflexivity.
Qed.

Lemma list_sort_extended (results : list (gmap string string)) :
  Forall extended_record results ->
  if forallb limited results
  then match list_sort OldMain.version_key key_lt results with
       | Ok sorted => Permutation results sorted
       | Raise e => e = TypeError
       end
  else list_sort OldMain.version_key key_lt results = Raise ValueError.
Proof.
  intros H. pose proof (decorate_extended results H) as Hd.
  unfold list_sort. destruct (forallb limited results).
  - destruct Hd as (d & -> & Hsnd). simpl.
    pose proof (insert_all_outcome key_lt TypeError key_lt_raises d []) as Ho.
    destruct (insert_all key_lt [] d) as [s|e]; simpl; [|exact Ho].
    rewrite <- Hsnd. apply Permutation_map. exact Ho.
  - rewrite Hd. reflexivity.
Qed.

Lemma list_sort_extended_ok (results sorted : list (gmap string string)) :
  Forall extended_record results ->
  list_sort OldMain.version_key key_lt results = Ok sorted ->
  Permutation results sorted /\ Forall extended_record sorted.
Proof.
  intros H Hs. pose proof (list_sort_extended results H) as Ho.
  rewrite Hs in Ho.
  destruct (forallb limited results); [|discriminate].
  split; [exact Ho|].
  apply List.Forall_forall. intros r Hr.
  apply (proj1 (List.Forall_forall _ _) H).
  apply (Permutation_in _ (Permutation_sym Ho) Hr).
Qed.

(** X9.  On the records the loop of old-main.py builds, the sort can end in
    three ways only.  When some version has a component of more than 4300
    digits it ends with [ValueError].  Otherwise it ends with a
    rearrangement of its input, nothing lost and nothing added, or with
    [TypeError].  It never fails on a missing key. *)
Theorem sort_of_extended_records (results : list (gmap string string)) :
  Forall extended_record results ->
  if forallb limited results
  then
    (exists sorted,
       list_sort OldMain.version_key key_lt results = Ok sorted /\
       Permutation results sorted /\ Forall extended_record sorted) \/
    list_sort OldMain.version_key key_lt results = Raise TypeError
  else list_sort OldMain.version_key key_lt results = Raise ValueError.
Proof.
  intros H. pose proof (list_sort_extended results H) as Ho.
  pose proof (list_sort_extended_ok results) as Hok.
  destruct (forallb limited results); [|exact Ho].
  destruct (list_sort OldMain.version_key key_lt results) as [sorted|e].
  - left. exists sorted. split; [reflexivity|]. apply (Hok sorted H eq_refl).
  - right. rewrite Ho. reflexivity.
Qed.

Lemma sort_of_extended_records_witness :
  (exists sorted,
     list_sort OldMain.version_key key_lt [versioned "4.2.1"; versioned "4.2."]
       = Ok sorted /\
     Permutation [versioned "4.2.1"; versioned "4.2."] sorted /\
     Forall extended_record sorted) \/
  list_sort OldMain.version_key key_lt [versioned "4.2.1"; versioned "4.2."]
    = Raise TypeError.
Proof.
  apply (sort_of_extended_records [versioned "4.2.1"; versioned "4.2."]).
  repeat constructor; apply extended_result_record;
    (discriminate || reflexivity).
Defined.

(** ** old-main.py: pauses, lookups and the report *)

Lemma main_step_after_sleep_shape getfqdn requests_get results ip :
  exists r t,
    yields (main_step_after_sleep getfqdn requests_get results ip) r t /\
    pacing_log t = [Getfqdn ip] /\ reports t = [] /\
    (length (requests t) <= 1)%nat.
Proof.
  unfold main_step_after_sleep.
  destruct (reverse_dns_lookup_old_yields getfqdn ip) as (d & t0 & Hd & P0).
  destruct (prints_quiet t0 P0) as [L0 Q0].
  pose proof (reports_prints t0 P0) as R0.
  destruct (truthy_value d) as [domain|] eqn:Htv.
  - destruct (fetch_readme_content_yields requests_get domain)
      as (f & t1 & Hf & P1 & _).
    destruct (prints_quiet t1 P1) as [L1 Q1].
    pose proof (reports_prints t1 P1) as R1.
    assert (Hshape : forall tail, tail = [] ->
      pacing_log ((Getfqdn ip :: t0) ++
                  (HttpGet (readme_url domain) HEADERS 5 :: t1) ++ tail)
        = [Getfqdn ip] /\
      reports ((Getfqdn ip :: t0) ++
               (HttpGet (readme_url domain) HEADERS 5 :: t1) ++ tail) = [] /\
      (length (requests ((Getfqdn ip :: t0) ++
               (HttpGet (readme_url domain) HEADERS 5 :: t1) ++ tail)) <= 1)%nat).
    { intros tail ->. rewrite app_nil_r.
      rewrite pacing_log_app, reports_app, requests_app. simpl.
      rewrite L0, L1, R0, R1, Q0, Q1. simpl. repeat split; lia. }
    destruct f as [[url version]|e].
    + destruct (truthy_value url) as [u|] eqn:Hu;
        [destruct (truthy_value version) as [v|] eqn:Hv|];
        eexists _, _;
        (split; [eapply yields_bind_ok; [exact Hd|]; rewrite Htv;
                 eapply yields_bind_ok; [exact Hf|]; simpl;
                 rewrite Hu, ?Hv; apply yields_ret
                | apply Hshape; reflexivity]).
    + exists (Raise e),
        ((Getfqdn ip :: t0) ++ HttpGet (readme_url domain) HEADERS 5 :: t1).
      split; [eapply yields_bind_ok; [exact Hd|]; rewrite Htv;
              eapply yields_bind_raise; exact Hf|].
      rewrite <- (app_nil_r (HttpGet (readme_url domain) HEADERS 5 :: t1)).
      apply Hshape. reflexivity.
  - eexists _, _. split.
    + eapply yields_bind_ok; [exact Hd|]. rewrite Htv.
      eapply yields_bind_ok; [apply yields_emit | apply yields_ret].
    + rewrite pacing_log_app, reports_app, requests_app. simpl.
      rewrite L0, R0, Q0. simpl. repeat split; lia.
Qed.

Lemma main_step_old_trace getfqdn requests_get random_uniform results ip
    (w : world) :
  exists t,
    trace (snd (OldMain.main_step getfqdn requests_get random_uniform
                  results ip w)) = trace w ++ t /\
    reports t = [] /\
    (is_ok (fst (OldMain.main_step getfqdn requests_get random_uniform
                   results ip w)) ->
     pacing_log t = [Sleep (random_uniform (drawn w) 2 6); Getfqdn ip] /\
     drawn (snd (OldMain.main_step getfqdn requests_get random_uniform
                   results ip w)) = S (drawn w) /\
     (length (requests t) <= 1)%nat).
Proof.
  destruct (main_step_after_sleep_shape getfqdn requests_get results ip)
    as (r & t & Hy & L & R & Q).
  rewrite main_step_unfold. unfold call_random_uniform. io_unfold.
  destruct (sleep_cases (random_uniform (drawn w) 2 6)
              (World (trace w) (S (drawn w)))) as [Hs | (e & Hs)];
    rewrite Hs.
  - rewrite (Hy _). cbn [fst snd trace drawn].
    exists ([Sleep (random_uniform (drawn w) 2 6)] ++ t).
    split; [rewrite app_assoc; reflexivity|].
    split; [rewrite reports_app, R; reflexivity|].
    intros _. rewrite pacing_log_app, requests_app, L. simpl.
    repeat split. exact Q.
  - cbn [fst snd trace drawn]. exists []. split; [rewrite app_nil_r; reflexivity|].
    split; [reflexivity|]. intros [x Hx]. discriminate.
Qed.

Lemma main_loop_old_trace getfqdn requests_get random_uniform ips :
  forall acc (w : world),
  exists t,
    trace (snd (for_each (OldMain.main_step getfqdn requests_get
                            random_uniform) acc ips w)) = trace w ++ t /\
    reports t = [] /\
    (is_ok (fst (for_each (OldMain.main_step getfqdn requests_get
                             random_uniform) acc ips w)) ->
     pacing_log t = pacing_plan random_uniform (drawn w) ips /\
     drawn (snd (for_each (OldMain.main_step getfqdn requests_get
                             random_uniform) acc ips w))
       = (drawn w + length ips)%nat /\
     (length (requests t) <= length ips)%nat).
Proof.
  induction ips as [|ip ips IH]; intros acc w.
  - exists []. simpl. rewrite app_nil_r. repeat split; lia.
  - destruct (main_step_old_trace getfqdn requests_get random_uniform
                acc ip w) as (t1 & T1 & R1 & O1).
    simpl. io_unfold.
    destruct (OldMain.main_step getfqdn requests_get random_uniform acc ip w)
      as [[acc'|e] w1]; cbn [fst snd] in *.
    + destruct (IH acc' w1) as (t2 & T2 & R2 & O2).
      destruct O1 as (L1 & D1 & Q1); [eexists; reflexivity|].
      exists (t1 ++ t2). split; [rewrite T2, T1, app_assoc; reflexivity|].
      split; [rewrite reports_app, R1, R2; reflexivity|].
      intros Hok. destruct (O2 Hok) as (L2 & D2 & Q2).
      rewrite pacing_log_app, requests_app, length_app, L1, L2, D2, D1.
      simpl. repeat split; lia.
    + exists t1. split; [exact T1|]. split; [exact R1|].
      intros [x Hx]. discriminate.
Qed.

Lemma main_loop_old_records getfqdn requests_get random_uniform ips :
  forall acc results (w w' : world),
  Forall extended_record acc ->
  for_each (OldMain.main_step getfqdn requests_get random_uniform) acc ips w
    = (Ok results, w') ->
  Forall extended_record results.
Proof.
  induction ips as [|ip ips IH]; intros acc results w w' Hacc.
  - simpl. intros [= <- _]. exact Hacc.
  - simpl. io_unfold.
    destruct (OldMain.main_step getfqdn requests_get random_uniform acc ip w)
      as [[acc'|e] w1] eqn:Hstep; [|discriminate].
    apply IH.
    destruct (main_step_old_appends _ _ _ _ _ _ _ _ Hstep)
      as [-> | (domain & version & -> & Hne & Hall)]; [exact Hacc|].
    apply Forall_app. split; [exact Hacc|].
    constructor; [|constructor].
    apply extended_result_record; assumption.
Qed.

(** X10.  In old-main.py every lookup comes right after a pause: a loop
    that completes has made, for each address in turn, one pause (the next
    draw of [random.uniform(2, 6)]) and then one lookup of that address, and
    at most one HTTP request for each address. *)
Theorem old_main_pacing_order
    (getfqdn : string -> result string)
    (requests_get : string -> list (string * string) -> Z -> result response)
    (random_uniform : nat -> Z -> Z -> spec_float)
    (ips : list string) (acc results : list (gmap string string))
    (w w' : world) :
  for_each (OldMain.main_step getfqdn requests_get random_uniform) acc ips w
    = (Ok results, w') ->
  exists t,
    trace w' = trace w ++ t /\
    pacing_log t = pacing_plan random_uniform (drawn w) ips /\
    drawn w' = (drawn w + length ips)%nat /\
    (length (requests t) <= length ips)%nat.
Proof.
  intros Hrun.
  destruct (main_loop_old_trace getfqdn requests_get random_uniform ips acc w)
    as (t & T & _ & O).
  rewrite Hrun in *. cbn [fst snd] in *.
  destruct O as (L & D & Q); [eexists; reflexivity|].
  exists t. auto.
Qed.

Lemma old_main_pacing_order_witness :
  exists t,
    trace (World [Sleep float_three;
                  Getfqdn "192.168.1.1";
                  HttpGet (readme_url "host.example.com") HEADERS 5;
                  Sleep float_three;
                  Getfqdn "10.0.0.1";
                  Print (NoDomainFoundForIP "10.0.0.1")] 2)
      = trace (World [] 0) ++ t /\
    pacing_log t = pacing_plan stub_uniform (drawn (World [] 0))
                     ["192.168.1.1"; "10.0.0.1"] /\
    drawn (World [Sleep float_three;
                  Getfqdn "192.168.1.1";
                  HttpGet (readme_url "host.example.com") HEADERS 5;
                  Sleep float_three;
                  Getfqdn "10.0.0.1";
                  Print (NoDomainFoundForIP "10.0.0.1")] 2)
      = (drawn (World [] 0) + length ["192.168.1.1"; "10.0.0.1"])%nat /\
    (length (requests t) <= length ["192.168.1.1"; "10.0.0.1"])%nat.
Proof.
  apply (old_main_pacing_order stub_getfqdn stub_site stub_uniform
           ["192.168.1.1"; "10.0.0.1"] []
           [result_record "host.example.com"
              (readme_url "host.example.com") "4.2.1"]
           (World [] 0)).
  vm_compute. reflexivity.
Defined.

(** Whatever the file does, the function does the same in every world, and
    does not write. *)
Lemma extract_yields_quiet open_read json_loads file_path :
  exists r t,
    yields (extract_and_format_ips open_read json_loads file_path) r t /\
    Forall (fun ev => ev = OpenRead file_path \/ is_print ev) t.
Proof.
  assert (Hprints : forall t,
    Forall is_print t ->
    Forall (fun ev => ev = OpenRead file_path \/ is_print ev) t).
  { intros t. apply List.Forall_impl. auto. }
  destruct (open_read file_path) as [file|e] eqn:Hopen.
  - destruct (extract_lines_append json_loads (lines_of file))
      as (ips & t & _ & _ & P & Y).
    pose proof (fun w => extract_and_format_ips_read _ _ _ _ _ _ w Hopen
                           (Y [])) as Hrun.
    destruct (read_error file) as [e|];
      [destruct (isinstance e FileNotFoundError)|].
    + exists (Ok ([] ++ ips)),
        (OpenRead file_path :: t ++ [Print (FileNotFound file_path)]).
      split; [exact Hrun|]. constructor; [left; reflexivity|].
      apply Hprints, Forall_app. split; [exact P|].
      repeat constructor. eexists; reflexivity.
    + exists (Raise e), (OpenRead file_path :: t).
      split; [exact Hrun|]. constructor; [left; reflexivity|].
      apply Hprints, P.
    + exists (Ok ([] ++ ips)), (OpenRead file_path :: t).
      split; [exact Hrun|]. constructor; [left; reflexivity|].
      apply Hprints, P.
  - pose proof (fun w => extract_and_format_ips_unopened open_read json_loads
                           file_path e w Hopen) as Hrun.
    destruct (isinstance e FileNotFoundError).
    + exists (Ok []), [OpenRead file_path; Print (FileNotFound file_path)].
      split; [exact Hrun|]. constructor; [left; reflexivity|].
      constructor; [right; eexists; reflexivity | constructor].
    + exists (Raise e), [OpenRead file_path].
      split; [exact Hrun|]. repeat constructor.
Qed.

Lemma reports_quiet (file_path : string) (t : list event) :
  Forall (fun ev => ev = OpenRead file_path \/ is_print ev) t ->
  reports t = [].
Proof.
  induction 1 as [|ev t [-> | [m ->]] _ IH]; [reflexivity | exact IH ..].
Qed.

(** X11.  old-main.py writes its report once or not at all.  A run that
    completes has written nothing before its last three events: the report,
    the count of its records and the closing message; every record of the
    report has the three keys, the readme URL of its domain and a version
    of digits and dots.  A run that ends with an exception has not reached
    [json.dump], unless the exception is one of the output file, raised by
    the writing or by the closing: the call of [json.dump] is then the last
    thing the run did, or the last before the count. *)
Theorem old_main_report
    (open_read : string -> result in_file)
    (json_loads : string -> result pyval)
    (getfqdn : string -> result string)
    (requests_get : string -> list (string * string) -> Z -> result response)
    (random_uniform : nat -> Z -> Z -> spec_float)
    (open_write : string -> result out_file) (w : world) :
  exists t,
    reports t = [] /\
    match fst (OldMain.main open_read json_loads getfqdn requests_get
                 random_uniform open_write w) with
    | Ok _ =>
        exists sorted,
          trace (snd (OldMain.main open_read json_loads getfqdn requests_get
                        random_uniform open_write w))
          = trace w ++ t ++
              [JsonDump "output.json" sorted 4;
               Print (SitesFound (length sorted)); Print ResultsSaved] /\
          Forall extended_record sorted
    | Raise _ =>
        trace (snd (OldMain.main open_read json_loads getfqdn requests_get
                      random_uniform open_write w)) = trace w ++ t \/
        exists sorted outfile,
          Forall extended_record sorted /\
          open_write "output.json" = Ok outfile /\
          ((write_error outfile <> None /\
            trace (snd (OldMain.main open_read json_loads getfqdn
                          requests_get random_uniform open_write w))
            = trace w ++ t ++ [JsonDump "output.json" sorted 4]) \/
           (write_error outfile = None /\ close_error outfile <> None /\
            trace (snd (OldMain.main open_read json_loads getfqdn
                          requests_get random_uniform open_write w))
            = trace w ++ t ++
                [JsonDump "output.json" sorted 4;
                 Print (SitesFound (length sorted))]))
    end.
Proof.
  rewrite main_unfold. unfold mbind, io_bind, bind.
  destruct (extract_yields_quiet open_read json_loads "input.json")
    as (r0 & t0 & Y0 & Q0).
  pose proof (reports_quiet _ _ Q0) as R0.
  rewrite (Y0 w).
  destruct r0 as [ips|e];
    [|exists t0; split; [exact R0 | left; reflexivity]].
  set (w0 := World (trace w ++ t0) (drawn w)).
  destruct (main_loop_old_trace getfqdn requests_get random_uniform ips [] w0)
    as (t1 & T1 & R1 & _).
  pose proof (main_loop_old_records getfqdn requests_get random_uniform ips
                [] ) as Hrec.
  destruct (for_each (OldMain.main_step getfqdn requests_get random_uniform)
              [] ips w0) as [[results|e] w1] eqn:Hloop; cbn [fst snd] in *.
  2:{ exists (t0 ++ t1). split; [rewrite reports_app, R0, R1; reflexivity|].
      left. rewrite T1. unfold w0. cbn [trace]. rewrite app_assoc.
      reflexivity. }
  specialize (Hrec results w0 w1 (List.Forall_nil _) Hloop).
  assert (Hw1 : trace w1 = trace w ++ t0 ++ t1).
  { rewrite T1. unfold w0. cbn [trace]. rewrite app_assoc. reflexivity. }
  unfold main_finish, mbind, io_bind, bind, lift.
  destruct (list_sort OldMain.version_key key_lt results) as [sorted|e]
    eqn:Hsort.
  2:{ exists (t0 ++ t1). split; [rewrite reports_app, R0, R1; reflexivity|].
      left. exact Hw1. }
  destruct (list_sort_extended_ok results sorted Hrec Hsort) as [_ Hsorted].
  rewrite (save_results_yields open_write sorted w1).
  destruct (open_write "output.json") as [outfile|e] eqn:Hout.
  2:{ exists (t0 ++ t1 ++ [OpenWrite "output.json"]).
      split; [rewrite !reports_app, R0, R1; reflexivity|].
      left. cbn [fst snd trace]. rewrite Hw1, <- !app_assoc. reflexivity. }
  exists (t0 ++ t1 ++ [OpenWrite "output.json"]).
  split; [rewrite !reports_app, R0, R1; reflexivity|].
  destruct outfile as [[e1|] [e2|]]; cbn [fst snd trace write_error
                                          close_error outcome].
  - right. exists sorted, (OutFile (Some e1) (Some e2)).
    split; [exact Hsorted|]. split; [reflexivity|]. left.
    split; [discriminate|]. rewrite Hw1, <- !app_assoc. reflexivity.
  - right. exists sorted, (OutFile (Some e1) None).
    split; [exact Hsorted|]. split; [reflexivity|]. left.
    split; [discriminate|]. rewrite Hw1, <- !app_assoc. reflexivity.
  - right. exists sorted, (OutFile None (Some e2)).
    split; [exact Hsorted|]. split; [reflexivity|]. right.
    split; [reflexivity|]. split; [discriminate|].
    rewrite Hw1, <- !app_assoc. reflexivity.
  - exists sorted. split; [|exact Hsorted].
    rewrite Hw1, <- !app_assoc. reflexivity.
Qed.

(** ** Lines that decode to something else than an object *)

(** X12.  A line that decodes to a JSON value other than an object never
    gives an address.  A number, [null], a boolean, or a list or string in
    which ["ip"] occurs is reported once, as a [TypeError]; a list or string
    without ["ip"] is passed over in silence. *)
Theorem extract_line_non_object
    (json_loads : string -> result pyval) (line : string) (obj : pyval) :
  json_loads (strip line) = Ok obj ->
  (forall items, obj <> PDict items) ->
  exists t,
    (t = [] \/ t = [Print (AnErrorOccurred TypeError)]) /\
    (t = [] <-> py_in "ip" obj = Ok false) /\
    forall ips w,
      extract_line json_loads ips line w =
      (Ok ips, World (trace w ++ t) (drawn w)).
Proof.
  intros H Hobj.
  assert (Hraise : py_in "ip" obj = Raise TypeError ->
    exists t,
      (t = [] \/ t = [Print (AnErrorOccurred TypeError)]) /\
      (t = [] <-> py_in "ip" obj = Ok false) /\
      forall ips w,
        extract_line json_loads ips line w =
        (Ok ips, World (trace w ++ t) (drawn w))).
  { intros Hin. exists [Print (AnErrorOccurred TypeError)].
    split; [right; reflexivity|]. split.
    - rewrite Hin. split; discriminate.
    - intros ips w. unfold extract_line. io_simpl. rewrite H, Hin.
      reflexivity. }
  assert (Hcontainer : forall b,
    py_in "ip" obj = Ok b -> py_getitem obj "ip" = Raise TypeError ->
    exists t,
      (t = [] \/ t = [Print (AnErrorOccurred TypeError)]) /\
      (t = [] <-> py_in "ip" obj = Ok false) /\
      forall ips w,
        extract_line json_loads ips line w =
        (Ok ips, World (trace w ++ t) (drawn w))).
  { intros [|] Hin Hget.
    - exists [Print (AnErrorOccurred TypeError)].
      split; [right; reflexivity|]. split.
      + rewrite Hin. split; discriminate.
      + intros ips w. unfold extract_line. io_simpl. rewrite H, Hin, Hget.
        reflexivity.
    - exists []. split; [left; reflexivity|]. split.
      + rewrite Hin. split; reflexivity.
      + intros ips w.
        rewrite (extract_line_no_ip json_loads ips line obj H Hin w).
        reflexivity. }
  destruct obj as [| b | z | f | s | l | items];
    try (apply Hraise; reflexivity).
  - apply (Hcontainer (contains "ip" s)); reflexivity.
  - eapply Hcontainer; reflexivity.
  - destruct (Hobj items eq_refl).
Qed.

Lemma extract_line_non_object_witness :
  exists t,
    (t = [] \/ t = [Print (AnErrorOccurred TypeError)]) /\
    (t = [] <-> py_in "ip" (PInt 5) = Ok false) /\
    forall ips w,
      extract_line (fun _ => Ok (PInt 5)) ips "5" w =
      (Ok ips, World (trace w ++ t) (drawn w)).
Proof.
  apply (extract_line_non_object (fun _ => Ok (PInt 5)) "5" (PInt 5));
    [reflexivity | discriminate].
Defined.

(** ** The order of versions *)

Lemma split_snoc (v p : string) :
  all_chars not_dot p = true ->
  split "." (v +:+ String "." p) = split "." v ++ [p].
Proof.
  intros Hp. induction v as [|a v IH].
  - rewrite append_empty. simpl. rewrite (split_no_sep p Hp). reflexivity.
  - rewrite append_cons. simpl. rewrite IH.
    destruct (Ascii.eqb a "."); [reflexivity|].
    pose proof (split_nonempty "." v) as Hne.
    destruct (split "." v) as [|q qs]; [contradiction | reflexivity].
Qed.

Lemma mapM_snoc_result {X Y} (f : X -> result Y) (l : list X) (x : X)
    (ks : list Y) (k : Y) :
  mapM f l = Ok ks -> f x = Ok k -> mapM f (l ++ [x]) = Ok (ks ++ [k]).
Proof.
  revert ks. induction l as [|y l IH]; intros ks Hl Hx.
  - injection Hl as <-. change ([] ++ [x]) with [x].
    rewrite mapM_cons_result, Hx. reflexivity.
  - rewrite mapM_cons_result in Hl.
    destruct (f y) as [ky|e] eqn:Hy; [|discriminate].
    destruct (mapM f l) as [ks'|e] eqn:Hl'; [|discriminate].
    injection Hl as <-.
    change ((y :: l) ++ [x]) with (y :: (l ++ [x])).
    rewrite mapM_cons_result, Hy, (IH ks' eq_refl Hx). reflexivity.
Qed.

Lemma decimal_not_dot (p : string) :
  all_chars is_decimal p = true -> all_chars not_dot p = true.
Proof.
  apply all_chars_impl. intros a.
  destruct a as [[] [] [] [] [] [] [] []]; vm_compute; congruence.
Qed.

(** The key of [v.p] is the key of [v] with the number [p] appended. *)
Lemma version_key_extend (item item' : gmap string string)
    (v p : string) (key : list key_part) :
  item !! "version" = Some v ->
  item' !! "version" = Some (v +:+ "." +:+ p) ->
  OldMain.version_key item = Ok key ->
  numeric_part p = true ->
  exists n, 0 <= n /\ int_of_str p = Ok n /\
            OldMain.version_key item' = Ok (key ++ [KInt n]).
Proof.
  intros Hv Hv' Hkey Hnum.
  destruct (int_of_str_numeric p Hnum) as (Hd & Hn).
  unfold numeric_part in Hnum. apply andb_prop in Hnum as [Hp _].
  assert (Hdec : all_chars is_decimal p = true)
    by (destruct p; [discriminate | exact Hp]).
  exists (digits_value 0 p).
  split; [apply (digits_value_nonneg p Hdec); lia|].
  split; [exact Hn|].
  unfold OldMain.version_key in *. rewrite Hv in Hkey. rewrite Hv'.
  simpl in *.
  change (v +:+ "." +:+ p) with (v +:+ String "." p).
  rewrite split_snoc by (apply decimal_not_dot, Hdec).
  apply (mapM_snoc_result _ _ _ _ _ Hkey). rewrite Hd, Hn. reflexivity.
Qed.

Lemma key_lt_prefix (k : list key_part) (x : key_part)
    (rest : list key_part) :
  key_lt k (k ++ x :: rest) = Ok true /\ key_lt (k ++ x :: rest) k = Ok false.
Proof.
  induction k as [|y k [IH1 IH2]]; simpl; [split; reflexivity|].
  rewrite part_eqb_refl. split; assumption.
Qed.

Lemma key_lt_last (k : list key_part) (n m : Z) :
  key_lt (k ++ [KInt n]) (k ++ [KInt m]) = Ok (n <? m).
Proof.
  induction k as [|y k IH]; simpl.
  - destruct (Z.eqb_spec n m) as [->|]; [|reflexivity].
    rewrite Z.ltb_irrefl. reflexivity.
  - rewrite part_eqb_refl. exact IH.
Qed.

(** X13.  A version sorts before every version that extends it by a further
    numeric component (a run of digits that [int()] reads, of 4300 digits at
    most): 4.2 comes before 4.2.0 and before 4.2.1. *)
Theorem version_extension_sorts_later
    (item item' : gmap string string) (v p : string)
    (key : list key_part) :
  item !! "version" = Some v ->
  item' !! "version" = Some (v +:+ "." +:+ p) ->
  OldMain.version_key item = Ok key ->
  numeric_part p = true ->
  exists key',
    OldMain.version_key item' = Ok key' /\
    key_lt key key' = Ok true /\ key_lt key' key = Ok false.
Proof.
  intros Hv Hv' Hkey Hp.
  destruct (version_key_extend item item' v p key Hv Hv' Hkey Hp)
    as (n & _ & _ & Hkey').
  exists (key ++ [KInt n]). split; [exact Hkey'|]. apply key_lt_prefix.
Qed.

Lemma version_extension_sorts_later_witness :
  exists key',
    OldMain.version_key (versioned "4.2.0") = Ok key' /\
    key_lt [KInt 4; KInt 2] key' = Ok true /\
    key_lt key' [KInt 4; KInt 2] = Ok false.
Proof.
  apply (version_extension_sorts_later (versioned "4.2") (versioned "4.2.0")
           "4.2" "0"); reflexivity.
Defined.

(** X14.  Components compare as numbers, not as text: two versions that
    differ in their last component only, both numeric (runs of digits that
    [int()] reads, of 4300 digits at most), are ordered by the
    integer values of those components (so 1.9 comes before 1.10, and
    neither of 1.02 and 1.2 sorts before the other). *)
Theorem last_component_numeric
    (item item1 item2 : gmap string string) (v p q : string)
    (key : list key_part) :
  item !! "version" = Some v ->
  item1 !! "version" = Some (v +:+ "." +:+ p) ->
  item2 !! "version" = Some (v +:+ "." +:+ q) ->
  OldMain.version_key item = Ok key ->
  numeric_part p = true -> numeric_part q = true ->
  exists n m key1 key2,
    int_of_str p = Ok n /\ int_of_str q = Ok m /\
    OldMain.version_key item1 = Ok key1 /\
    OldMain.version_key item2 = Ok key2 /\
    key_lt key1 key2 = Ok (n <? m) /\ key_lt key2 key1 = Ok (m <? n).
Proof.
  intros Hv H1 H2 Hkey Hp Hq.
  destruct (version_key_extend item item1 v p key Hv H1 Hkey Hp)
    as (n & _ & Hn & K1).
  destruct (version_key_extend item item2 v q key Hv H2 Hkey Hq)
    as (m & _ & Hm & K2).
  exists n, m, (key ++ [KInt n]), (key ++ [KInt m]).
  repeat split; try assumption; apply key_lt_last.
Qed.

Lemma last_component_numeric_witness :
  exists n m key1 key2,
    int_of_str "9" = Ok n /\ int_of_str "10" = Ok m /\
    OldMain.version_key (versioned "1.9") = Ok key1 /\
    OldMain.version_key (versioned "1.10") = Ok key2 /\
    key_lt key1 key2 = Ok (n <? m) /\ key_lt key2 key1 = Ok (m <? n).
Proof.
  apply (last_component_numeric (versioned "1") (versioned "1.9")
           (versioned "1.10") "1" "9" "10" [KInt 1]); reflexivity.
Defined.

(** ** The input breaks off, the output fails *)



Ltac tail_cases :=
  first [left; reflexivity | right; left; reflexivity
        | right; right; reflexivity].

(** X16.  main.py opens output.json only after the last lookup.  When the
    input was read to its end and the output file cannot be opened, written
    or closed, every address has been looked up, the run ends with an
    exception and the closing message is not printed: the run stops at the
    [open], at the [json.dump], or after the count when the closing
    fails. *)
Theorem output_failure_loses_results
    (open_read : string -> result in_file)
    (json_loads : string -> result pyval)
    (getfqdn : string -> result string)
    (open_write : string -> result out_file)
    (lines : list string) (w : world) :
  open_read "input.json" = Ok (InFile lines None) ->
  open_write "output.json" <> Ok (OutFile None None) ->
  exists ips t e tail,
    fst (extract_and_format_ips open_read json_loads "input.json" w)
      = Ok ips /\
    reports t = [] /\ pacing_log t = map Getfqdn ips /\
    Main.main open_read json_loads getfqdn open_write w =
      (Raise e,
       World (trace w ++ t ++ OpenWrite "output.json" :: tail) (drawn w)) /\
    (tail = [] \/
     tail = [JsonDump "output.json" (basic_report getfqdn ips) 4] \/
     tail = [JsonDump "output.json" (basic_report getfqdn ips) 4;
             Print (SitesFound (length (basic_report getfqdn ips)))]).
Proof.
  intros Hopen Hwrite.
  destruct (extract_lines_append json_loads lines) as (ips & t0 & _ & _ & P0 & Y0).
  pose proof (yields_extract_and_format_ips _ _ _ _ _ _ Hopen (Y0 [])) as Hx.
  destruct (main_loop_basic getfqdn ips) as (t1 & R1 & L1 & Q1 & Y1).
  destruct (prints_quiet t0 P0) as [L0 Q0].
  pose proof (save_results_yields open_write (basic_report getfqdn ips))
    as Hsave.
  assert (Hmain : forall r tail,
    yields (save_results open_write (basic_report getfqdn ips)) r
           (OpenWrite "output.json" :: tail) ->
    Main.main open_read json_loads getfqdn open_write w =
    (r, World (trace w ++ (OpenRead "input.json" :: t0 ++ t1)
                 ++ OpenWrite "output.json" :: tail) (drawn w))).
  { intros r tail Hs.
    assert (Hy : yields (Main.main open_read json_loads getfqdn open_write) r
                   ((OpenRead "input.json" :: t0) ++ t1 ++
                    OpenWrite "output.json" :: tail)).
    { rewrite main_basic_unfold.
      eapply yields_bind_ok; [exact Hx|].
      eapply yields_bind_ok; [apply (Y1 [])|]. exact Hs. }
    rewrite (Hy w). simpl. rewrite <- !app_assoc. reflexivity. }
  assert (Hpre :
    fst (extract_and_format_ips open_read json_loads "input.json" w) = Ok ips
    /\ reports (OpenRead "input.json" :: t0 ++ t1) = []
    /\ pacing_log (OpenRead "input.json" :: t0 ++ t1) = map Getfqdn ips).
  { split; [rewrite (Hx w); reflexivity|]. split.
    - simpl. rewrite reports_app, R1, (reports_prints t0 P0). reflexivity.
    - change (pacing_log (OpenRead "input.json" :: ?l)) with (pacing_log l).
      rewrite pacing_log_app, L0, L1. reflexivity. }
  destruct Hpre as (Hips & Hrep & Hlog).
  destruct (open_write "output.json") as [[[e1|] [e2|]]|e] eqn:Hout;
    simpl in Hsave.
  - exists ips, (OpenRead "input.json" :: t0 ++ t1), e2. eexists.
    repeat split; [exact Hips | exact Hrep | exact Hlog
                   | apply (Hmain _ _ Hsave) | tail_cases].
  - exists ips, (OpenRead "input.json" :: t0 ++ t1), e1. eexists.
    repeat split; [exact Hips | exact Hrep | exact Hlog
                   | apply (Hmain _ _ Hsave) | tail_cases].
  - exists ips, (OpenRead "input.json" :: t0 ++ t1), e2. eexists.
    repeat split; [exact Hips | exact Hrep | exact Hlog
                   | apply (Hmain _ _ Hsave) | tail_cases].
  - destruct (Hwrite eq_refl).
  - exists ips, (OpenRead "input.json" :: t0 ++ t1), e. eexists.
    repeat split; [exact Hips | exact Hrep | exact Hlog
                   | apply (Hmain _ _ Hsave) | tail_cases].
Qed.

Lemma output_failure_loses_results_witness :
  exists ips t e tail,
    fst (extract_and_format_ips (stub_open [line_a]) stub_loads "input.json"
           (World [] 0)) = Ok ips /\
    reports t = [] /\ pacing_log t = map Getfqdn ips /\
    Main.main (stub_open [line_a]) stub_loads stub_getfqdn
      (fun _ => Raise PermissionError) (World [] 0) =
      (Raise e,
       World (trace (World [] 0) ++ t ++ OpenWrite "output.json" :: tail)
             (drawn (World [] 0))) /\
    (tail = [] \/
     tail = [JsonDump "output.json" (basic_report stub_getfqdn ips) 4] \/
     tail = [JsonDump "output.json" (basic_report stub_getfqdn ips) 4;
             Print (SitesFound (length (basic_report stub_getfqdn ips)))]).
Proof.
  apply (output_failure_loses_results (stub_open [line_a]) stub_loads
           stub_getfqdn (fun _ => Raise PermissionError) [line_a]
           (World [] 0)); [reflexivity | discriminate].
Defined.

(** The output directory is not writable: the lookup is made, then [open]
    raises. *)
Example main_unwritable_output :
  Main.main (stub_open [line_a]) stub_loads stub_getfqdn
    (fun _ => Raise PermissionError) (World [] 0) =
  (Raise PermissionError,
   World [OpenRead "input.json";
          Print (PerformingReverseDNS "192.168.1.1");
          Getfqdn "192.168.1.1";
          Print (HostnameFound "host.example.com");
          OpenWrite "output.json"] 0).
Proof. vm_compute. reflexivity. Qed.
